(** * Verification of the oscilloscope driver (src/oscilloscope/driver.py)

    A shallow embedding of [OscilloscopeDriver] and of the helpers it uses from
    [commands.py] and [models.py], and of [OscilloscopeResources]
    (src/mcp_server/resources.py), which reads the driver for the MCP server.

    - Python [str] values are [string]s of 8-bit characters; the instrument's
      replies are ASCII (PyVISA decodes them as ASCII), and the model reads
      each character as the code point of the same number.
    - Python [bytes] values are [list byte].
    - Python [float] values are IEEE binary64 numbers, the primitive [float];
      decimal text is converted with correct rounding.
    - [self] is a record; the VISA session is a log of transport events, with
      the instrument's side of the dialogue given by a [Visa] oracle.
    - exceptions are values of [exn]; a method is a function from the state to
      an outcome ([Ok] or [Raise]) and the next state.
    - logging and [time.sleep] have no effect on the state and are left out. *)

From Stdlib Require Import ZArith List Bool Ascii String Lia.
From Stdlib.Strings Require Import Byte.
From Stdlib Require Import Floats DecimalString.

Set Warnings "-inexact-float".
Import ListNotations.

Local Open Scope string_scope.
Local Open Scope Z_scope.

(** ** Exceptions and outcomes *)

(** The exception classes the driver meets. [VisaError] stands for whatever a
    PyVISA call raises; all of them are subclasses of Python's [Exception]. *)
Inductive exn : Type :=
| ValueError (msg : string)
| IndexError (msg : string)
| TypeError (msg : string)
| AttributeError (msg : string)
| KeyError (msg : string)
| VisaError (msg : string)
| OscilloscopeError (msg : string).

(** [str(e)] for an exception built from one message. *)
Definition exn_str (e : exn) : string :=
  match e with
  | ValueError m | IndexError m | TypeError m | AttributeError m | KeyError m
  | VisaError m | OscilloscopeError m => m
  end.

Inductive result (A : Type) : Type :=
| Ok (a : A)
| Raise (e : exn).
Arguments Ok {A} a.
Arguments Raise {A} e.

Definition rbind {A B} (r : result A) (k : A -> result B) : result B :=
  match r with
  | Ok a => k a
  | Raise e => Raise e
  end.

Definition raises {A} (r : result A) : Prop := exists e, r = Raise e.

(** ** Python string operations *)

Module PyStr.

(** Characters [str.strip()] and [str.split()] treat as white space, among the
    ASCII ones: TAB, LF, VT, FF, CR, FS, GS, RS, US and the space. *)
Definition isspace (c : ascii) : bool :=
  let n := nat_of_ascii c in
  (((9 <=? n) && (n <=? 13)) || ((28 <=? n) && (n <=? 32)))%nat.

Definition isdigit (c : ascii) : bool :=
  let n := nat_of_ascii c in ((48 <=? n) && (n <=? 57))%nat.

Definition digit_value (c : ascii) : Z := Z.of_nat (nat_of_ascii c) - 48.

Definition upper_char (c : ascii) : ascii :=
  let n := nat_of_ascii c in
  if ((97 <=? n) && (n <=? 122))%nat then ascii_of_nat (n - 32) else c.

Fixpoint upper (s : string) : string :=
  match s with
  | EmptyString => EmptyString
  | String c s' => String (upper_char c) (upper s')
  end.

Fixpoint lstrip (s : string) : string :=
  match s with
  | EmptyString => EmptyString
  | String c s' => if isspace c then lstrip s' else s
  end.

Fixpoint rev_onto (s acc : string) : string :=
  match s with
  | EmptyString => acc
  | String c s' => rev_onto s' (String c acc)
  end.

Definition rev (s : string) : string := rev_onto s EmptyString.

Definition rstrip (s : string) : string := rev (lstrip (rev s)).

Definition strip (s : string) : string := rstrip (lstrip s).

(** The white space [float] and [int] skip around the number in an ASCII
    string ([Py_ISSPACE]): TAB, LF, VT, FF, CR and the space, without the
    four separators FS, GS, RS and US that [str.strip()] also removes. *)
Definition isspace_c (c : ascii) : bool :=
  let n := nat_of_ascii c in
  (((9 <=? n) && (n <=? 13)) || (n =? 32))%nat.

Fixpoint lstrip_c (s : string) : string :=
  match s with
  | EmptyString => EmptyString
  | String c s' => if isspace_c c then lstrip_c s' else s
  end.

Definition strip_c (s : string) : string := rev (lstrip_c (rev (lstrip_c s))).

(** [s.startswith(p)] *)
Fixpoint startswith (s p : string) {struct p} : bool :=
  match p, s with
  | EmptyString, _ => true
  | String _ _, EmptyString => false
  | String a p', String b s' => Ascii.eqb a b && startswith s' p'
  end.

(** [s.endswith(p)] *)
Definition endswith (s p : string) : bool := startswith (rev s) (rev p).

(** [s[:-n]] for [n > 0]. *)
Definition drop_last (n : nat) (s : string) : string :=
  substring 0 (String.length s - n) s.

(** [p in s] *)
Fixpoint contains (p s : string) : bool :=
  startswith s p ||
  match s with
  | EmptyString => false
  | String _ s' => contains p s'
  end.

(** [s.split(sep)] for a separator of one character. *)
Fixpoint split_char (sep : ascii) (s : string) : list string :=
  match s with
  | EmptyString => [EmptyString]
  | String c s' =>
      if Ascii.eqb c sep then EmptyString :: split_char sep s'
      else match split_char sep s' with
           | w :: ws => String c w :: ws
           | [] => [String c EmptyString]
           end
  end.

(** [s.split()]: the maximal runs of characters that are not white space. *)
Fixpoint split_ws_aux (s : string) (cur : string) : list string :=
  match s with
  | EmptyString =>
      match cur with EmptyString => [] | _ => [rev cur] end
  | String c s' =>
      if isspace c then
        match cur with
        | EmptyString => split_ws_aux s' EmptyString
        | _ => rev cur :: split_ws_aux s' EmptyString
        end
      else split_ws_aux s' (String c cur)
  end.

Definition split (s : string) : list string := split_ws_aux s EmptyString.

(** [l[i]] for [i >= 0]. *)
Definition getitem {A} (l : list A) (i : nat) : result A :=
  match nth_error l i with
  | Some x => Ok x
  | None => Raise (IndexError "list index out of range")
  end.

End PyStr.

(** ** Python's [float(str)] *)

Module PyFloat.
Import PyStr.

(** The correctly rounded binary64 value of [(-1)^neg * m * 10^e10]. *)
Definition of_decimal (neg : bool) (m : Z) (e10 : Z) : float :=
  SF2Prim
    match m with
    | Z0 => S754_zero neg
    | Zpos p =>
        if 0 <=? e10
        then binary_round prec emax neg (p * Z.to_pos (10 ^ e10)) 0
        else SFdiv prec emax (S754_finite neg p 0)
                             (S754_finite false (Z.to_pos (10 ^ (- e10))) 0)
    | Zneg _ => S754_nan
    end.

(** The exact float of a small integer. *)
Definition of_Z (z : Z) : float := SF2Prim (binary_normalize prec emax z 0 false).

(** Underscores are accepted between two digits only. [prev] is the character
    before [s], if any. *)
Fixpoint underscores_ok (prev : option ascii) (s : string) : bool :=
  match s with
  | EmptyString =>
      match prev with Some "_"%char => false | _ => true end
  | String c s' =>
      (if Ascii.eqb c "_"
       then match prev with Some p => isdigit p | None => false end
       else match prev with Some "_"%char => isdigit c | _ => true end)
      && underscores_ok (Some c) s'
  end.

Fixpoint remove_underscores (s : string) : string :=
  match s with
  | EmptyString => EmptyString
  | String c s' =>
      if Ascii.eqb c "_" then remove_underscores s'
      else String c (remove_underscores s')
  end.

(** The leading digits of [s], read as a number continuing [acc], how many
    there are, and what follows them. *)
Fixpoint read_digits (s : string) (acc : Z) (n : Z) : Z * Z * string :=
  match s with
  | String c s' =>
      if isdigit c then read_digits s' (10 * acc + digit_value c) (n + 1)
      else (acc, n, s)
  | EmptyString => (acc, n, s)
  end.

Definition read_sign (s : string) : bool * string :=
  match s with
  | String "-" s' => (true, s')
  | String "+" s' => (false, s')
  | _ => (false, s)
  end.

(** An exponent part [e[+-]?digits+] at the head of [s], if there is one. *)
Definition read_exponent (s : string) : Z * string :=
  match s with
  | String c s' =>
      if Ascii.eqb c "e" || Ascii.eqb c "E" then
        let '(eneg, s2) := read_sign s' in
        let '(e, n, s3) := read_digits s2 0 0 in
        if n =? 0 then (0, s) else ((if eneg then - e else e), s3)
      else (0, s)
  | EmptyString => (0, s)
  end.

(** A decimal number that fills the whole of [s]: digits with an optional
    point (at least one digit in all) and an optional exponent. *)
Definition parse_decimal (neg : bool) (s : string) : option float :=
  let '(ip, ni, s1) := read_digits s 0 0 in
  let '(m, nf, s2) :=
    match s1 with
    | String "." s1' => read_digits s1' ip 0
    | _ => (ip, 0, s1)
    end in
  if ni + nf =? 0 then None
  else
    let '(e, s3) := read_exponent s2 in
    match s3 with
    | EmptyString => Some (of_decimal neg m (e - nf))
    | _ => None
    end.

(** [inf], [infinity] and [nan], in any case. *)
Definition parse_inf_or_nan (neg : bool) (s : string) : option float :=
  let u := upper s in
  if String.eqb u "INF" || String.eqb u "INFINITY"
  then Some (if neg then neg_infinity else infinity)
  else if String.eqb u "NAN" then Some nan
  else None.

(** [float(s)]: the white space of [isspace_c] around the number is dropped;
    the message of the [ValueError] is shortened (Python appends the text it
    was given). *)
Definition float_of_str (s : string) : result float :=
  let t := strip_c s in
  let bad := Raise (ValueError "could not convert string to float") in
  if underscores_ok None t then
    let '(neg, body) := read_sign (remove_underscores t) in
    match parse_decimal neg body with
    | Some x => Ok x
    | None =>
        match parse_inf_or_nan neg body with
        | Some x => Ok x
        | None => bad
        end
    end
  else bad.

End PyFloat.

(** ** [_parse_measurement] *)

Import PyStr.

(** The unit suffixes, most specific first, with the multiplier each one sets
    and the number of characters it takes off. *)
Definition strip_unit (value_str : string) : float * string :=
  if endswith value_str "GHZ" then (1e9%float, drop_last 3 value_str)
  else if endswith value_str "MHZ" then (1e6%float, drop_last 3 value_str)
  else if endswith value_str "KHZ" then (1e3%float, drop_last 3 value_str)
  else if endswith value_str "HZ" then (1%float, drop_last 2 value_str)
  else if endswith value_str "V" then (1%float, drop_last 1 value_str)
  else if endswith value_str "S" then (1%float, drop_last 1 value_str)
  else (1%float, value_str).

(** The SI prefixes, applied on top of the unit's multiplier. *)
Definition strip_prefix (multiplier : float) (value_str : string) : float * string :=
  if endswith value_str "G" then ((multiplier * 1e9)%float, drop_last 1 value_str)
  else if endswith value_str "M" then ((multiplier * 1e6)%float, drop_last 1 value_str)
  else if endswith value_str "K" then ((multiplier * 1e3)%float, drop_last 1 value_str)
  else if endswith value_str "U" then ((multiplier * 1e-6)%float, drop_last 1 value_str)
  else if endswith value_str "N" then ((multiplier * 1e-9)%float, drop_last 1 value_str)
  else (multiplier, value_str).

(** The body of the [try] block. *)
Definition parse_measurement_try (value_str : string) : result float :=
  rbind (if contains "," value_str
         then getitem (split_char "," value_str) 1
         else Ok value_str) (fun value_str =>
  let value_str := upper (strip value_str) in
  let '(multiplier, value_str) := strip_unit value_str in
  let '(multiplier, value_str) := strip_prefix multiplier value_str in
  rbind (PyFloat.float_of_str value_str) (fun x =>
  Ok (x * multiplier)%float)).

(** [except (ValueError, IndexError): return None] *)
Definition _parse_measurement (value_str : string) : result (option float) :=
  match parse_measurement_try value_str with
  | Ok x => Ok (Some x)
  | Raise (ValueError _) | Raise (IndexError _) => Ok None
  | Raise e => Raise e
  end.

(** ** commands.py *)


(** [str(n)] for an [int]. *)
Definition str_of_int (n : Z) : string := NilZero.string_of_int (Z.to_int n).

Module SCPICommands.
Definition IDENTIFY := "*IDN?".
Definition RESET := "*RST".
Definition CLEAR_STATUS := "*CLS".
Definition CHANNEL_TRACE := "C{ch}:TRA {state}".
Definition CHANNEL_VDIV := "C{ch}:VDIV {value}".
Definition CHANNEL_OFFSET := "C{ch}:OFST {value}".
Definition CHANNEL_COUPLING := "C{ch}:CPL {mode}".
Definition CHANNEL_PROBE := "C{ch}:ATTN {ratio}".
Definition CHANNEL_BWLIMIT := "C{ch}:BWL {state}".
Definition TIME_DIV := "TDIV {value}".
Definition TIME_DELAY := "TRDL {value}".
Definition TRIGGER_SELECT := "TRSE {type},SR,C{ch},{slope},OFF".
Definition TRIGGER_MODE := "TRMD {mode}".
Definition TRIGGER_LEVEL := "C{ch}:TRLV {level}".
Definition TRIGGER_HOLDOFF := "TRHLD {time}".
Definition MEASURE_FREQ := "CYMOMETER?".
Definition MEASURE_PKPK := "C{ch}:PAVA? PKPK".
Definition MEASURE_AMPL := "C{ch}:PAVA? AMPL".
Definition MEASURE_MAX := "C{ch}:PAVA? MAX".
Definition MEASURE_MIN := "C{ch}:PAVA? MIN".
Definition MEASURE_MEAN := "C{ch}:PAVA? MEAN".
Definition MEASURE_RMS := "C{ch}:PAVA? RMS".
Definition WAVEFORM_DATA := "C{ch}:WF? DAT2".
Definition ARM_ACQUISITION := "ARM".
Definition STOP_ACQUISITION := "STOP".
Definition AUTO_SETUP := "ASET".
End SCPICommands.

Fixpoint lookup_kw (kwargs : list (string * string)) (name : string) : option string :=
  match kwargs with
  | [] => None
  | (k, v) :: rest => if String.eqb k name then Some v else lookup_kw rest name
  end.

(** [template.format] applied to keyword arguments, for templates whose replacement fields are
    plain names in braces, as all of [SCPICommands] are. [field] holds the
    name being read, reversed, while inside braces. *)
Fixpoint format_aux (template : string) (kwargs : list (string * string))
    (field : option string) : result string :=
  match template, field with
  | EmptyString, None => Ok EmptyString
  | EmptyString, Some _ => Raise (ValueError "expected '}' before end of string")
  | String c t, None =>
      if Ascii.eqb c "{" then format_aux t kwargs (Some EmptyString)
      else if Ascii.eqb c "}" then Raise (ValueError "Single '}' encountered in format string")
      else rbind (format_aux t kwargs None) (fun r => Ok (String c r))
  | String c t, Some name =>
      if Ascii.eqb c "}" then
        match lookup_kw kwargs (rev name) with
        | Some v => rbind (format_aux t kwargs None) (fun r => Ok (v ++ r))
        | None => Raise (KeyError (rev name))
        end
      else format_aux t kwargs (Some (String c name))
  end.

Definition format_command (template : string) (kwargs : list (string * string))
    : result string :=
  format_aux template kwargs None.

(** ** models.py *)

Inductive CouplingMode := DC_1M | AC_1M | DC_50 | GND.
Inductive TriggerMode := AUTO | NORMAL | SINGLE | STOP.
Inductive TriggerType := EDGE | PULSE | VIDEO | PATTERN.
Inductive TriggerSlope := RISING | FALLING | BOTH.

Definition CouplingMode_value (m : CouplingMode) : string :=
  match m with DC_1M => "D1M" | AC_1M => "A1M" | DC_50 => "D50" | GND => "GND" end.
Definition TriggerMode_value (m : TriggerMode) : string :=
  match m with AUTO => "AUTO" | NORMAL => "NORM" | SINGLE => "SINGLE" | STOP => "STOP" end.
Definition TriggerType_value (t : TriggerType) : string :=
  match t with EDGE => "EDGE" | PULSE => "PULSE" | VIDEO => "VIDEO" | PATTERN => "PATTERN" end.
Definition TriggerSlope_value (s : TriggerSlope) : string :=
  match s with RISING => "POS" | FALLING => "NEG" | BOTH => "WINDOW" end.

Record ChannelConfig := {
  cc_channel : Z;
  cc_enabled : bool;
  cc_voltage_div : string;
  cc_offset : string;
  cc_coupling : CouplingMode;
  cc_probe_ratio : Z;
  cc_bandwidth_limit : bool
}.

Record TimebaseConfig := {
  tb_time_div : string;
  tb_delay : string;
  tb_sample_rate : option string
}.

Record TriggerConfig := {
  tr_source : Z;
  tr_mode : TriggerMode;
  tr_trigger_type : TriggerType;
  tr_slope : TriggerSlope;
  tr_level : string;
  tr_holdoff : option string
}.

Record Measurements := {
  channel : Z;
  frequency : option float;
  period : option float;
  peak_to_peak : option float;
  amplitude : option float;
  maximum : option float;
  minimum : option float;
  mean : option float;
  rms : option float;
  rise_time : option float;
  fall_time : option float;
  positive_width : option float;
  negative_width : option float
}.

Record WaveformData := {
  wf_channel : Z;
  num_points : Z;
  sample_rate : float;
  voltage_scale : float;
  voltage_offset : float;
  time_scale : float;
  data_points : list float;
  time_points : list float
}.

Record ScopeStatus := {
  connected : bool;
  model : string;
  serial_number : string;
  firmware_version : string;
  channels : list ChannelConfig;
  timebase : TimebaseConfig;
  trigger : TriggerConfig;
  acquisition_running : bool;
  memory_depth : option Z
}.

(** The field defaults of the pydantic models. *)
Definition ChannelConfig_new (ch : Z) (enabled : bool) (voltage_div offset : string)
    : ChannelConfig :=
  {| cc_channel := ch; cc_enabled := enabled; cc_voltage_div := voltage_div;
     cc_offset := offset; cc_coupling := DC_1M; cc_probe_ratio := 1;
     cc_bandwidth_limit := false |}.

Definition TimebaseConfig_new (time_div delay : string) : TimebaseConfig :=
  {| tb_time_div := time_div; tb_delay := delay; tb_sample_rate := None |}.

Definition TriggerConfig_new (source : Z) (mode : TriggerMode) : TriggerConfig :=
  {| tr_source := source; tr_mode := mode; tr_trigger_type := EDGE;
     tr_slope := RISING; tr_level := "0V"; tr_holdoff := None |}.

Definition Measurements_new (ch : Z) : Measurements :=
  {| channel := ch; frequency := None; period := None; peak_to_peak := None;
     amplitude := None; maximum := None; minimum := None; mean := None;
     rms := None; rise_time := None; fall_time := None;
     positive_width := None; negative_width := None |}.

(** ** Python [bytes] operations and [numpy.frombuffer] *)

Module PyBytes.

Definition bytes := list byte.

Definition code (b : byte) : Z := Z.of_N (Byte.to_N b).

(** [Py_ISSPACE]: TAB, LF, VT, FF, CR and the space. *)
Definition isspace (b : byte) : bool :=
  ((9 <=? code b) && (code b <=? 13)) || (code b =? 32).

Definition isdigit (b : byte) : bool := (48 <=? code b) && (code b <=? 57).

Fixpoint startswith (s p : bytes) {struct p} : bool :=
  match p, s with
  | [], _ => true
  | _ :: _, [] => false
  | a :: p', b :: s' => Byte.eqb a b && startswith s' p'
  end.

(** [p in s] *)
Fixpoint contains (p s : bytes) : bool :=
  startswith s p ||
  match s with
  | [] => false
  | _ :: s' => contains p s'
  end.

(** [s.find(p)], counting from [i]: the first position of [p], or -1. *)
Fixpoint find_from (p s : bytes) (i : Z) : Z :=
  if startswith s p then i
  else match s with
       | [] => -1
       | _ :: s' => find_from p s' (i + 1)
       end.

Definition find (p s : bytes) : Z := find_from p s 0.

(** [s[a:b]], with Python's reading of negative and too large bounds. *)
Definition slice {A} (s : list A) (a b : Z) : list A :=
  let n := Z.of_nat (List.length s) in
  let clamp i := if i <? 0 then Z.max 0 (i + n) else Z.min i n in
  firstn (Z.to_nat (clamp b - clamp a)) (skipn (Z.to_nat (clamp a)) s).

Fixpoint lstrip (s : bytes) : bytes :=
  match s with
  | [] => []
  | c :: s' => if isspace c then lstrip s' else s
  end.

Definition strip (s : bytes) : bytes := List.rev (lstrip (List.rev (lstrip s))).

(** Decimal digits with single underscores between them. [prev] is the byte
    read just before, if any. *)
Fixpoint read_int_digits (s : bytes) (prev : option byte) (acc : Z) : option Z :=
  match s with
  | [] =>
      match prev with
      | Some d => if isdigit d then Some acc else None
      | None => None
      end
  | c :: s' =>
      if isdigit c then read_int_digits s' (Some c) (10 * acc + (code c - 48))
      else if Byte.eqb c "_" then
        match prev with
        | Some d => if isdigit d then read_int_digits s' (Some c) acc else None
        | None => None
        end
      else None
  end.

(** [int(s)] for a [bytes] value. *)
Definition int_of_bytes (s : bytes) : result Z :=
  let bad := Raise (ValueError "invalid literal for int() with base 10") in
  match strip s with
  | "-"%byte :: t =>
      match read_int_digits t None 0 with Some n => Ok (- n) | None => bad end
  | "+"%byte :: t =>
      match read_int_digits t None 0 with Some n => Ok n | None => bad end
  | t =>
      match read_int_digits t None 0 with Some n => Ok n | None => bad end
  end.

(** One element of [np.frombuffer(data, dtype=np.int8)]. *)
Definition int8_of_byte (b : byte) : Z :=
  if code b <? 128 then code b else code b - 256.

Definition frombuffer_int8 (data : bytes) : list Z := map int8_of_byte data.

End PyBytes.

(** ** The VISA transport *)

(** What reaches the PyVISA objects, in the order it happens. *)
Inductive Event : Type :=
| EvResourceManager (backend : option string)
| EvOpenResource (name : string)
| EvGetTimeout
| EvSetTimeout (ms : Z)
| EvWrite (cmd : string)
| EvQuery (cmd : string)
| EvReadRaw
| EvClose
| EvCloseRM.

(** The instrument's side: what each call answers (or raises), given all the
    events before it. Reading and setting the [timeout] attribute of an open
    session and the two [close] methods do not fail; PyVISA's [close] ignores
    a session that is closed already. *)
Record Visa : Type := {
  visa_resource_manager : list Event -> option string -> result unit;
  visa_open_resource : list Event -> string -> result unit;
  visa_write : list Event -> string -> result unit;
  visa_query : list Event -> string -> result string;
  visa_read_raw : list Event -> result (list byte)
}.

(** The numpy reductions [measure_channel] calls; their summation order and
    their treatment of NaN are numpy's own. *)
Record Numpy : Type := {
  np_max : list float -> float;
  np_min : list float -> float;
  np_mean : list float -> float
}.

(** ** The driver's state *)

(** The PyVISA resource behind the handle: its [timeout] attribute, and
    whether [close] has ended its session. The driver keeps the handle of a
    closed session: [disconnect] does not reset [_instrument]. *)
Record Instrument := { inst_timeout : Z; inst_closed : bool }.

Inductive ResourceManager := ResourceManager_of (backend : option string).

(** The attributes of [OscilloscopeDriver]. *)
Record Driver := {
  resource_name : string;
  timeout : Z;
  backend : option string;
  _instrument : option Instrument;
  _rm : option ResourceManager;
  _connected : bool
}.

(** [OscilloscopeDriver(resource_name, timeout, backend=backend)] *)
Definition Driver_init (resource_name : string) (timeout : Z) (backend : option string)
    : Driver :=
  {| resource_name := resource_name; timeout := timeout; backend := backend;
     _instrument := None; _rm := None; _connected := false |}.

Record World := { drv : Driver; log : list Event }.

Definition M (A : Type) : Type := World -> result A * World.

Definition ret {A} (a : A) : M A := fun w => (Ok a, w).

Definition raise {A} (e : exn) : M A := fun w => (Raise e, w).

Definition bind {A B} (m : M A) (k : A -> M B) : M B :=
  fun w =>
    match m w with
    | (Ok a, w') => k a w'
    | (Raise e, w') => (Raise e, w')
    end.

Definition lift {A} (r : result A) : M A := fun w => (r, w).

(** [try: m  except Exception as e: handler e] *)
Definition try_except {A} (m : M A) (handler : exn -> M A) : M A :=
  fun w =>
    match m w with
    | (Ok a, w') => (Ok a, w')
    | (Raise e, w') => handler e w'
    end.

(** [try: m  finally: fin] *)
Definition try_finally {A} (m : M A) (fin : M unit) : M A :=
  fun w =>
    match m w with
    | (r, w') =>
        match fin w' with
        | (Ok _, w'') => (r, w'')
        | (Raise e, w'') => (Raise e, w'')
        end
    end.

Declare Scope driver_scope.
Delimit Scope driver_scope with drv.
Notation "x <- m ;; k" := (bind m (fun x => k))
  (at level 61, m at next level, right associativity) : driver_scope.
Notation "m ;; k" := (bind m (fun _ => k))
  (at level 61, right associativity) : driver_scope.
Local Open Scope driver_scope.

Definition get_self : M Driver := fun w => (Ok (drv w), w).

Definition modify_self (f : Driver -> Driver) : M unit :=
  fun w => (Ok tt, {| drv := f (drv w); log := log w |}).

(** The world after one more transport event. *)
Definition record_event (ev : Event) (w : World) : World :=
  {| drv := drv w; log := log w ++ [ev] |}.

Definition emit (ev : Event) : M unit :=
  fun w => (Ok tt, record_event ev w).

(** A PyVISA call: the event is recorded and the oracle decides the outcome. *)
Definition visa_call {A} (ev : Event) (answer : list Event -> result A) : M A :=
  fun w => (answer (log w), record_event ev w).

Definition set_instrument (i : option Instrument) (d : Driver) : Driver :=
  {| resource_name := resource_name d; timeout := timeout d; backend := backend d;
     _instrument := i; _rm := _rm d; _connected := _connected d |}.

Definition set_rm (r : option ResourceManager) (d : Driver) : Driver :=
  {| resource_name := resource_name d; timeout := timeout d; backend := backend d;
     _instrument := _instrument d; _rm := r; _connected := _connected d |}.

Definition set_connected (b : bool) (d : Driver) : Driver :=
  {| resource_name := resource_name d; timeout := timeout d; backend := backend d;
     _instrument := _instrument d; _rm := _rm d; _connected := b |}.

Definition no_timeout_attr : exn :=
  AttributeError "'NoneType' object has no attribute 'timeout'".

(** PyVISA's [InvalidSession], raised by a resource whose session is closed. *)
Definition invalid_session : exn :=
  VisaError "Invalid session handle. The resource might be closed.".

(** [self._instrument.timeout]. On a closed session the attribute raises
    before anything reaches the transport. *)
Definition instrument_get_timeout : M Z :=
  d <- get_self ;;
  match _instrument d with
  | None => raise no_timeout_attr
  | Some i =>
      if inst_closed i then raise invalid_session
      else emit EvGetTimeout ;; ret (inst_timeout i)
  end.

(** [self._instrument.timeout = ms], with the same error on a closed session. *)
Definition instrument_set_timeout (ms : Z) : M unit :=
  d <- get_self ;;
  match _instrument d with
  | None => raise no_timeout_attr
  | Some i =>
      if inst_closed i then raise invalid_session
      else
        emit (EvSetTimeout ms) ;;
        modify_self (set_instrument (Some {| inst_timeout := ms; inst_closed := false |}))
  end.

(** The truth value of an optional string: [None] and the empty string are false. *)
Definition truthy_str (s : option string) : bool :=
  match s with
  | Some EmptyString | None => false
  | Some _ => true
  end.

(** PyVISA's default timeout of a resource just opened, in milliseconds. *)
Definition visa_default_timeout : Z := 2000.

(** ** driver.py: [OscilloscopeDriver] *)

Section OscilloscopeDriver.

Variable visa : Visa.
Variable np : Numpy.

Definition not_connected : exn := OscilloscopeError "Not connected to oscilloscope".

(** [not self._connected or not self._instrument] *)
Definition is_disconnected (d : Driver) : bool :=
  negb (_connected d) || match _instrument d with Some _ => false | None => true end.

Definition write (command : string) : M unit :=
  d <- get_self ;;
  if is_disconnected d then raise not_connected
  else
    try_except
      (visa_call (EvWrite command) (fun h => visa_write visa h command))
      (fun e => raise (OscilloscopeError ("Write failed: " ++ exn_str e))).

Definition query (command : string) : M string :=
  d <- get_self ;;
  if is_disconnected d then raise not_connected
  else
    try_except
      (r <- visa_call (EvQuery command) (fun h => visa_query visa h command) ;;
       ret (strip r))
      (fun e => raise (OscilloscopeError ("Query failed: " ++ exn_str e))).

Definition read_raw : M (list byte) :=
  d <- get_self ;;
  if is_disconnected d then raise not_connected
  else
    try_except
      (visa_call EvReadRaw (visa_read_raw visa))
      (fun e => raise (OscilloscopeError ("Read raw failed: " ++ exn_str e))).

Definition connect : M unit :=
  try_except
    (d <- get_self ;;
     (if truthy_str (backend d)
      then visa_call (EvResourceManager (backend d))
             (fun h => visa_resource_manager visa h (backend d))
      else visa_call (EvResourceManager None)
             (fun h => visa_resource_manager visa h None)) ;;
     modify_self (set_rm (Some (ResourceManager_of
                    (if truthy_str (backend d) then backend d else None)))) ;;
     visa_call (EvOpenResource (resource_name d))
       (fun h => visa_open_resource visa h (resource_name d)) ;;
     modify_self (set_instrument
                    (Some {| inst_timeout := visa_default_timeout;
                             inst_closed := false |})) ;;
     instrument_set_timeout (timeout d) ;;
     (* Mark as connected BEFORE verifying (needed for query to work) *)
     modify_self (set_connected true) ;;
     _ <- query SCPICommands.IDENTIFY ;;
     ret tt)
    (fun e =>
       modify_self (set_connected false) ;;
       raise (OscilloscopeError ("Connection failed: " ++ exn_str e))).

Definition disconnect : M unit :=
  d <- get_self ;;
  (match _instrument d with
   | Some i =>
       emit EvClose ;;
       modify_self (set_instrument
                      (Some {| inst_timeout := inst_timeout i; inst_closed := true |}))
   | None => ret tt
   end) ;;
  (match _rm d with Some _ => emit EvCloseRM | None => ret tt end) ;;
  modify_self (set_connected false).

(** [self.write(format_command(template, ...))] *)
Definition write_formatted (template : string) (kwargs : list (string * string)) : M unit :=
  cmd <- lift (format_command template kwargs) ;;
  write cmd.

Definition reset : M unit := write SCPICommands.RESET.

Definition clear_status : M unit := write SCPICommands.CLEAR_STATUS.

Definition on_off (b : bool) : string := if b then "ON" else "OFF".

Definition configure_channel (config : ChannelConfig) : M unit :=
  let ch := str_of_int (cc_channel config) in
  write_formatted SCPICommands.CHANNEL_TRACE
    [("ch", ch); ("state", on_off (cc_enabled config))] ;;
  write_formatted SCPICommands.CHANNEL_VDIV
    [("ch", ch); ("value", cc_voltage_div config)] ;;
  write_formatted SCPICommands.CHANNEL_OFFSET
    [("ch", ch); ("value", cc_offset config)] ;;
  write_formatted SCPICommands.CHANNEL_COUPLING
    [("ch", ch); ("mode", CouplingMode_value (cc_coupling config))] ;;
  write_formatted SCPICommands.CHANNEL_PROBE
    [("ch", ch); ("ratio", str_of_int (cc_probe_ratio config))] ;;
  write_formatted SCPICommands.CHANNEL_BWLIMIT
    [("ch", ch); ("state", on_off (cc_bandwidth_limit config))].

Definition enable_channel (channel : Z) (enabled : bool) : M unit :=
  write_formatted SCPICommands.CHANNEL_TRACE
    [("ch", str_of_int channel); ("state", on_off enabled)].

Record ChannelReadback := {
  rb_voltage_div : string;
  rb_coupling : string;
  rb_probe_ratio : string;
  rb_offset : string
}.

Definition get_channel_config (channel : Z) : M ChannelReadback :=
  let c := "C" ++ str_of_int channel in
  vdiv <- query (c ++ ":VDIV?") ;;
  coupling <- query (c ++ ":CPL?") ;;
  probe <- query (c ++ ":ATTN?") ;;
  offset <- query (c ++ ":OFST?") ;;
  ret {| rb_voltage_div := strip vdiv; rb_coupling := strip coupling;
         rb_probe_ratio := strip probe; rb_offset := strip offset |}.

Definition set_voltage_scale (channel : Z) (voltage_div : string) : M unit :=
  write_formatted SCPICommands.CHANNEL_VDIV
    [("ch", str_of_int channel); ("value", voltage_div)].

Definition set_voltage_offset (channel : Z) (offset : string) : M unit :=
  write_formatted SCPICommands.CHANNEL_OFFSET
    [("ch", str_of_int channel); ("value", offset)].

Definition configure_timebase (config : TimebaseConfig) : M unit :=
  write_formatted SCPICommands.TIME_DIV [("value", tb_time_div config)] ;;
  write_formatted SCPICommands.TIME_DELAY [("value", tb_delay config)].

Definition get_timebase : M (string * string) :=
  time_div <- query "TDIV?" ;;
  delay <- query "TRDL?" ;;
  ret (strip time_div, strip delay).

Definition set_time_scale (time_div : string) : M unit :=
  write_formatted SCPICommands.TIME_DIV [("value", time_div)].

Definition configure_trigger (config : TriggerConfig) : M unit :=
  let ch := str_of_int (tr_source config) in
  trigger_cmd <- lift (format_command SCPICommands.TRIGGER_SELECT
    [("type", TriggerType_value (tr_trigger_type config)); ("ch", ch);
     ("slope", TriggerSlope_value (tr_slope config))]) ;;
  write trigger_cmd ;;
  write_formatted SCPICommands.TRIGGER_MODE
    [("mode", TriggerMode_value (tr_mode config))] ;;
  write_formatted SCPICommands.TRIGGER_LEVEL
    [("ch", ch); ("level", tr_level config)] ;;
  match tr_holdoff config with
  | Some h =>
      if truthy_str (Some h)
      then write_formatted SCPICommands.TRIGGER_HOLDOFF [("time", h)]
      else ret tt
  | None => ret tt
  end.

Definition set_trigger_mode (mode : TriggerMode) : M unit :=
  write_formatted SCPICommands.TRIGGER_MODE [("mode", TriggerMode_value mode)].

Definition arm_trigger : M unit := write SCPICommands.ARM_ACQUISITION.

Definition stop_acquisition : M unit := write SCPICommands.STOP_ACQUISITION.

Definition auto_setup : M unit := write SCPICommands.AUTO_SETUP.

(** *** Screen and waveform capture *)

Definition capture_screen : M (list byte) :=
  old_timeout <- instrument_get_timeout ;;
  try_finally
    (try_except
       (instrument_set_timeout 10000 ;;
        write "SCDP" ;;
        screen_data <- read_raw ;;
        ret screen_data)
       (fun e => raise (OscilloscopeError ("Screen capture failed: " ++ exn_str e))))
    (instrument_set_timeout old_timeout).

Definition sparse_mode_for (num_points : Z) : Z :=
  if num_points <=? 200 then 10
  else if num_points <=? 500 then 6
  else if num_points <=? 1000 then 4
  else 2.

(** [(values / 25.0) * vdiv] on an int8 array. With [vdiv = None] the product
    raises [TypeError] as soon as there is an element to multiply. *)
Definition scale_samples (values : list Z) (vdiv : option float) : result (list float) :=
  match vdiv with
  | Some v => Ok (map (fun x => (PyFloat.of_Z x / 25 * v)%float) values)
  | None =>
      match values with
      | [] => Ok []
      | _ => Raise (TypeError "unsupported operand type(s) for *: 'float' and 'NoneType'")
      end
  end.

Definition _parse_waveform_data (raw_data : list byte) : M (list float) :=
  try_except
    (if PyBytes.startswith raw_data ["C"%byte] && PyBytes.contains ["#"; "9"]%byte raw_data
     then
       let header_start := PyBytes.find ["#"; "9"]%byte raw_data in
       if header_start <? 0 then ret []
       else
         let byte_count_str := PyBytes.slice raw_data (header_start + 2) (header_start + 11) in
         byte_count <- lift (PyBytes.int_of_bytes byte_count_str) ;;
         let data_start := header_start + 11 in
         let data_end := data_start + byte_count in
         let binary_data := PyBytes.slice raw_data data_start data_end in
         let values := PyBytes.frombuffer_int8 binary_data in
         vdiv_response <- query "C1:VDIV?" ;;
         vdiv <- (match vdiv_response with
                  | EmptyString => ret (Some 1%float)
                  | _ => s <- lift (getitem (split vdiv_response) 1) ;;
                         lift (_parse_measurement s)
                  end) ;;
         voltage_values <- lift (scale_samples values vdiv) ;;
         ret voltage_values
     else ret [])
    (fun e => ret []).

(** [np.arange(n) / sample_rate] *)
Definition arange_div (n : nat) (sample_rate : float) : list float :=
  map (fun i => (PyFloat.of_Z (Z.of_nat i) / sample_rate)%float) (seq 0 n).

(** The [try] / [except] / [finally] statement of [capture_waveform]: the
    transfer of the raw reply under the raised timeout. *)
Definition waveform_transfer (channel : Z) (num_points : Z) (old_timeout : Z)
    : M (list byte) :=
  try_finally
    (try_except
       (let sparse_mode := sparse_mode_for num_points in
        write ("WFSU SP," ++ str_of_int sparse_mode ++ ",NP,0,FP,0") ;;
        write "MSIZ 7K" ;;
        instrument_set_timeout 60000 ;;
        waveform_cmd <- lift (format_command SCPICommands.WAVEFORM_DATA
                                [("ch", str_of_int channel)]) ;;
        write waveform_cmd ;;
        raw_data <- read_raw ;;
        ret raw_data)
       (fun e => raise (OscilloscopeError
                          ("Waveform capture timeout or error: " ++ exn_str e))))
    (instrument_set_timeout old_timeout ;;
     try_except (write "WFSU SP,0,NP,0,FP,0") (fun _ => ret tt)).

(** The statements after it: decoding, the two scale queries, the record. *)
Definition waveform_build (channel : Z) (raw_data : list byte) : M WaveformData :=
  data_points <- _parse_waveform_data raw_data ;;
  time_div <- (cmd <- lift (format_command SCPICommands.TIME_DIV [("value", "?")]) ;;
               query cmd) ;;
  volt_div <- (cmd <- lift (format_command SCPICommands.CHANNEL_VDIV
                              [("ch", str_of_int channel); ("value", "?")]) ;;
               query cmd) ;;
  let sample_rate := 1e9%float in
  let time_points := arange_div (List.length data_points) sample_rate in
  ret {| wf_channel := channel;
         num_points := Z.of_nat (List.length data_points);
         sample_rate := sample_rate;
         voltage_scale := 1%float;
         voltage_offset := 0%float;
         time_scale := 1%float;
         data_points := data_points;
         time_points := time_points |}.

Definition capture_waveform (channel : Z) (num_points : Z) : M WaveformData :=
  old_timeout <- instrument_get_timeout ;;
  raw_data <- waveform_transfer channel num_points old_timeout ;;
  waveform_build channel raw_data.

(** *** Measurements *)

Definition set_frequency (v : option float) (m : Measurements) : Measurements :=
  {| channel := channel m; frequency := v; period := period m;
     peak_to_peak := peak_to_peak m; amplitude := amplitude m;
     maximum := maximum m; minimum := minimum m; mean := mean m; rms := rms m;
     rise_time := rise_time m; fall_time := fall_time m;
     positive_width := positive_width m; negative_width := negative_width m |}.

Definition set_period (v : option float) (m : Measurements) : Measurements :=
  {| channel := channel m; frequency := frequency m; period := v;
     peak_to_peak := peak_to_peak m; amplitude := amplitude m;
     maximum := maximum m; minimum := minimum m; mean := mean m; rms := rms m;
     rise_time := rise_time m; fall_time := fall_time m;
     positive_width := positive_width m; negative_width := negative_width m |}.

(** The six voltage statistics, assigned together. *)
Definition set_stats (pkpk ampl mx mn avg r : option float) (m : Measurements)
    : Measurements :=
  {| channel := channel m; frequency := frequency m; period := period m;
     peak_to_peak := pkpk; amplitude := ampl;
     maximum := mx; minimum := mn; mean := avg; rms := r;
     rise_time := rise_time m; fall_time := fall_time m;
     positive_width := positive_width m; negative_width := negative_width m |}.

(** [setattr(measurements, attr_name, value)] for the names of
    [measurement_funcs]. *)
Definition setattr (m : Measurements) (attr_name : string) (value : option float)
    : Measurements :=
  if String.eqb attr_name "peak_to_peak" then
    set_stats value (amplitude m) (maximum m) (minimum m) (mean m) (rms m) m
  else if String.eqb attr_name "amplitude" then
    set_stats (peak_to_peak m) value (maximum m) (minimum m) (mean m) (rms m) m
  else if String.eqb attr_name "maximum" then
    set_stats (peak_to_peak m) (amplitude m) value (minimum m) (mean m) (rms m) m
  else if String.eqb attr_name "minimum" then
    set_stats (peak_to_peak m) (amplitude m) (maximum m) value (mean m) (rms m) m
  else if String.eqb attr_name "mean" then
    set_stats (peak_to_peak m) (amplitude m) (maximum m) (minimum m) value (rms m) m
  else if String.eqb attr_name "rms" then
    set_stats (peak_to_peak m) (amplitude m) (maximum m) (minimum m) (mean m) value m
  else m.

Definition measurement_funcs : list (string * string) :=
  [ ("peak_to_peak", SCPICommands.MEASURE_PKPK);
    ("amplitude", SCPICommands.MEASURE_AMPL);
    ("maximum", SCPICommands.MEASURE_MAX);
    ("minimum", SCPICommands.MEASURE_MIN);
    ("mean", SCPICommands.MEASURE_MEAN);
    ("rms", SCPICommands.MEASURE_RMS) ].

(** The first [try] block: frequency from the counter, period from frequency.
    Nothing after the assignment of [frequency] can raise, so the handler
    finds the record as it was. *)
Definition measure_frequency (m : Measurements) : M Measurements :=
  try_except
    (result <- query SCPICommands.MEASURE_FREQ ;;
     if contains "CYMT" result then
       freq_str <- lift (getitem (split result) 1) ;;
       f <- lift (_parse_measurement freq_str) ;;
       let m := set_frequency f m in
       match f with
       | Some x =>
           if negb (x =? 0)%float && (0 <? x)%float
           then ret (set_period (Some (1 / x)%float) m)
           else ret m
       | None => ret m
       end
     else ret m)
    (fun e => ret m).

(** One turn of the [for] loop over [measurement_funcs]. *)
Definition measure_pava_one (channel : Z) (attr_name command_template : string)
    (st : Measurements * bool) : M (Measurements * bool) :=
  try_except
    (cmd <- lift (format_command command_template [("ch", str_of_int channel)]) ;;
     result <- query cmd ;;
     if negb (contains "****" result) then
       value <- lift (_parse_measurement result) ;;
       ret (setattr (fst st) attr_name value, true)
     else ret st)
    (fun e => ret st).

(** The loop: [st] is the record and the [pava_worked] flag. *)
Fixpoint measure_pava (channel : Z) (funcs : list (string * string))
    (st : Measurements * bool) : M (Measurements * bool) :=
  match funcs with
  | [] => ret st
  | (attr_name, command_template) :: rest =>
      st' <- measure_pava_one channel attr_name command_template st ;;
      measure_pava channel rest st'
  end.

(** The statistics of the fallback, from the samples of a waveform. *)
Definition stats_from_samples (data : list float) (m : Measurements) : Measurements :=
  let mx := np_max np data in
  let mn := np_min np data in
  let pkpk := (mx - mn)%float in
  let ampl := (pkpk / 2)%float in
  let avg := np_mean np data in
  let r := PrimFloat.sqrt (np_mean np (map (fun x => (x * x)%float) data)) in
  set_stats (Some pkpk) (Some ampl) (Some mx) (Some mn) (Some avg) (Some r) m.

(** [if not pava_worked: try: ... except Exception: ...] *)
Definition measure_fallback (channel : Z) (st : Measurements * bool) : M Measurements :=
  let '(m, pava_worked) := st in
  if negb pava_worked then
    try_except
      (waveform <- capture_waveform channel 1000 ;;
       match data_points waveform with
       | [] => ret m
       | _ :: _ => ret (stats_from_samples (data_points waveform) m)
       end)
      (fun e => ret m)
  else ret m.

Definition measure_channel (channel : Z) : M Measurements :=
  let measurements := Measurements_new channel in
  m <- measure_frequency measurements ;;
  st <- measure_pava channel measurement_funcs (m, false) ;;
  measure_fallback channel st.

(** *** Status *)

(** [parts[i] if len(parts) > i else "Unknown"] *)
Definition part_or_unknown (parts : list string) (i : nat) : string :=
  nth i parts "Unknown".

Definition get_status : M ScopeStatus :=
  idn <- query SCPICommands.IDENTIFY ;;
  let parts := split_char "," idn in
  let manufacturer := part_or_unknown parts 0 in
  let model := part_or_unknown parts 1 in
  let serial := part_or_unknown parts 2 in
  let firmware := part_or_unknown parts 3 in
  let channels := map (fun ch => ChannelConfig_new ch true "1V" "0V") [1; 2] in
  let timebase := TimebaseConfig_new "1MS" "0S" in
  let trigger := TriggerConfig_new 1 AUTO in
  d <- get_self ;;
  ret {| connected := _connected d;
         model := model;
         serial_number := serial;
         firmware_version := firmware;
         channels := channels;
         timebase := timebase;
         trigger := trigger;
         acquisition_running := true;
         memory_depth := None |}.

End OscilloscopeDriver.

(** ** The driver's operations, as one type

    Every public method of the driver but [connect] and [disconnect], with
    its arguments; [run_op] calls it and drops the value it returns. *)

Inductive DriverOp : Type :=
| OpWrite (command : string)
| OpQuery (command : string)
| OpReadRaw
| OpReset
| OpClearStatus
| OpConfigureChannel (config : ChannelConfig)
| OpEnableChannel (channel : Z) (enabled : bool)
| OpGetChannelConfig (channel : Z)
| OpSetVoltageScale (channel : Z) (voltage_div : string)
| OpSetVoltageOffset (channel : Z) (offset : string)
| OpConfigureTimebase (config : TimebaseConfig)
| OpGetTimebase
| OpSetTimeScale (time_div : string)
| OpConfigureTrigger (config : TriggerConfig)
| OpSetTriggerMode (mode : TriggerMode)
| OpArmTrigger
| OpStopAcquisition
| OpMeasureChannel (channel : Z)
| OpCaptureScreen
| OpCaptureWaveform (channel : Z) (num_points : Z)
| OpAutoSetup
| OpGetStatus.

Definition discard {A} (m : M A) : M unit := _ <- m ;; ret tt.

Definition run_op (visa : Visa) (np : Numpy) (op : DriverOp) : M unit :=
  match op with
  | OpWrite c => write visa c
  | OpQuery c => discard (query visa c)
  | OpReadRaw => discard (read_raw visa)
  | OpReset => reset visa
  | OpClearStatus => clear_status visa
  | OpConfigureChannel cfg => configure_channel visa cfg
  | OpEnableChannel ch b => enable_channel visa ch b
  | OpGetChannelConfig ch => discard (get_channel_config visa ch)
  | OpSetVoltageScale ch v => set_voltage_scale visa ch v
  | OpSetVoltageOffset ch o => set_voltage_offset visa ch o
  | OpConfigureTimebase cfg => configure_timebase visa cfg
  | OpGetTimebase => discard (get_timebase visa)
  | OpSetTimeScale t => set_time_scale visa t
  | OpConfigureTrigger cfg => configure_trigger visa cfg
  | OpSetTriggerMode m => set_trigger_mode visa m
  | OpArmTrigger => arm_trigger visa
  | OpStopAcquisition => stop_acquisition visa
  | OpMeasureChannel ch => discard (measure_channel visa np ch)
  | OpCaptureScreen => discard (capture_screen visa)
  | OpCaptureWaveform ch n => discard (capture_waveform visa ch n)
  | OpAutoSetup => auto_setup visa
  | OpGetStatus => discard (get_status visa)
  end.

(** The operations whose first step is [write], [query] or [read_raw]: all
    but the two captures, which touch the handle's timeout first, and
    [measure_channel], which handles every failure itself. *)
Definition starts_with_guard (op : DriverOp) : bool :=
  match op with
  | OpMeasureChannel _ | OpCaptureScreen | OpCaptureWaveform _ _ => false
  | _ => true
  end.

(** The backend [connect] hands to [pyvisa.ResourceManager]. *)
Definition chosen_backend (d : Driver) : option string :=
  if truthy_str (backend d) then backend d else None.

(** ** A bench: concrete instruments for the examples *)

Module Bench.

(** A channel-2 waveform reply: the header, a block of four samples
    (25, -25, 50, 0) and the two line feeds that end it. *)
Definition waveform_reply : list byte :=
  (list_byte_of_string "C2:WF DAT2,#9000000004" ++ [x19; xe7; x32; x00; x0a; x0a])%list.

(** An instrument with no triggered signal: every parameter query answers
    the sentinel. Channel 1 is set to 1 V per division, channel 2 to 2 V. *)
Definition scope : Visa := {|
  visa_resource_manager := fun _ _ => Ok tt;
  visa_open_resource := fun _ _ => Ok tt;
  visa_write := fun _ _ => Ok tt;
  visa_query := fun _ cmd =>
    if String.eqb cmd "*IDN?" then
      Ok "Siglent Technologies,SDS1202X-E,SDS1EEFX803161,1.3.27"
    else if String.eqb cmd "CYMOMETER?" then Ok "CYMT 1.00E+03Hz"
    else if String.eqb cmd "C1:VDIV?" then Ok "C1:VDIV 1.00E+00V"
    else if String.eqb cmd "C2:VDIV?" then Ok "C2:VDIV 2.00E+00V"
    else if String.eqb cmd "C2:VDIV ?" then Ok "C2:VDIV 2.00E+00V"
    else if contains "PAVA?" cmd then Ok "C2:PAVA PKPK,****"
    else Ok "";
  visa_read_raw := fun _ => Ok waveform_reply
|}.

(** An instrument that opens but never answers. *)
Definition mute : Visa := {|
  visa_resource_manager := fun _ _ => Ok tt;
  visa_open_resource := fun _ _ => Ok tt;
  visa_write := fun _ _ => Raise (VisaError "timeout");
  visa_query := fun _ _ => Raise (VisaError "timeout");
  visa_read_raw := fun _ => Raise (VisaError "timeout")
|}.

(** Reductions over a list, first element first; a stand-in for numpy's. *)
Definition fold_floats (f : float -> float -> float) (l : list float) : float :=
  match l with
  | [] => nan
  | x :: xs => fold_left f xs x
  end.

Definition numpy : Numpy := {|
  np_max := fold_floats (fun a b => if (a <? b)%float then b else a);
  np_min := fold_floats (fun a b => if (b <? a)%float then b else a);
  np_mean := fun l =>
    (fold_floats PrimFloat.add l / PyFloat.of_Z (Z.of_nat (List.length l)))%float
|}.

(** A driver just constructed, and the same after [connect]. *)
Definition fresh : World :=
  {| drv := Driver_init "USB0::0xF4ED::0xEE3A::INSTR" 10000 None; log := [] |}.

Definition online : World := snd (connect scope fresh).

(** A driver whose [connect] failed at the identification query: the
    resource is open, the flag is false. *)
Definition half_open : World := snd (connect mute fresh).

End Bench.

(** ** Vocabulary of the statements *)

(** A property of every step of a method: [P] relates the world before a
    call to the world after it, whatever the outcome. *)
Definition always {A} (P : World -> World -> Prop) (m : M A) : Prop :=
  forall w, P w (snd (m w)).

(** The timeout the transport was last given, read off the log. *)
Definition log_timeout (l : list Event) : option Z :=
  fold_left (fun acc ev => match ev with EvSetTimeout ms => Some ms | _ => acc end)
            l None.

(** The driver with the timeout of its handle, if it has one, blanked. *)
Definition forget_timeout (d : Driver) : Driver :=
  set_instrument
    (option_map (fun i => {| inst_timeout := 0; inst_closed := inst_closed i |})
       (_instrument d)) d.

(** The log only grows. *)
Definition log_extends (w w' : World) : Prop :=
  exists evs, log w' = (log w ++ evs)%list.

(** A step that leaves the driver and the transport's timeout alone. *)
Definition quiet (w w' : World) : Prop :=
  drv w' = drv w /\ log_timeout (log w') = log_timeout (log w) /\ log_extends w w'.

(** A step that changes no attribute of the driver but, possibly, the
    timeout of its handle. *)
Definition timeout_only (w w' : World) : Prop :=
  forget_timeout (drv w') = forget_timeout (drv w) /\ log_extends w w'.

(** The six parameter queries of [measure_channel], in the order of
    [measurement_funcs]. *)
Definition pava_commands (channel : Z) : list string :=
  map (fun p => "C" ++ str_of_int channel ++ ":PAVA? " ++ p)
      ["PKPK"; "AMPL"; "MAX"; "MIN"; "MEAN"; "RMS"].

(** The instrument answers the queries [cmds], sent one after the other
    from the history [h], with a sentinel-bearing reply each. *)
Fixpoint sentinel_replies (visa : Visa) (cmds : list string) (h : list Event) : Prop :=
  match cmds with
  | [] => True
  | c :: cs =>
      (exists r, visa_query visa h c = Ok r /\ contains "****" (strip r) = true) /\
      sentinel_replies visa cs (h ++ [EvQuery c])
  end.

(** The world after the queries [cmds] have gone out. *)
Definition after_queries (cmds : list string) (w : World) : World :=
  {| drv := drv w; log := log w ++ map EvQuery cmds |}.

(** A step that changes nothing. *)
Definition still (w w' : World) : Prop := w' = w.

(** What one turn of the parameter loop does to the record and the
    [pava_worked] flag, given the outcome of its query. *)
Definition pava_update (attr_name : string) (st : Measurements * bool)
    (r : result string) : Measurements * bool :=
  match r with
  | Ok reply =>
      if contains "****" reply then st
      else match _parse_measurement reply with
           | Ok value => (setattr (fst st) attr_name value, true)
           | Raise _ => st
           end
  | Raise _ => st
  end.

(** [cmds] are the commands the templates of [funcs] format to. *)
Definition formats_to (channel : Z) (funcs : list (string * string))
    (cmds : list string) : Prop :=
  Forall2 (fun p cmd => format_command (snd p) [("ch", str_of_int channel)] = Ok cmd)
          funcs cmds.

(** The record [capture_waveform] builds from [Bench.waveform_reply] while
    channel 1 is at 1 V per division. *)
Definition bench_waveform : WaveformData :=
  {| wf_channel := 2; num_points := 4; sample_rate := 1e9%float;
     voltage_scale := 1%float; voltage_offset := 0%float; time_scale := 1%float;
     data_points := [1; -1; 2; 0]%float;
     time_points := [0; 1e-9; 2e-9; 3e-9]%float |}.

(** A preorder on worlds, for properties that compose along a method. *)
Class StepOrder (P : World -> World -> Prop) : Prop := {
  step_refl : forall w, P w w;
  step_trans : forall a b c, P a b -> P b c -> P a c
}.

(** The events that change the transport's timeout. *)
Definition sets_timeout (ev : Event) : bool :=
  match ev with EvSetTimeout _ => true | _ => false end.

(** What a [finally] clause must do to count as restoring the timeout [t]
    of the world [w1] the override started from. *)
Definition restores (w1 : World) (t : Z) (fin : M unit) : Prop :=
  forall w2, timeout_only w1 w2 ->
    let w3 := snd (fin w2) in
    drv w3 = drv w1 /\ log_timeout (log w3) = Some t /\ log_extends w2 w3.

(** The two bytes that open the binary block of a waveform reply. *)
Definition marker : list byte := ["#"; "9"]%byte.

(** ** Vocabulary of the further properties *)

(** The commands of [cmds] that reach the transport when they are written
    one after the other from the history [h]: all those up to the first one
    the transport rejects, that one included. *)
Fixpoint written (visa : Visa) (cmds : list string) (h : list Event) : list string :=
  match cmds with
  | [] => []
  | c :: cs =>
      c :: match visa_write visa h c with
           | Ok _ => written visa cs (h ++ [EvWrite c])
           | Raise _ => []
           end
  end.

(** What such a run of writes ends in: the driver's error for the first
    rejected command, or nothing. *)
Fixpoint writes_outcome (visa : Visa) (cmds : list string) (h : list Event)
    : result unit :=
  match cmds with
  | [] => Ok tt
  | c :: cs =>
      match visa_write visa h c with
      | Ok _ => writes_outcome visa cs (h ++ [EvWrite c])
      | Raise e => Raise (OscilloscopeError ("Write failed: " ++ exn_str e))
      end
  end.

(** The same for queries: the ones that reach the transport, and the
    stripped replies or the driver's error for the first failure. *)
Fixpoint asked (visa : Visa) (cmds : list string) (h : list Event) : list string :=
  match cmds with
  | [] => []
  | c :: cs =>
      c :: match visa_query visa h c with
           | Ok _ => asked visa cs (h ++ [EvQuery c])
           | Raise _ => []
           end
  end.

Fixpoint answers (visa : Visa) (cmds : list string) (h : list Event)
    : result (list string) :=
  match cmds with
  | [] => Ok []
  | c :: cs =>
      match visa_query visa h c with
      | Ok r => rbind (answers visa cs (h ++ [EvQuery c])) (fun rs => Ok (strip r :: rs))
      | Raise e => Raise (OscilloscopeError ("Query failed: " ++ exn_str e))
      end
  end.

(** The six commands of [configure_channel]. *)
Definition channel_commands (config : ChannelConfig) : list string :=
  let c := str_of_int (cc_channel config) in
  [ "C" ++ c ++ ":TRA " ++ on_off (cc_enabled config);
    "C" ++ c ++ ":VDIV " ++ cc_voltage_div config;
    "C" ++ c ++ ":OFST " ++ cc_offset config;
    "C" ++ c ++ ":CPL " ++ CouplingMode_value (cc_coupling config);
    "C" ++ c ++ ":ATTN " ++ str_of_int (cc_probe_ratio config);
    "C" ++ c ++ ":BWL " ++ on_off (cc_bandwidth_limit config) ].

(** The two commands of [configure_timebase]. *)
Definition timebase_commands (config : TimebaseConfig) : list string :=
  [ "TDIV " ++ tb_time_div config; "TRDL " ++ tb_delay config ].

(** The commands of [configure_trigger]: three, and a fourth for a holdoff
    that is neither [None] nor empty. *)
Definition trigger_commands (config : TriggerConfig) : list string :=
  let c := str_of_int (tr_source config) in
  [ "TRSE " ++ TriggerType_value (tr_trigger_type config) ++ ",SR,C" ++ c ++ ","
      ++ TriggerSlope_value (tr_slope config) ++ ",OFF";
    "TRMD " ++ TriggerMode_value (tr_mode config);
    "C" ++ c ++ ":TRLV " ++ tr_level config ]
  ++ match tr_holdoff config with
     | Some h => if truthy_str (Some h) then ["TRHLD " ++ h] else []
     | None => []
     end.

(** The four queries of [get_channel_config]. *)
Definition channel_queries (channel : Z) : list string :=
  let c := str_of_int channel in
  [ "C" ++ c ++ ":VDIV?"; "C" ++ c ++ ":CPL?"; "C" ++ c ++ ":ATTN?"; "C" ++ c ++ ":OFST?" ].

(** The world after the commands [cmds] have been written. *)
Definition after_writes (cmds : list string) (w : World) : World :=
  {| drv := drv w; log := log w ++ map EvWrite cmds |}.

(** A string that is empty or starts with something else than white space. *)
Definition head_ok (s : string) : bool :=
  match s with
  | EmptyString => true
  | String c _ => negb (isspace c)
  end.

(** The [try] / [except] part of [capture_waveform]'s transfer. *)
Definition waveform_try (visa : Visa) (channel num_points : Z) : M (list byte) :=
  try_except
    (let sparse_mode := sparse_mode_for num_points in
     write visa ("WFSU SP," ++ str_of_int sparse_mode ++ ",NP,0,FP,0") ;;
     write visa "MSIZ 7K" ;;
     instrument_set_timeout 60000 ;;
     waveform_cmd <- lift (format_command SCPICommands.WAVEFORM_DATA
                             [("ch", str_of_int channel)]) ;;
     write visa waveform_cmd ;;
     raw_data <- read_raw visa ;;
     ret raw_data)
    (fun e => raise (OscilloscopeError
                       ("Waveform capture timeout or error: " ++ exn_str e))).

(** Every exception a method can end in satisfies [P]. *)
Definition raises_only {A} (P : exn -> Prop) (m : M A) : Prop :=
  forall w e, fst (m w) = Raise e -> P e.

Definition is_oscilloscope_error (e : exn) : Prop :=
  exists msg, e = OscilloscopeError msg.

(** The outcome of [capture_screen] on a connected driver, from the history
    [h] at its start. *)
Definition screen_outcome (visa : Visa) (h : list Event) : result (list byte) :=
  let h1 := (h ++ [EvGetTimeout; EvSetTimeout 10000])%list in
  match visa_write visa h1 "SCDP" with
  | Raise e =>
      Raise (OscilloscopeError ("Screen capture failed: Write failed: " ++ exn_str e))
  | Ok _ =>
      match visa_read_raw visa (h1 ++ [EvWrite "SCDP"]) with
      | Ok data => Ok data
      | Raise e =>
          Raise (OscilloscopeError
                   ("Screen capture failed: Read raw failed: " ++ exn_str e))
      end
  end.

(** The events of that call. *)
Definition screen_events (visa : Visa) (h : list Event) (t : Z) : list Event :=
  let h1 := (h ++ [EvGetTimeout; EvSetTimeout 10000])%list in
  [EvGetTimeout; EvSetTimeout 10000; EvWrite "SCDP"]
  ++ match visa_write visa h1 "SCDP" with
     | Ok _ => [EvReadRaw]
     | Raise _ => []
     end
  ++ [EvSetTimeout t].

(** The period [measure_channel] derives from a frequency. *)
Definition period_of (f : option float) : option float :=
  match f with
  | Some x =>
      if negb (x =? 0)%float && (0 <? x)%float then Some (1 / x)%float else None
  | None => None
  end.

(** Two records that agree on everything but the six voltage statistics. *)
Definition same_frame (m m' : Measurements) : Prop :=
  channel m' = channel m /\ frequency m' = frequency m /\ period m' = period m /\
  rise_time m' = rise_time m /\ fall_time m' = fall_time m /\
  positive_width m' = positive_width m /\ negative_width m' = negative_width m.

(** A record without any of the six voltage statistics. *)
Definition no_statistics (m : Measurements) : Prop :=
  peak_to_peak m = None /\ amplitude m = None /\ maximum m = None /\
  minimum m = None /\ mean m = None /\ rms m = None.

(** Among the queries [cmds], sent one after the other from the history
    [h], at least one is answered without the sentinel. *)
Fixpoint usable_reply (visa : Visa) (cmds : list string) (h : list Event) : Prop :=
  match cmds with
  | [] => False
  | c :: cs =>
      (exists r, visa_query visa h c = Ok r /\ contains "****" (strip r) = false) \/
      usable_reply visa cs (h ++ [EvQuery c])
  end.

(** ** The context manager *)

Section ContextManager.

Variable visa : Visa.

(** [__enter__]: connects unless the flag is set already. *)
Definition __enter__ : M unit :=
  d <- get_self ;;
  if negb (_connected d) then connect visa else ret tt.

(** [__exit__]: disconnects and returns [False]. *)
Definition __exit__ : M bool := disconnect ;; ret false.

(** [with driver: body]. [__exit__] is called when the body returns and when
    it raises; the exception is dropped when [__exit__] returns true, and the
    statement then has no value. When [__enter__] raises neither the body nor
    [__exit__] runs. *)
Definition with_driver {A} (body : M A) : M (option A) :=
  __enter__ ;;
  (fun w =>
     match body w with
     | (Ok a, w') => (__exit__ ;; ret (Some a)) w'
     | (Raise e, w') =>
         (suppress <- __exit__ ;; if suppress then ret None else raise e) w'
     end).

End ContextManager.

(** The volts per division [_parse_waveform_data] takes from the stripped
    reply to [C1:VDIV?]: 1.0 for an empty reply, the second word otherwise. *)
Definition vdiv_of_reply (vdiv_response : string) : result (option float) :=
  match vdiv_response with
  | EmptyString => Ok (Some 1%float)
  | _ => rbind (getitem (split vdiv_response) 1) _parse_measurement
  end.

(** The events that close a session. *)
Definition closes (ev : Event) : bool :=
  match ev with EvClose | EvCloseRM => true | _ => false end.

(** The string ends with a decimal digit. *)
Definition ends_with_digit (s : string) : bool :=
  match rev s with
  | String c _ => isdigit c
  | EmptyString => false
  end.

(** What [_parse_measurement] makes of the letters after a number: the
    suffix, in upper case, and the factor the number is multiplied by. *)
Definition suffix_table : list (string * float) :=
  [ ("", 1); ("V", 1); ("S", 1); ("HZ", 1);
    ("KHZ", 1e3); ("MHZ", 1e6); ("GHZ", 1e9);
    ("G", 1e9); ("M", 1e6); ("K", 1e3); ("U", 1e-6); ("N", 1e-9);
    ("GV", 1e9); ("MV", 1e6); ("KV", 1e3); ("UV", 1e-6); ("NV", 1e-9);
    ("GS", 1e9); ("MS", 1e6); ("KS", 1e3); ("US", 1e-6); ("NS", 1e-9);
    ("UHZ", 1e-6); ("NHZ", 1e-9) ]%float.

(** ** Python builtins the resources use *)

Module PyBuiltins.

Definition backslash : ascii := ascii_of_nat 92.
Definition double_quote : ascii := ascii_of_nat 34.

Definition hex_digit (n : nat) : ascii :=
  nth n ["0"; "1"; "2"; "3"; "4"; "5"; "6"; "7"; "8"; "9";
         "a"; "b"; "c"; "d"; "e"; "f"]%char "0"%char.

(** One character of [repr(s)], between quotes [quote]: the quote and the
    backslash are escaped, TAB, LF and CR have their letters, and the other
    characters that are not printable are written in hexadecimal. *)
Definition repr_char (quote c : ascii) : string :=
  let n := nat_of_ascii c in
  if Ascii.eqb c quote || Ascii.eqb c backslash then String backslash (String c "")
  else if (n =? 9)%nat then String backslash "t"
  else if (n =? 10)%nat then String backslash "n"
  else if (n =? 13)%nat then String backslash "r"
  else if ((n <? 32) || ((127 <=? n) && (n <=? 160)) || (n =? 173))%nat
  then String backslash
         (String "x" (String (hex_digit (n / 16)) (String (hex_digit (n mod 16)) "")))
  else String c "".

Fixpoint repr_chars (quote : ascii) (s : string) : string :=
  match s with
  | EmptyString => String quote ""
  | String c s' => repr_char quote c ++ repr_chars quote s'
  end.

(** [repr(s)] for a [str]: single quotes, unless the string has one and has
    no double quote. *)
Definition repr (s : string) : string :=
  let quote :=
    if contains "'" s && negb (contains (String double_quote "") s)
    then double_quote else "'"%char in
  String quote (repr_chars quote s).

(** Decimal digits with single underscores between them. [prev] is the
    character read just before, if any. *)
Fixpoint read_int_digits (s : string) (prev : option ascii) (acc : Z) : option Z :=
  match s with
  | EmptyString =>
      match prev with
      | Some d => if isdigit d then Some acc else None
      | None => None
      end
  | String c s' =>
      if isdigit c then read_int_digits s' (Some c) (10 * acc + digit_value c)
      else if Ascii.eqb c "_" then
        match prev with
        | Some d => if isdigit d then read_int_digits s' (Some c) acc else None
        | None => None
        end
      else None
  end.

(** [int(s)] for a [str]; the white space around the number is that of
    [isspace_c]. *)
Definition int_of_str (s : string) : result Z :=
  let bad := Raise (ValueError ("invalid literal for int() with base 10: " ++ repr s)) in
  match strip_c s with
  | String "-" t =>
      match read_int_digits t None 0 with Some n => Ok (- n) | None => bad end
  | String "+" t =>
      match read_int_digits t None 0 with Some n => Ok n | None => bad end
  | t =>
      match read_int_digits t None 0 with Some n => Ok n | None => bad end
  end.

(** [min(l)] and [max(l)] for a list of floats: the first of the smallest
    (largest) elements; the text of the error is CPython's up to 3.11. *)
Definition py_min (l : list float) : result float :=
  match l with
  | [] => Raise (ValueError "min() arg is an empty sequence")
  | x :: xs => Ok (fold_left (fun m item => if (item <? m)%float then item else m) xs x)
  end.

Definition py_max (l : list float) : result float :=
  match l with
  | [] => Raise (ValueError "max() arg is an empty sequence")
  | x :: xs => Ok (fold_left (fun m item => if (m <? item)%float then item else m) xs x)
  end.

End PyBuiltins.

(** ** mcp_server/resources.py: [OscilloscopeResources] *)

Set Warnings "-register-all".

(** The values [json.dumps] is given. *)
Inductive Json : Type :=
| JNull
| JBool (b : bool)
| JInt (n : Z)
| JFloat (x : float)
| JStr (s : string)
| JList (l : list Json)
| JDict (items : list (string * Json)).

(** An optional value: [None] is [null]. *)
Definition json_opt {A} (f : A -> Json) (o : option A) : Json :=
  match o with
  | Some a => f a
  | None => JNull
  end.

Record ResourceContents := { uri : string; mimeType : string; text : string }.

Section OscilloscopeResources.

Variable visa : Visa.
Variable np : Numpy.

(** [json.dumps(data, indent=2)]. *)
Variable json_dumps : Json -> string.

(** [sum(l)] for a list of floats; its rounding depends on the version of
    the interpreter. *)
Variable py_sum : list float -> float.

(** [ResourceContents(uri=..., mimeType=..., text=...)]: the constructor
    validates the URI and may reject it. *)
Variable new_contents : string -> string -> string -> result ResourceContents.

Import PyBuiltins.

Definition _read_status : M ResourceContents :=
  status <- get_status visa ;;
  let data := JDict
    [ ("connected", JBool (connected status));
      ("model", JStr (model status));
      ("serial_number", JStr (serial_number status));
      ("firmware_version", JStr (firmware_version status));
      ("acquisition_running", JBool (acquisition_running status));
      ("memory_depth", json_opt JInt (memory_depth status)) ] in
  lift (new_contents "scope://status" "application/json" (json_dumps data)).

(** The placeholder the code returns; the driver is not asked. *)
Definition _read_channel_config (channel : Z) : M ResourceContents :=
  let data := JDict
    [ ("channel", JInt channel);
      ("enabled", JBool true);
      ("voltage_div", JStr "1V");
      ("offset", JStr "0V");
      ("coupling", JStr "DC_1M");
      ("probe_ratio", JInt 1);
      ("bandwidth_limit", JBool false) ] in
  lift (new_contents ("scope://channels/" ++ str_of_int channel ++ "/config")
          "application/json" (json_dumps data)).

Definition _read_channel_measurements (ch : Z) : M ResourceContents :=
  measurements <- measure_channel visa np ch ;;
  let data := JDict
    [ ("channel", JInt (channel measurements));
      ("frequency_hz", json_opt JFloat (frequency measurements));
      ("period_s", json_opt JFloat (period measurements));
      ("peak_to_peak_v", json_opt JFloat (peak_to_peak measurements));
      ("amplitude_v", json_opt JFloat (amplitude measurements));
      ("maximum_v", json_opt JFloat (maximum measurements));
      ("minimum_v", json_opt JFloat (minimum measurements));
      ("mean_v", json_opt JFloat (mean measurements));
      ("rms_v", json_opt JFloat (rms measurements));
      ("rise_time_s", json_opt JFloat (rise_time measurements));
      ("fall_time_s", json_opt JFloat (fall_time measurements)) ] in
  lift (new_contents ("scope://channels/" ++ str_of_int ch ++ "/measurements")
          "application/json" (json_dumps data)).

(** The summary of a capture of 1400 points, the default of
    [capture_waveform]. The division by the number of samples cannot fail:
    [min] has accepted the list before, so it is not empty. *)
Definition _read_waveform (ch : Z) : M ResourceContents :=
  waveform <- capture_waveform visa ch 1400 ;;
  time_min <- lift (py_min (time_points waveform)) ;;
  time_max <- lift (py_max (time_points waveform)) ;;
  voltage_min <- lift (py_min (data_points waveform)) ;;
  voltage_max <- lift (py_max (data_points waveform)) ;;
  let mean := (py_sum (data_points waveform)
               / PyFloat.of_Z (Z.of_nat (List.length (data_points waveform))))%float in
  stat_min <- lift (py_min (data_points waveform)) ;;
  stat_max <- lift (py_max (data_points waveform)) ;;
  let data := JDict
    [ ("channel", JInt (wf_channel waveform));
      ("num_points", JInt (num_points waveform));
      ("sample_rate_hz", JFloat (sample_rate waveform));
      ("voltage_scale", JFloat (voltage_scale waveform));
      ("voltage_offset", JFloat (voltage_offset waveform));
      ("time_scale", JFloat (time_scale waveform));
      ("time_range_s", JList [JFloat time_min; JFloat time_max]);
      ("voltage_range_v", JList [JFloat voltage_min; JFloat voltage_max]);
      ("statistics", JDict [ ("mean", JFloat mean);
                             ("min", JFloat stat_min);
                             ("max", JFloat stat_max) ]);
      ("note", JStr "Use capture_waveform tool to get full data points") ] in
  lift (new_contents ("scope://waveform/" ++ str_of_int ch)
          "application/json" (json_dumps data)).

Definition _read_trigger_status : M ResourceContents :=
  status <- get_status visa ;;
  let data := JDict
    [ ("source_channel", JInt (tr_source (trigger status)));
      ("mode", JStr (TriggerMode_value (tr_mode (trigger status))));
      ("trigger_type", JStr (TriggerType_value (tr_trigger_type (trigger status))));
      ("slope", JStr (TriggerSlope_value (tr_slope (trigger status))));
      ("level", JStr (tr_level (trigger status)));
      ("holdoff", json_opt JStr (tr_holdoff (trigger status))) ] in
  lift (new_contents "scope://trigger/status" "application/json" (json_dumps data)).

Definition _read_timebase_config : M ResourceContents :=
  status <- get_status visa ;;
  let data := JDict
    [ ("time_div", JStr (tb_time_div (timebase status)));
      ("delay", JStr (tb_delay (timebase status)));
      ("sample_rate", json_opt JStr (tb_sample_rate (timebase status))) ] in
  lift (new_contents "scope://timebase/config" "application/json" (json_dumps data)).

Definition read_resource (uri : string) : M ResourceContents :=
  try_except
    (if String.eqb uri "scope://status" then _read_status
     else if startswith uri "scope://channels/" && endswith uri "/config" then
       ch <- lift (rbind (getitem (split_char "/" uri) 2) int_of_str) ;;
       _read_channel_config ch
     else if startswith uri "scope://channels/" && endswith uri "/measurements" then
       ch <- lift (rbind (getitem (split_char "/" uri) 2) int_of_str) ;;
       _read_channel_measurements ch
     else if startswith uri "scope://waveform/" then
       ch <- lift (rbind (getitem (split_char "/" uri) 2) int_of_str) ;;
       _read_waveform ch
     else if String.eqb uri "scope://trigger/status" then _read_trigger_status
     else if String.eqb uri "scope://timebase/config" then _read_timebase_config
     else lift (new_contents uri "text/plain" ("Unknown resource: " ++ uri)))
    (fun e =>
       lift (new_contents uri "text/plain"
               ("Error reading resource " ++ uri ++ ": " ++ exn_str e))).

End OscilloscopeResources.

(** The URIs whose readers ask the driver for its status. *)
Definition status_uris : list string :=
  ["scope://status"; "scope://trigger/status"; "scope://timebase/config"].

(** What the handler of [read_resource] answers for the exception [e]. *)
Definition reading_failed (new_contents : string -> string -> string -> result ResourceContents)
    (uri : string) (e : exn) : result ResourceContents :=
  new_contents uri "text/plain" ("Error reading resource " ++ uri ++ ": " ++ exn_str e).

(** More instruments for the examples. *)
Module Lab.

(** A scope with a signal: every parameter query answers 2.5 V. *)
Definition live : Visa := {|
  visa_resource_manager := fun _ _ => Ok tt;
  visa_open_resource := fun _ _ => Ok tt;
  visa_write := fun _ _ => Ok tt;
  visa_query := fun _ cmd =>
    if String.eqb cmd "CYMOMETER?" then Ok "CYMT 1.00E+03Hz"
    else if contains "PAVA?" cmd then Ok "C1:PAVA PKPK,2.50E+00V"
    else Ok "C1:VDIV 1.00E+00V";
  visa_read_raw := fun _ => Ok Bench.waveform_reply
|}.

(** A scope without a signal whose binary transfer times out. *)
Definition stalled : Visa := {|
  visa_resource_manager := fun _ _ => Ok tt;
  visa_open_resource := fun _ _ => Ok tt;
  visa_write := fun _ _ => Ok tt;
  visa_query := fun _ cmd =>
    if contains "PAVA?" cmd then Ok "C1:PAVA PKPK,****" else Ok "C1:VDIV 1.00E+00V";
  visa_read_raw := fun _ => Raise (VisaError "timeout")
|}.

(** A scope that rejects the coupling command and nothing else. *)
Definition picky : Visa := {|
  visa_resource_manager := fun _ _ => Ok tt;
  visa_open_resource := fun _ _ => Ok tt;
  visa_write := fun _ cmd =>
    if contains ":CPL " cmd then Raise (VisaError "rejected") else Ok tt;
  visa_query := fun _ _ => Ok " 1.00E+00V  ";
  visa_read_raw := fun _ => Raise (VisaError "timeout")
|}.

(** The driver after a successful [connect] to the instrument [v]. *)
Definition connected_to (v : Visa) : World := snd (connect v Bench.fresh).

(** A serializer that keeps the keys of a dictionary and nothing else. *)
Definition dumps (j : Json) : string :=
  match j with
  | JDict items => String.concat "," (map fst items)
  | _ => "null"
  end.

(** A constructor of contents that accepts every URI. *)
Definition contents (u m t : string) : result ResourceContents :=
  Ok {| uri := u; mimeType := m; text := t |}.

(** Summation from the left. *)
Definition total (l : list float) : float := fold_left PrimFloat.add l 0%float.

(** The bench driver after [disconnect]: the handle is kept, its session is
    closed. *)
Definition hung_up : World := snd (disconnect Bench.online).

(** A driver constructed with a timeout of two minutes, connected to the
    bench. *)
Definition patient : World :=
  snd (connect Bench.scope
         {| drv := Driver_init "USB0::0xF4ED::0xEE3A::INSTR" 120000 None; log := [] |}).

(** A truncated waveform reply: ten bytes declared, two sent. *)
Definition short_reply : list byte :=
  (list_byte_of_string "C1:WF DAT2,#9000000010" ++ [x19; xe7])%list.

End Lab.

(** A step that leaves the driver alone and adds to the log only events
    that [ok] accepts. *)
Definition only_events (ok : Event -> bool) (w w' : World) : Prop :=
  drv w' = drv w /\
  exists evs, log w' = (log w ++ evs)%list /\ forallb ok evs = true.

(** The events of a transfer: commands written and data read. *)
Definition is_transfer (ev : Event) : bool :=
  match ev with
  | EvWrite _ | EvReadRaw => true
  | _ => false
  end.

(** Commands and queries: text only, no timeout and no binary read. *)
Definition is_text (ev : Event) : bool :=
  match ev with
  | EvWrite _ | EvQuery _ => true
  | _ => false
  end.

(** The two commands [capture_waveform] sends before it overrides the
    timeout. *)
Definition waveform_setup (num_points : Z) : list string :=
  [ "WFSU SP," ++ str_of_int (sparse_mode_for num_points) ++ ",NP,0,FP,0"; "MSIZ 7K" ].

(** Those of them that reach the transport when the capture starts in the
    world [w]: none on a driver that is not connected, and none after the
    first one the transport rejects. *)
Definition setup_sent (visa : Visa) (num_points : Z) (w : World) : list string :=
  if is_disconnected (drv w) then []
  else written visa (waveform_setup num_points) (log w ++ [EvGetTimeout]).

(** The driver is connected and the transport accepts both. *)
Definition setup_accepted (visa : Visa) (num_points : Z) (w : World) : bool :=
  negb (is_disconnected (drv w)) &&
  match writes_outcome visa (waveform_setup num_points) (log w ++ [EvGetTimeout]) with
  | Ok _ => true
  | Raise _ => false
  end.

(** * Properties *)

(** ** [_parse_measurement] *)

Section ParseMeasurement.

Lemma float_of_str_raises_ValueError (s : string) (e : exn) :
  PyFloat.float_of_str s = Raise e -> exists msg, e = ValueError msg.
Proof.
  unfold PyFloat.float_of_str.
  destruct (PyFloat.underscores_ok None (strip_c s)).
  - destruct (PyFloat.read_sign _) as [neg body].
    destruct (PyFloat.parse_decimal neg body); [discriminate|].
    destruct (PyFloat.parse_inf_or_nan neg body); [discriminate|].
    intros [= <-]. eauto.
  - intros [= <-]. eauto.
Qed.

Lemma getitem_raises_IndexError {A} (l : list A) (i : nat) (e : exn) :
  getitem l i = Raise e -> exists msg, e = IndexError msg.
Proof.
  unfold getitem. destruct (nth_error l i); [discriminate|].
  intros [= <-]. eauto.
Qed.

(** Whatever the [try] block raises is one of the two classes the handler
    names. *)
Lemma parse_measurement_try_raises (s : string) (e : exn) :
  parse_measurement_try s = Raise e ->
  (exists msg, e = ValueError msg) \/ (exists msg, e = IndexError msg).
Proof.
  unfold parse_measurement_try.
  destruct (contains "," s); simpl.
  - destruct (getitem (split_char "," s) 1) as [v|e'] eqn:E; simpl.
    + destruct (strip_unit _) as [mu vs].
      destruct (strip_prefix mu vs) as [mu' vs'].
      destruct (PyFloat.float_of_str vs') eqn:F; simpl; [discriminate|].
      intros [= <-]. left. eapply float_of_str_raises_ValueError; eauto.
    + intros [= <-]. right. eapply getitem_raises_IndexError; eauto.
  - destruct (strip_unit _) as [mu vs].
    destruct (strip_prefix mu vs) as [mu' vs'].
    destruct (PyFloat.float_of_str vs') eqn:F; simpl; [discriminate|].
    intros [= <-]. left. eapply float_of_str_raises_ValueError; eauto.
Qed.

(** [_parse_measurement] returns for every reply: a number or [None]. *)
Lemma parse_measurement_never_raises (s : string) :
  exists r, _parse_measurement s = Ok r.
Proof.
  unfold _parse_measurement.
  destruct (parse_measurement_try s) as [x|e] eqn:E; [eauto|].
  destruct (parse_measurement_try_raises s e E) as [[m ->]|[m ->]]; eauto.
Qed.

(** A remainder [float] rejects gives [None]. *)
Lemma parse_measurement_not_numeric (s : string) (msg : string) :
  parse_measurement_try s = Raise (ValueError msg) ->
  _parse_measurement s = Ok None.
Proof. unfold _parse_measurement. now intros ->. Qed.

(** The formats of the driver's tests that the code reads as the tests say. *)
Lemma parse_measurement_known_formats :
  _parse_measurement "C1:PAVA FREQ,1.5KHZ" = Ok (Some 1500%float) /\
  _parse_measurement "C1:PAVA PKPK,2.5V" = Ok (Some 2.5%float) /\
  _parse_measurement "1.5MHZ" = Ok (Some 1500000%float).
Proof. repeat split; vm_compute; reflexivity. Qed.

(** Sentinel, empty and non-numeric replies give [None]. *)
Lemma parse_measurement_absent :
  _parse_measurement "****" = Ok None /\
  _parse_measurement "C2:PAVA AMPL,****" = Ok None /\
  _parse_measurement "" = Ok None /\
  _parse_measurement "   " = Ok None /\
  _parse_measurement "abc" = Ok None /\
  _parse_measurement "C1:PAVA PKPK," = Ok None.
Proof. repeat split; vm_compute; reflexivity. Qed.

(** [float] and [int] do not skip the separators FS to US that
    [str.strip()] removes: a reply with one of them between the number and
    the unit has no value, and [int] rejects a number that follows one. *)
Lemma separators_are_not_skipped :
  _parse_measurement
    (String "2" (String "." (String "5" (String (ascii_of_nat 28) "V")))) = Ok None /\
  strip (String (ascii_of_nat 28) "5") = "5" /\
  raises (PyFloat.float_of_str (String (ascii_of_nat 28) "5")) /\
  raises (PyBuiltins.int_of_str (String (ascii_of_nat 28) "5")) /\
  PyFloat.float_of_str " 5 " = Ok 5%float /\
  PyBuiltins.int_of_str " 5 " = Ok 5.
Proof.
  split; [vm_compute; reflexivity|]. split; [reflexivity|].
  split; [eexists; vm_compute; reflexivity|].
  split; [eexists; vm_compute; reflexivity|].
  split; vm_compute; reflexivity.
Qed.

(** C1 (code at the failing input). The claim reads ["500MV"] as 0.5, five
    hundred millivolts, as the driver's test [test_parse_measurement] does.
    The code strips the unit [V], then takes the trailing [M] for mega and
    returns five hundred million. *)
Theorem C1_parse_measurement_500MV :
  _parse_measurement "500MV" = Ok (Some 500000000%float) /\
  _parse_measurement "500MV" <> Ok (Some 0.5%float).
Proof.
  split.
  - vm_compute; reflexivity.
  - vm_compute. discriminate.
Qed.

End ParseMeasurement.

(** ** The guarded transport calls *)

Section TransportFacts.

Variable visa : Visa.

Lemma write_disconnected (command : string) (w : World) :
  is_disconnected (drv w) = true ->
  write visa command w = (Raise not_connected, w).
Proof. intros H. unfold write, bind, get_self. now rewrite H. Qed.

Lemma write_connected (command : string) (w : World) :
  is_disconnected (drv w) = false ->
  write visa command w =
    (match visa_write visa (log w) command with
     | Ok u => Ok u
     | Raise e => Raise (OscilloscopeError ("Write failed: " ++ exn_str e))
     end, record_event (EvWrite command) w).
Proof.
  intros H. unfold write, bind, get_self, try_except, visa_call, raise.
  rewrite H. now destruct (visa_write visa (log w) command).
Qed.

Lemma query_disconnected (command : string) (w : World) :
  is_disconnected (drv w) = true ->
  query visa command w = (Raise not_connected, w).
Proof. intros H. unfold query, bind, get_self. now rewrite H. Qed.

Lemma query_connected (command : string) (w : World) :
  is_disconnected (drv w) = false ->
  query visa command w =
    (match visa_query visa (log w) command with
     | Ok r => Ok (strip r)
     | Raise e => Raise (OscilloscopeError ("Query failed: " ++ exn_str e))
     end, record_event (EvQuery command) w).
Proof.
  intros H. unfold query, bind, get_self, try_except, visa_call, raise, ret.
  rewrite H. now destruct (visa_query visa (log w) command).
Qed.

Lemma read_raw_disconnected (w : World) :
  is_disconnected (drv w) = true ->
  read_raw visa w = (Raise not_connected, w).
Proof. intros H. unfold read_raw, bind, get_self. now rewrite H. Qed.

Lemma read_raw_connected (w : World) :
  is_disconnected (drv w) = false ->
  read_raw visa w =
    (match visa_read_raw visa (log w) with
     | Ok r => Ok r
     | Raise e => Raise (OscilloscopeError ("Read raw failed: " ++ exn_str e))
     end, record_event EvReadRaw w).
Proof.
  intros H. unfold read_raw, bind, get_self, try_except, visa_call, raise.
  rewrite H. now destruct (visa_read_raw visa (log w)).
Qed.

Lemma write_formatted_disconnected (template : string)
    (kwargs : list (string * string)) (cmd : string) (w : World) :
  format_command template kwargs = Ok cmd ->
  is_disconnected (drv w) = true ->
  write_formatted visa template kwargs w = (Raise not_connected, w).
Proof.
  intros F H. unfold write_formatted, bind, lift. rewrite F.
  now apply write_disconnected.
Qed.

(** Whatever [query] raises is an [OscilloscopeError]. *)
Lemma query_raises (command : string) (w w' : World) (e : exn) :
  query visa command w = (Raise e, w') ->
  e = not_connected \/ exists cause, e = OscilloscopeError ("Query failed: " ++ cause).
Proof.
  destruct (is_disconnected (drv w)) eqn:H.
  - rewrite query_disconnected by assumption. intros [= <- _]. now left.
  - rewrite query_connected by assumption.
    destruct (visa_query visa (log w) command) as [r|e0]; intros [= <- _].
    right. now exists (exn_str e0).
Qed.

(** Nothing reaches the transport through [query] unless the connected
    flag is set. *)
Lemma query_sends_only_when_flag_set (command : string) (w : World) :
  log (snd (query visa command w)) <> log w -> _connected (drv w) = true.
Proof.
  intros Hl. destruct (is_disconnected (drv w)) eqn:H.
  - rewrite (query_disconnected command w H) in Hl. now contradiction Hl.
  - unfold is_disconnected in H. apply orb_false_iff in H as [H _].
    now apply negb_false_iff in H.
Qed.

End TransportFacts.

(** ** [disconnect] *)

(** C8. [disconnect] returns normally from every state, a driver that never
    connected included, and leaves the driver disconnected; so does a second
    call right after the first. On a driver that never connected it touches
    nothing. *)
Theorem C8_disconnect_idempotent :
  (forall w : World,
     exists w', disconnect w = (Ok tt, w') /\
                _connected (drv w') = false /\
                is_disconnected (drv w') = true) /\
  (forall w : World,
     exists w'', (disconnect ;; disconnect) w = (Ok tt, w'') /\
                 _connected (drv w'') = false /\
                 drv w'' = drv (snd (disconnect w))) /\
  (forall (name : string) (t : Z) (b : option string) (l : list Event),
     disconnect {| drv := Driver_init name t b; log := l |} =
       (Ok tt, {| drv := Driver_init name t b; log := l |})).
Proof.
  split; [|split].
  - intros [[rn t b [i|] [r|] c] l]; eexists; (split; [reflexivity|]); split; reflexivity.
  - intros [[rn t b [i|] [r|] c] l]; eexists; (split; [reflexivity|]); split; reflexivity.
  - reflexivity.
Qed.

(** ** [connect] *)

(** C6. [connect] is followed through the three transport calls it makes.
    When the resource manager or the resource cannot be opened, or when the
    identification query fails, [connect] raises the driver's error with the
    text [Connection failed: ...] and the connected flag is false afterwards.
    Once the resource is open the identification query does reach the
    transport, whatever the flag was before the call: [query] sends nothing
    unless the flag is set ([query_disconnected]), so the flag is true when
    the query is issued. *)
Theorem C6_connect_flag_and_rollback (visa : Visa) (w : World) :
  let d := drv w in
  let h1 := (log w ++ [EvResourceManager (chosen_backend d)])%list in
  let h2 := (h1 ++ [EvOpenResource (resource_name d)])%list in
  let h3 := (h2 ++ [EvSetTimeout (timeout d)])%list in
  let r := fst (connect visa w) in
  let w' := snd (connect visa w) in
  match visa_resource_manager visa (log w) (chosen_backend d) with
  | Raise e =>
      r = Raise (OscilloscopeError ("Connection failed: " ++ exn_str e)) /\
      _connected (drv w') = false /\ log w' = h1
  | Ok _ =>
      match visa_open_resource visa h1 (resource_name d) with
      | Raise e =>
          r = Raise (OscilloscopeError ("Connection failed: " ++ exn_str e)) /\
          _connected (drv w') = false /\ log w' = h2
      | Ok _ =>
          log w' = (h3 ++ [EvQuery "*IDN?"])%list /\
          match visa_query visa h3 "*IDN?" with
          | Raise e =>
              r = Raise (OscilloscopeError
                           ("Connection failed: Query failed: " ++ exn_str e)) /\
              _connected (drv w') = false
          | Ok _ => r = Ok tt /\ _connected (drv w') = true
          end
      end
  end.
Proof.
  destruct w as [[rn t b i rm c] l]. unfold chosen_backend. cbn -[append].
  unfold connect, try_except, bind, get_self, visa_call, SCPICommands.IDENTIFY.
  cbn -[append].
  destruct (truthy_str b) eqn:Hb; cbn -[append].
  - destruct (visa_resource_manager visa l b) as [[]|e]; cbn -[append]; [|auto].
    destruct (visa_open_resource visa _ rn) as [[]|e]; cbn -[append]; [|auto].
    unfold query, bind, get_self, try_except, visa_call; cbn -[append].
    destruct (visa_query visa _ "*IDN?") as [s|e]; cbn -[append]; auto.
  - destruct (visa_resource_manager visa l None) as [[]|e]; cbn -[append]; [|auto].
    destruct (visa_open_resource visa _ rn) as [[]|e]; cbn -[append]; [|auto].
    unfold query, bind, get_self, try_except, visa_call; cbn -[append].
    destruct (visa_query visa _ "*IDN?") as [s|e]; cbn -[append]; auto.
Qed.

(** ** [get_status] *)

(** C10. On a connected driver whose instrument answers the identification
    query, [get_status] returns, and the status is the record below: the
    channels, the timebase, the trigger, the acquisition flag and the memory
    depth are fixed values; model, serial number and firmware are the second,
    third and fourth field of the stripped reply, or [Unknown]; [connected]
    is true. The one transport event of the call is the identification
    query. *)
Theorem C10_get_status_constants (visa : Visa) (w : World) (idn : string) :
  is_disconnected (drv w) = false ->
  visa_query visa (log w) "*IDN?" = Ok idn ->
  let parts := split_char "," (strip idn) in
  get_status visa w =
    (Ok {| connected := true;
           model := nth 1 parts "Unknown";
           serial_number := nth 2 parts "Unknown";
           firmware_version := nth 3 parts "Unknown";
           channels :=
             [ {| cc_channel := 1; cc_enabled := true; cc_voltage_div := "1V";
                  cc_offset := "0V"; cc_coupling := DC_1M; cc_probe_ratio := 1;
                  cc_bandwidth_limit := false |};
               {| cc_channel := 2; cc_enabled := true; cc_voltage_div := "1V";
                  cc_offset := "0V"; cc_coupling := DC_1M; cc_probe_ratio := 1;
                  cc_bandwidth_limit := false |} ];
           timebase :=
             {| tb_time_div := "1MS"; tb_delay := "0S"; tb_sample_rate := None |};
           trigger :=
             {| tr_source := 1; tr_mode := AUTO; tr_trigger_type := EDGE;
                tr_slope := RISING; tr_level := "0V"; tr_holdoff := None |};
           acquisition_running := true;
           memory_depth := None |},
     record_event (EvQuery "*IDN?") w).
Proof.
  intros H Q. cbv zeta. unfold get_status, bind.
  rewrite query_connected by assumption.
  unfold SCPICommands.IDENTIFY. rewrite Q. cbn.
  unfold is_disconnected in H. apply orb_false_iff in H as [H _].
  apply negb_false_iff in H. now rewrite H.
Qed.

Lemma C10_get_status_constants_witness :
  get_status Bench.scope Bench.online =
    (Ok {| connected := true;
           model := "SDS1202X-E";
           serial_number := "SDS1EEFX803161";
           firmware_version := "1.3.27";
           channels :=
             [ {| cc_channel := 1; cc_enabled := true; cc_voltage_div := "1V";
                  cc_offset := "0V"; cc_coupling := DC_1M; cc_probe_ratio := 1;
                  cc_bandwidth_limit := false |};
               {| cc_channel := 2; cc_enabled := true; cc_voltage_div := "1V";
                  cc_offset := "0V"; cc_coupling := DC_1M; cc_probe_ratio := 1;
                  cc_bandwidth_limit := false |} ];
           timebase :=
             {| tb_time_div := "1MS"; tb_delay := "0S"; tb_sample_rate := None |};
           trigger :=
             {| tr_source := 1; tr_mode := AUTO; tr_trigger_type := EDGE;
                tr_slope := RISING; tr_level := "0V"; tr_holdoff := None |};
           acquisition_running := true;
           memory_depth := None |},
     record_event (EvQuery "*IDN?") Bench.online).
Proof.
  apply (C10_get_status_constants Bench.scope Bench.online
           "Siglent Technologies,SDS1202X-E,SDS1EEFX803161,1.3.27");
    reflexivity.
Defined.

(** C10 (counterexample). Not every call returns a status. On a driver that
    never connected, and on one that has disconnected, [get_status] raises
    the not-connected error and sends nothing; on a connected driver whose
    instrument does not answer the identification query it raises the
    driver's [Query failed: ...]. *)
Lemma C10_counterexample_no_status :
  get_status Bench.scope Bench.fresh = (Raise not_connected, Bench.fresh) /\
  get_status Bench.scope Lab.hung_up = (Raise not_connected, Lab.hung_up) /\
  get_status Bench.mute Bench.online =
    (Raise (OscilloscopeError "Query failed: timeout"),
     record_event (EvQuery "*IDN?") Bench.online).
Proof. repeat split. Qed.

(** On the bench: [connect] succeeds, [get_status] reports the instrument's
    identity, and a [connect] the instrument does not answer leaves the
    driver disconnected with its resource open. *)
Lemma connect_and_status_on_the_bench :
  connect Bench.scope Bench.fresh = (Ok tt, Bench.online) /\
  _connected (drv Bench.online) = true /\
  (exists st w',
     get_status Bench.scope Bench.online = (Ok st, w') /\
     model st = "SDS1202X-E" /\ serial_number st = "SDS1EEFX803161" /\
     firmware_version st = "1.3.27" /\ connected st = true) /\
  fst (connect Bench.mute Bench.fresh) =
    Raise (OscilloscopeError "Connection failed: Query failed: timeout") /\
  _connected (drv Bench.half_open) = false /\
  _instrument (drv Bench.half_open) =
    Some {| inst_timeout := 10000; inst_closed := false |}.
Proof.
  split; [reflexivity|]. split; [reflexivity|].
  split.
  - eexists; eexists. split; [vm_compute; reflexivity|]. repeat split.
  - split; [reflexivity|]. split; reflexivity.
Qed.

(** ** Operations on a disconnected driver *)

Section Disconnected.

Variable visa : Visa.
Variable np : Numpy.

Local Ltac stop_at_guard H :=
  unfold discard, bind;
  first
    [ rewrite (write_disconnected visa _ _ H)
    | rewrite (query_disconnected visa _ _ H)
    | rewrite (read_raw_disconnected visa _ H)
    | erewrite write_formatted_disconnected by (reflexivity || exact H) ];
  reflexivity.

(** C3 (amended). On a disconnected driver every operation that starts with
    [write], [query] or [read_raw] raises the not-connected error, and the
    world is what it was: no event reaches the transport and no attribute of
    the driver changes. *)
Theorem C3_guarded_operations_fail_fast (op : DriverOp) (w : World) :
  starts_with_guard op = true ->
  is_disconnected (drv w) = true ->
  run_op visa np op w = (Raise not_connected, w).
Proof.
  intros G H. destruct op; try discriminate G; cbn [run_op].
  - now apply write_disconnected.
  - stop_at_guard H.
  - stop_at_guard H.
  - unfold reset. now apply write_disconnected.
  - unfold clear_status. now apply write_disconnected.
  - unfold configure_channel. stop_at_guard H.
  - unfold enable_channel. stop_at_guard H.
  - unfold get_channel_config. stop_at_guard H.
  - unfold set_voltage_scale. stop_at_guard H.
  - unfold set_voltage_offset. stop_at_guard H.
  - unfold configure_timebase. stop_at_guard H.
  - unfold get_timebase. stop_at_guard H.
  - unfold set_time_scale. stop_at_guard H.
  - unfold configure_trigger, bind, lift.
    change (format_command SCPICommands.TRIGGER_SELECT _)
      with (Ok ("TRSE " ++ TriggerType_value (tr_trigger_type config) ++ ",SR,C"
                ++ str_of_int (tr_source config) ++ ","
                ++ TriggerSlope_value (tr_slope config) ++ ",OFF")).
    cbv beta iota. now rewrite (write_disconnected visa _ _ H).
  - unfold set_trigger_mode. stop_at_guard H.
  - unfold arm_trigger. now apply write_disconnected.
  - unfold stop_acquisition. now apply write_disconnected.
  - unfold auto_setup. now apply write_disconnected.
  - unfold get_status. stop_at_guard H.
Qed.

(** On a driver that never connected the two captures stop at their first
    statement, the read of [self._instrument.timeout], with the
    [AttributeError] of [None]. *)
Lemma captures_never_connected (channel num_points : Z) (w : World) :
  _instrument (drv w) = None ->
  capture_screen visa w = (Raise no_timeout_attr, w) /\
  capture_waveform visa channel num_points w = (Raise no_timeout_attr, w).
Proof.
  intros Hi.
  assert (G : instrument_get_timeout w = (Raise no_timeout_attr, w)).
  { unfold instrument_get_timeout, bind, get_self. now rewrite Hi. }
  split; [unfold capture_screen | unfold capture_waveform];
    unfold bind at 1; now rewrite G.
Qed.

End Disconnected.

Lemma C3_guarded_operations_fail_fast_witness :
  run_op Bench.scope Bench.numpy (OpQuery "*IDN?") Bench.fresh
    = (Raise not_connected, Bench.fresh).
Proof.
  apply (C3_guarded_operations_fail_fast Bench.scope Bench.numpy
           (OpQuery "*IDN?") Bench.fresh); reflexivity.
Defined.

(** C3 (counterexample). [Bench.half_open] is a disconnected driver that
    holds a handle: its [connect] opened the resource and failed at the
    identification query. [capture_screen] on it reads the handle's timeout,
    sets it to 10000 and sets it back, three transport events, and the error
    it raises is the capture error wrapped around the not-connected one. *)
Lemma C3_counterexample_capture_screen :
  is_disconnected (drv Bench.half_open) = true /\
  run_op Bench.mute Bench.numpy OpCaptureScreen Bench.half_open =
    (Raise (OscilloscopeError "Screen capture failed: Not connected to oscilloscope"),
     {| drv := drv Bench.half_open;
        log := log Bench.half_open ++
               [EvGetTimeout; EvSetTimeout 10000; EvSetTimeout 10000] |}) /\
  run_op Bench.mute Bench.numpy OpCaptureScreen Bench.half_open
    <> (Raise not_connected, Bench.half_open).
Proof.
  split; [reflexivity|]. split; [reflexivity|].
  vm_compute. discriminate.
Qed.

(** ** Steps that respect a preorder on worlds *)

Section Steps.

Context {P : World -> World -> Prop} `{StepOrder P}.

Lemma always_ret {A} (a : A) : always P (ret a).
Proof. intros w. apply step_refl. Qed.

Lemma always_raise {A} (e : exn) : always P (@raise A e).
Proof. intros w. apply step_refl. Qed.

Lemma always_lift {A} (r : result A) : always P (lift r).
Proof. intros w. apply step_refl. Qed.

Lemma always_get_self : always P get_self.
Proof. intros w. apply step_refl. Qed.

Lemma always_bind {A B} (m : M A) (k : A -> M B) :
  always P m -> (forall a, always P (k a)) -> always P (bind m k).
Proof.
  intros Hm Hk w. unfold bind. specialize (Hm w).
  destruct (m w) as [[a|e] w1]; cbn in *.
  - eapply step_trans; [exact Hm | apply Hk].
  - exact Hm.
Qed.

Lemma always_try_except {A} (m : M A) (h : exn -> M A) :
  always P m -> (forall e, always P (h e)) -> always P (try_except m h).
Proof.
  intros Hm Hh w. unfold try_except. specialize (Hm w).
  destruct (m w) as [[a|e] w1]; cbn in *.
  - exact Hm.
  - eapply step_trans; [exact Hm | apply Hh].
Qed.

Lemma always_try_finally {A} (m : M A) (f : M unit) :
  always P m -> always P f -> always P (try_finally m f).
Proof.
  intros Hm Hf w. unfold try_finally. specialize (Hm w).
  destruct (m w) as [r w1]. specialize (Hf w1).
  destruct (f w1) as [[u|e] w2]; cbn in *; eapply step_trans; eauto.
Qed.

End Steps.

Lemma log_timeout_snoc (l : list Event) (ev : Event) :
  log_timeout (l ++ [ev]) =
    match ev with EvSetTimeout ms => Some ms | _ => log_timeout l end.
Proof. unfold log_timeout. rewrite fold_left_app. reflexivity. Qed.

Lemma log_extends_refl (w : World) : log_extends w w.
Proof. exists []. now rewrite app_nil_r. Qed.

Lemma log_extends_trans (a b c : World) :
  log_extends a b -> log_extends b c -> log_extends a c.
Proof.
  intros [e1 H1] [e2 H2]. exists (e1 ++ e2)%list.
  now rewrite H2, H1, app_assoc.
Qed.

#[export] Instance quiet_order : StepOrder quiet.
Proof.
  split.
  - intros w. repeat split. apply log_extends_refl.
  - intros a b c (D1 & T1 & E1) (D2 & T2 & E2). repeat split.
    + congruence.
    + congruence.
    + eapply log_extends_trans; eauto.
Qed.

#[export] Instance timeout_only_order : StepOrder timeout_only.
Proof.
  split.
  - intros w. split; [reflexivity | apply log_extends_refl].
  - intros a b c (D1 & E1) (D2 & E2). split.
    + congruence.
    + eapply log_extends_trans; eauto.
Qed.

Lemma quiet_timeout_only (w w' : World) : quiet w w' -> timeout_only w w'.
Proof. intros (D & _ & E). split; [now rewrite D | exact E]. Qed.

Lemma always_quiet_timeout_only {A} (m : M A) :
  always quiet m -> always timeout_only m.
Proof. intros Hm w. apply quiet_timeout_only, Hm. Qed.

Lemma quiet_record_event (ev : Event) (w : World) :
  sets_timeout ev = false -> quiet w (record_event ev w).
Proof.
  intros Hev. repeat split; unfold record_event; cbn [log drv].
  - rewrite log_timeout_snoc. destruct ev; try reflexivity; discriminate.
  - now exists [ev].
Qed.

Lemma always_quiet_emit (ev : Event) :
  sets_timeout ev = false -> always quiet (emit ev).
Proof. intros Hev w. now apply quiet_record_event. Qed.

Lemma always_quiet_visa_call {A} (ev : Event) (answer : list Event -> result A) :
  sets_timeout ev = false -> always quiet (visa_call ev answer).
Proof. intros Hev w. now apply quiet_record_event. Qed.

Create HintDb steps discriminated.

#[export] Hint Resolve always_ret always_raise always_lift always_get_self : steps.
#[export] Hint Resolve always_quiet_emit always_quiet_visa_call : steps.

(** Breaks a goal [always P m] along the structure of [m]; [leaf] closes
    the calls it knows. *)
Ltac step_with leaf :=
  repeat first
    [ progress intros
    | leaf
    | apply always_ret | apply always_raise | apply always_lift
    | apply always_get_self
    | apply always_bind
    | apply always_try_except
    | apply always_try_finally
    | match goal with
      | |- always _ (if ?b then _ else _) => destruct b
      | |- always _ (match ?x with _ => _ end) => destruct x
      | |- always _ (let '(_, _) := ?x in _) => destruct x
      end ].

Ltac quiet_leaf :=
  first [ apply always_quiet_emit; reflexivity
        | apply always_quiet_visa_call; reflexivity
        | solve [auto with steps] ].

Ltac step := step_with quiet_leaf.

Section QuietSteps.

Variable visa : Visa.

Lemma always_quiet_write (c : string) : always quiet (write visa c).
Proof. unfold write. step. Qed.

Lemma always_quiet_query (c : string) : always quiet (query visa c).
Proof. unfold query. step. Qed.

Lemma always_quiet_read_raw : always quiet (read_raw visa).
Proof. unfold read_raw. step. Qed.

Hint Resolve always_quiet_write always_quiet_query always_quiet_read_raw : steps.

Lemma always_quiet_parse_waveform_data (raw : list byte) :
  always quiet (_parse_waveform_data visa raw).
Proof. unfold _parse_waveform_data. step. Qed.

End QuietSteps.

#[export] Hint Resolve always_quiet_write always_quiet_query always_quiet_read_raw
  always_quiet_parse_waveform_data : steps.

(** ** The scoped timeout override of the captures *)

Lemma get_timeout_some (w : World) (i : Instrument) :
  _instrument (drv w) = Some i ->
  inst_closed i = false ->
  instrument_get_timeout w = (Ok (inst_timeout i), record_event EvGetTimeout w).
Proof.
  intros Hi Hc. unfold instrument_get_timeout, bind, get_self. now rewrite Hi, Hc.
Qed.

Lemma set_timeout_some (w : World) (i : Instrument) (ms : Z) :
  _instrument (drv w) = Some i ->
  inst_closed i = false ->
  instrument_set_timeout ms w =
    (Ok tt, {| drv := set_instrument (Some {| inst_timeout := ms; inst_closed := false |})
                        (drv w);
               log := log w ++ [EvSetTimeout ms] |}).
Proof.
  intros Hi Hc. unfold instrument_set_timeout, bind, get_self. now rewrite Hi, Hc.
Qed.

(** On a handle whose session is closed the timeout can be neither read nor
    set: the access raises and nothing happens. *)
Lemma timeout_closed (w : World) (i : Instrument) (ms : Z) :
  _instrument (drv w) = Some i ->
  inst_closed i = true ->
  instrument_get_timeout w = (Raise invalid_session, w) /\
  instrument_set_timeout ms w = (Raise invalid_session, w).
Proof.
  intros Hi Hc. unfold instrument_get_timeout, instrument_set_timeout, bind, get_self.
  now rewrite Hi, Hc.
Qed.

Lemma always_timeout_only_get : always timeout_only instrument_get_timeout.
Proof.
  intros w. destruct (_instrument (drv w)) as [i|] eqn:Hi.
  - destruct (inst_closed i) eqn:Hc.
    + destruct (timeout_closed w i 0 Hi Hc) as [-> _]. apply step_refl.
    + rewrite (get_timeout_some w i Hi Hc). apply quiet_timeout_only.
      now apply quiet_record_event.
  - unfold instrument_get_timeout, bind, get_self. rewrite Hi. apply step_refl.
Qed.

Lemma always_timeout_only_set (ms : Z) :
  always timeout_only (instrument_set_timeout ms).
Proof.
  intros w. destruct (_instrument (drv w)) as [i|] eqn:Hi.
  - destruct (inst_closed i) eqn:Hc.
    + destruct (timeout_closed w i ms Hi Hc) as [_ ->]. apply step_refl.
    + rewrite (set_timeout_some w i ms Hi Hc). split; cbn.
      * unfold forget_timeout. cbn. rewrite Hi. cbn. now rewrite Hc.
      * now exists [EvSetTimeout ms].
  - unfold instrument_set_timeout, bind, get_self. rewrite Hi. apply step_refl.
Qed.

Ltac timeout_leaf :=
  first [ apply always_timeout_only_set
        | apply always_timeout_only_get
        | apply always_quiet_timeout_only; solve [auto with steps] ].

Ltac tstep := step_with timeout_leaf.

Section TimeoutOverride.

Variable visa : Visa.

(** Setting the timeout back undoes whatever happened to it. *)
Lemma forget_restore (d d2 : Driver) (t : Z) :
  forget_timeout d2 = forget_timeout d ->
  _instrument d = Some {| inst_timeout := t; inst_closed := false |} ->
  set_instrument (Some {| inst_timeout := t; inst_closed := false |}) d2 = d /\
  exists i2, _instrument d2 = Some i2 /\ inst_closed i2 = false.
Proof.
  destruct d as [rn tm b i r c], d2 as [rn2 tm2 b2 i2 r2 c2].
  unfold forget_timeout, set_instrument; cbn.
  intros [= -> -> -> Hi -> ->] ->. split; [reflexivity|].
  destruct i2 as [[t2 c2']|]; [|discriminate].
  cbn in Hi. injection Hi as ->. now exists {| inst_timeout := t2; inst_closed := false |}.
Qed.

Lemma set_timeout_restores (w1 w2 : World) (t : Z) :
  timeout_only w1 w2 ->
  _instrument (drv w1) = Some {| inst_timeout := t; inst_closed := false |} ->
  instrument_set_timeout t w2 =
    (Ok tt, {| drv := drv w1; log := log w2 ++ [EvSetTimeout t] |}).
Proof.
  intros [D _] Hi.
  destruct (forget_restore (drv w1) (drv w2) t D Hi) as [R (i2 & Hi2 & Hc2)].
  rewrite (set_timeout_some w2 i2 t Hi2 Hc2). now rewrite R.
Qed.

(** The body of [capture_screen]'s [try], handler included. *)
Lemma always_timeout_only_screen_body :
  always timeout_only
    (try_except
       (instrument_set_timeout 10000 ;;
        write visa "SCDP" ;;
        screen_data <- read_raw visa ;;
        ret screen_data)
       (fun e => raise (OscilloscopeError ("Screen capture failed: " ++ exn_str e)))).
Proof. tstep. Qed.

Lemma restores_set (w1 : World) (t : Z) :
  _instrument (drv w1) = Some {| inst_timeout := t; inst_closed := false |} ->
  restores w1 t (instrument_set_timeout t).
Proof.
  intros Hi w2 T. rewrite (set_timeout_restores w1 w2 t T Hi). cbn [snd drv log].
  split; [reflexivity|]. split; [now rewrite log_timeout_snoc|].
  now exists [EvSetTimeout t].
Qed.

Lemma restores_set_then (w1 : World) (t : Z) (after : M unit) :
  _instrument (drv w1) = Some {| inst_timeout := t; inst_closed := false |} ->
  always quiet after ->
  restores w1 t (instrument_set_timeout t ;; after).
Proof.
  intros Hi Q w2 T. unfold bind.
  rewrite (set_timeout_restores w1 w2 t T Hi).
  set (w3 := {| drv := drv w1; log := log w2 ++ [EvSetTimeout t] |}).
  destruct (Q w3) as (D & L & E). cbn [drv log] in *.
  split; [exact D|]. split.
  - rewrite L. subst w3. cbn [log]. now rewrite log_timeout_snoc.
  - eapply log_extends_trans; [|exact E]. now exists [EvSetTimeout t].
Qed.

Lemma try_finally_restores {A} (body : M A) (fin : M unit) (w1 : World) (t : Z) :
  always timeout_only body ->
  restores w1 t fin ->
  let w' := snd (try_finally body fin w1) in
  drv w' = drv w1 /\ log_timeout (log w') = Some t /\ log_extends w1 w'.
Proof.
  intros Hb Hf. unfold try_finally. specialize (Hb w1).
  destruct (body w1) as [r w2]. cbn [snd] in Hb. specialize (Hf w2 Hb).
  destruct Hb as [_ E12].
  destruct (fin w2) as [[u|e] w3]; cbn [snd] in *;
    destruct Hf as (D & L & E23);
    (split; [exact D|]); (split; [exact L|]);
    eapply log_extends_trans; eauto.
Qed.

Lemma capture_screen_unfold (w : World) (t : Z) :
  _instrument (drv w) = Some {| inst_timeout := t; inst_closed := false |} ->
  capture_screen visa w =
    try_finally
      (try_except
         (instrument_set_timeout 10000 ;;
          write visa "SCDP" ;;
          screen_data <- read_raw visa ;;
          ret screen_data)
         (fun e => raise (OscilloscopeError ("Screen capture failed: " ++ exn_str e))))
      (instrument_set_timeout t) (record_event EvGetTimeout w).
Proof.
  intros Hi. unfold capture_screen. unfold bind at 1.
  now rewrite (get_timeout_some w _ Hi eq_refl).
Qed.

Lemma capture_screen_restores (w : World) (t : Z) :
  _instrument (drv w) = Some {| inst_timeout := t; inst_closed := false |} ->
  let w' := snd (capture_screen visa w) in
  drv w' = drv w /\ log_timeout (log w') = Some t /\
  exists evs, log w' = (log w ++ EvGetTimeout :: evs)%list.
Proof.
  intros Hi. rewrite (capture_screen_unfold w t Hi).
  set (w1 := record_event EvGetTimeout w).
  destruct (try_finally_restores _ _ w1 t
              always_timeout_only_screen_body (restores_set w1 t Hi))
    as (D & L & [evs E]).
  split; [exact D|]. split; [exact L|].
  exists evs. cbv zeta. rewrite E. subst w1. cbn [log record_event].
  now rewrite <- app_assoc.
Qed.

Lemma always_quiet_waveform_build (channel : Z) (raw : list byte) :
  always quiet (waveform_build visa channel raw).
Proof. unfold waveform_build. step. Qed.

Lemma always_timeout_only_waveform_try (channel num_points : Z) :
  always timeout_only
    (try_except
       (let sparse_mode := sparse_mode_for num_points in
        write visa ("WFSU SP," ++ str_of_int sparse_mode ++ ",NP,0,FP,0") ;;
        write visa "MSIZ 7K" ;;
        instrument_set_timeout 60000 ;;
        waveform_cmd <- lift (format_command SCPICommands.WAVEFORM_DATA
                                [("ch", str_of_int channel)]) ;;
        write visa waveform_cmd ;;
        raw_data <- read_raw visa ;;
        ret raw_data)
       (fun e => raise (OscilloscopeError
                          ("Waveform capture timeout or error: " ++ exn_str e)))).
Proof. cbv zeta. tstep. Qed.

Lemma capture_waveform_unfold (channel num_points : Z) (w : World) (t : Z) :
  _instrument (drv w) = Some {| inst_timeout := t; inst_closed := false |} ->
  capture_waveform visa channel num_points w =
    (raw_data <- waveform_transfer visa channel num_points t ;;
     waveform_build visa channel raw_data) (record_event EvGetTimeout w).
Proof.
  intros Hi. unfold capture_waveform. unfold bind at 1.
  now rewrite (get_timeout_some w _ Hi eq_refl).
Qed.

Lemma waveform_transfer_restores (channel num_points : Z) (w1 : World) (t : Z) :
  _instrument (drv w1) = Some {| inst_timeout := t; inst_closed := false |} ->
  let w' := snd (waveform_transfer visa channel num_points t w1) in
  drv w' = drv w1 /\ log_timeout (log w') = Some t /\ log_extends w1 w'.
Proof.
  intros Hi. unfold waveform_transfer. apply try_finally_restores.
  - apply always_timeout_only_waveform_try.
  - apply restores_set_then; [exact Hi | step].
Qed.

Lemma capture_waveform_restores (channel num_points : Z) (w : World) (t : Z) :
  _instrument (drv w) = Some {| inst_timeout := t; inst_closed := false |} ->
  let w' := snd (capture_waveform visa channel num_points w) in
  drv w' = drv w /\ log_timeout (log w') = Some t /\
  exists evs, log w' = (log w ++ EvGetTimeout :: evs)%list.
Proof.
  intros Hi. rewrite (capture_waveform_unfold channel num_points w t Hi).
  set (w1 := record_event EvGetTimeout w).
  pose proof (waveform_transfer_restores channel num_points w1 t Hi) as R.
  cbv zeta in *. unfold bind.
  destruct (waveform_transfer visa channel num_points t w1) as [[raw|e] w2];
    cbn [snd] in *; destruct R as (D & L & [evs E]).
  - destruct (always_quiet_waveform_build channel raw w2) as (D' & L' & [evs' E']).
    split; [now rewrite D', D|]. split; [now rewrite L', L|].
    exists (evs ++ evs')%list. rewrite E', E. subst w1. cbn [log record_event].
    now rewrite <- !app_assoc.
  - split; [exact D|]. split; [exact L|].
    exists evs. rewrite E. subst w1. cbn [log record_event].
    now rewrite <- app_assoc.
Qed.

End TimeoutOverride.

(** ** What the override looks like in the log *)

#[export] Instance only_events_order (ok : Event -> bool) : StepOrder (only_events ok).
Proof.
  split.
  - intros w. split; [reflexivity|]. exists []. now rewrite app_nil_r.
  - intros a b c (D1 & e1 & E1 & F1) (D2 & e2 & E2 & F2). split; [congruence|].
    exists (e1 ++ e2)%list. split.
    + now rewrite E2, E1, app_assoc.
    + rewrite forallb_app. now rewrite F1, F2.
Qed.

Lemma only_events_record (ok : Event -> bool) (ev : Event) (w : World) :
  ok ev = true -> only_events ok w (record_event ev w).
Proof.
  intros Hev. split; [reflexivity|]. exists [ev]. split; [reflexivity|].
  cbn. now rewrite Hev.
Qed.

Lemma always_only_visa_call {A} (ok : Event -> bool) (ev : Event)
    (answer : list Event -> result A) :
  ok ev = true -> always (only_events ok) (visa_call ev answer).
Proof. intros Hev w. now apply only_events_record. Qed.

Ltac only_leaf := apply always_only_visa_call; reflexivity.

Ltac ostep := step_with only_leaf.

Lemma log_timeout_only (ok : Event -> bool) (l evs : list Event) :
  (forall ev, ok ev = true -> sets_timeout ev = false) ->
  forallb ok evs = true ->
  log_timeout (l ++ evs) = log_timeout l.
Proof.
  intros Hok. revert l. induction evs as [|ev evs IH]; intros l F.
  - now rewrite app_nil_r.
  - cbn [forallb] in F. apply andb_true_iff in F as [F1 F2].
    change (l ++ ev :: evs)%list with (l ++ [ev] ++ evs)%list.
    rewrite app_assoc, (IH _ F2), log_timeout_snoc.
    specialize (Hok ev F1). destruct ev; try reflexivity; discriminate.
Qed.

Lemma set_instrument_back (d : Driver) (i x : Instrument) :
  _instrument d = Some i ->
  set_instrument (Some i) (set_instrument (Some x) d) = d.
Proof. destruct d. cbn. now intros ->. Qed.

Section Override.

Variable visa : Visa.

Lemma always_transfer_write (c : string) :
  always (only_events is_transfer) (write visa c).
Proof. unfold write. ostep. Qed.

Lemma always_transfer_read_raw : always (only_events is_transfer) (read_raw visa).
Proof. unfold read_raw. ostep. Qed.

Lemma always_text_write (c : string) : always (only_events is_text) (write visa c).
Proof. unfold write. ostep. Qed.

Lemma always_text_query (c : string) : always (only_events is_text) (query visa c).
Proof. unfold query. ostep. Qed.

Lemma always_text_waveform_build (channel : Z) (raw : list byte) :
  always (only_events is_text) (waveform_build visa channel raw).
Proof.
  unfold waveform_build, _parse_waveform_data.
  step_with ltac:(first [ apply always_text_query | only_leaf ]).
Qed.

(** The part of [capture_screen] that runs under the override. *)
Lemma always_transfer_screen_rest :
  always (only_events is_transfer)
    (write visa "SCDP" ;; screen_data <- read_raw visa ;; ret screen_data).
Proof.
  step_with ltac:(first [ apply always_transfer_write | apply always_transfer_read_raw ]).
Qed.

(** The part of [capture_waveform] that runs under the override. *)
Lemma always_transfer_waveform_rest (channel : Z) :
  always (only_events is_transfer)
    (waveform_cmd <- lift (format_command SCPICommands.WAVEFORM_DATA
                             [("ch", str_of_int channel)]) ;;
     write visa waveform_cmd ;;
     raw_data <- read_raw visa ;;
     ret raw_data).
Proof.
  step_with ltac:(first [ apply always_transfer_write | apply always_transfer_read_raw ]).
Qed.

Lemma capture_screen_run (w : World) (t : Z) :
  _instrument (drv w) = Some {| inst_timeout := t; inst_closed := false |} ->
  exists r b,
    forallb is_transfer b = true /\
    capture_screen visa w =
      (r, {| drv := drv w;
             log := log w ++ [EvGetTimeout; EvSetTimeout 10000] ++ b
                    ++ [EvSetTimeout t] |}).
Proof.
  intros Hi. rewrite (capture_screen_unfold visa w t Hi).
  set (w1 := record_event EvGetTimeout w).
  unfold try_finally, try_except. unfold bind at 1.
  rewrite (set_timeout_some w1 _ 10000 Hi eq_refl).
  set (w2 := {| drv := set_instrument _ (drv w1); log := (log w1 ++ _)%list |}).
  destruct (always_transfer_screen_rest w2) as (D & b & E & F).
  destruct ((write visa "SCDP" ;; screen_data <- read_raw visa ;; ret screen_data) w2)
    as [r w3]. cbn [snd] in D, E.
  assert (Hi3 : _instrument (drv w3)
                = Some {| inst_timeout := 10000; inst_closed := false |})
    by (rewrite D; destruct (drv w1); reflexivity).
  assert (W : {| drv := set_instrument
                          (Some {| inst_timeout := t; inst_closed := false |}) (drv w3);
                 log := log w3 ++ [EvSetTimeout t] |}
              = {| drv := drv w;
                   log := log w ++ [EvGetTimeout; EvSetTimeout 10000] ++ b
                          ++ [EvSetTimeout t] |}).
  { f_equal.
    - rewrite D. subst w2 w1. cbn [drv record_event]. now apply set_instrument_back.
    - rewrite E. subst w2 w1. cbn [log record_event]. now rewrite <- !app_assoc. }
  destruct r as [data|e]; unfold raise;
    rewrite (set_timeout_some w3 _ t Hi3 eq_refl), W; eexists; exists b;
    (split; [exact F | reflexivity]).
Qed.

Lemma capture_screen_override (w : World) (t : Z) :
  _instrument (drv w) = Some {| inst_timeout := t; inst_closed := false |} ->
  let r := capture_screen visa w in
  drv (snd r) = drv w /\ log_timeout (log (snd r)) = Some t /\
  exists b,
    forallb is_transfer b = true /\
    log (snd r) =
      (log w ++ [EvGetTimeout; EvSetTimeout 10000] ++ b ++ [EvSetTimeout t])%list.
Proof.
  intros Hi. destruct (capture_screen_run w t Hi) as (r & b & F & ->).
  cbn [snd drv log]. split; [reflexivity|]. split.
  - rewrite !app_assoc. now rewrite log_timeout_snoc.
  - now exists b.
Qed.

Lemma bind_ok {A B} (m : M A) (k : A -> M B) (w w' : World) (a : A) :
  m w = (Ok a, w') -> bind m k w = k a w'.
Proof. intros E. unfold bind. now rewrite E. Qed.

Lemma bind_raise {A B} (m : M A) (k : A -> M B) (w w' : World) (e : exn) :
  m w = (Raise e, w') -> bind m k w = (Raise e, w').
Proof. intros E. unfold bind. now rewrite E. Qed.

(** The [finally] clause of [capture_waveform] on an open session: the
    timeout is set, and the command that turns decimation off goes out if
    the driver is connected. *)
Lemma cleanup_at (w2 : World) (i2 : Instrument) (t : Z) :
  _instrument (drv w2) = Some i2 ->
  inst_closed i2 = false ->
  (instrument_set_timeout t ;;
   try_except (write visa "WFSU SP,0,NP,0,FP,0") (fun _ => ret tt)) w2 =
    (Ok tt,
     {| drv := set_instrument (Some {| inst_timeout := t; inst_closed := false |}) (drv w2);
        log := log w2 ++ EvSetTimeout t ::
               (if _connected (drv w2) then [EvWrite "WFSU SP,0,NP,0,FP,0"] else []) |}).
Proof.
  intros Hi Hc. rewrite (bind_ok _ _ _ _ _ (set_timeout_some w2 i2 t Hi Hc)).
  unfold try_except. destruct (_connected (drv w2)) eqn:C.
  - rewrite write_connected
      by (unfold is_disconnected; cbn; destruct (drv w2); cbn in *; now rewrite C).
    unfold record_event, ret. cbn [drv log].
    destruct (visa_write visa _ "WFSU SP,0,NP,0,FP,0") as [[]|e];
      now rewrite <- app_assoc.
  - rewrite write_disconnected
      by (unfold is_disconnected; cbn; destruct (drv w2); cbn in *; now rewrite C).
    reflexivity.
Qed.

Lemma waveform_transfer_run (channel num_points : Z) (w : World) (t : Z) :
  _instrument (drv w) = Some {| inst_timeout := t; inst_closed := false |} ->
  exists r b,
    forallb is_transfer b = true /\
    waveform_transfer visa channel num_points t (record_event EvGetTimeout w) =
      (r, {| drv := drv w;
             log := log w ++ [EvGetTimeout]
                    ++ map EvWrite (setup_sent visa num_points w)
                    ++ (if setup_accepted visa num_points w
                        then EvSetTimeout 60000 :: b else [])
                    ++ EvSetTimeout t ::
                       (if _connected (drv w)
                        then [EvWrite "WFSU SP,0,NP,0,FP,0"] else []) |}) /\
    (setup_accepted visa num_points w = false -> raises r).
Proof.
  intros Hi. set (w1 := record_event EvGetTimeout w).
  assert (Hi1 : _instrument (drv w1)
                = Some {| inst_timeout := t; inst_closed := false |}) by exact Hi.
  unfold waveform_transfer. cbv zeta.
  set (fin := (instrument_set_timeout t ;;
               try_except (write visa "WFSU SP,0,NP,0,FP,0") (fun _ => ret tt))).
  assert (Fin : forall w2 i2,
            _instrument (drv w2) = Some i2 -> inst_closed i2 = false ->
            fin w2 =
              (Ok tt,
               {| drv := set_instrument
                           (Some {| inst_timeout := t; inst_closed := false |}) (drv w2);
                  log := log w2 ++ EvSetTimeout t ::
                         (if _connected (drv w2)
                          then [EvWrite "WFSU SP,0,NP,0,FP,0"] else []) |}))
    by (intros w2 i2 Hw2 Hc2; exact (cleanup_at w2 i2 t Hw2 Hc2)).
  clearbody fin.
  unfold try_finally, try_except.
  unfold setup_sent, setup_accepted, waveform_setup.
  set (c1 := "WFSU SP," ++ str_of_int (sparse_mode_for num_points) ++ ",NP,0,FP,0").
  set (rest := (waveform_cmd <- lift (format_command SCPICommands.WAVEFORM_DATA
                                        [("ch", str_of_int channel)]) ;;
                write visa waveform_cmd ;;
                raw_data <- read_raw visa ;;
                ret raw_data)).
  assert (B : forall d, set_instrument
                          (Some {| inst_timeout := t; inst_closed := false |})
                          (set_instrument (Some d) (drv w)) = drv w)
    by (intros d; now apply set_instrument_back).
  destruct (is_disconnected (drv w)) eqn:H.
  - (* not connected: the first command is refused by the driver *)
    assert (C : _connected (drv w) = false).
    { unfold is_disconnected in H. rewrite Hi, orb_false_r in H.
      now apply negb_true_iff in H. }
    rewrite (bind_raise _ _ _ _ _ (write_disconnected visa c1 w1 H)).
    unfold raise. cbv beta iota. rewrite (Fin w1 _ Hi1 eq_refl).
    change (drv w1) with (drv w). rewrite C.
    eexists; exists []. split; [reflexivity|]. split.
    + f_equal. f_equal.
      * rewrite <- (B {| inst_timeout := t; inst_closed := false |}) at 2.
        destruct (drv w); cbn in *. now rewrite Hi.
      * subst w1. cbn [log record_event map andb negb app]. now rewrite <- !app_assoc.
    + intros _. now eexists.
  - (* connected *)
    assert (C : _connected (drv w) = true).
    { unfold is_disconnected in H. apply orb_false_iff in H as [H _].
      now apply negb_false_iff in H. }
    cbn [negb andb written writes_outcome].
    pose proof (write_connected visa c1 w1 H) as W1.
    change (log w1) with (log w ++ [EvGetTimeout])%list in W1.
    destruct (visa_write visa (log w ++ [EvGetTimeout]) c1) as [[]|e1].
    + set (w1a := record_event (EvWrite c1) w1) in *.
      rewrite (bind_ok _ _ _ _ _ W1).
      pose proof (write_connected visa "MSIZ 7K" w1a H) as W2.
      change (log w1a) with ((log w ++ [EvGetTimeout]) ++ [EvWrite c1])%list in W2.
      destruct (visa_write visa ((log w ++ [EvGetTimeout]) ++ [EvWrite c1]) "MSIZ 7K")
        as [[]|e2].
      * set (w1b := record_event (EvWrite "MSIZ 7K") w1a) in *.
        rewrite (bind_ok _ _ _ _ _ W2).
        rewrite (bind_ok _ _ _ _ _ (set_timeout_some w1b _ 60000 Hi eq_refl)).
        set (w1c := {| drv := set_instrument _ (drv w1b); log := (log w1b ++ _)%list |}).
        destruct (always_transfer_waveform_rest channel w1c) as (D & b & E & F).
        fold rest in D, E.
        destruct (rest w1c) as [r w1d]. cbn [snd] in D, E.
        assert (Hi4 : _instrument (drv w1d)
                      = Some {| inst_timeout := 60000; inst_closed := false |})
          by (rewrite D; destruct (drv w1b); reflexivity).
        assert (W : {| drv := set_instrument
                                (Some {| inst_timeout := t; inst_closed := false |})
                                (drv w1d);
                       log := log w1d ++ EvSetTimeout t ::
                              (if _connected (drv w1d)
                               then [EvWrite "WFSU SP,0,NP,0,FP,0"] else []) |}
                    = {| drv := drv w;
                         log := log w ++ [EvGetTimeout]
                                ++ map EvWrite [c1; "MSIZ 7K"]
                                ++ (EvSetTimeout 60000 :: b)
                                ++ EvSetTimeout t :: [EvWrite "WFSU SP,0,NP,0,FP,0"] |}).
        { rewrite D. subst w1c w1b w1a w1. cbn [drv log record_event].
          f_equal.
          - apply B.
          - replace (_connected (set_instrument _ (drv w))) with true
              by (destruct (drv w); cbn in *; congruence).
            rewrite E. unfold record_event. cbn [log drv map app].
            rewrite <- !app_assoc. reflexivity. }
        destruct r as [raw|e]; unfold raise; cbv beta iota;
          rewrite (Fin w1d _ Hi4 eq_refl), W, C;
          eexists; exists b; (split; [exact F|]); (split; [reflexivity|]);
          discriminate.
      * set (w1b := record_event (EvWrite "MSIZ 7K") w1a) in *.
        rewrite (bind_raise _ _ _ _ _ W2). unfold raise. cbv beta iota.
        rewrite (Fin w1b _ Hi eq_refl).
        eexists; exists []. split; [reflexivity|]. split.
        -- f_equal. f_equal.
           ++ subst w1b w1a w1. cbn [drv record_event].
              rewrite <- (B {| inst_timeout := t; inst_closed := false |}) at 2.
              destruct (drv w); cbn in *. now rewrite Hi.
           ++ subst w1b w1a w1. cbn [drv log record_event map app]. rewrite C.
              rewrite <- !app_assoc. reflexivity.
        -- intros _. now eexists.
    + set (w1a := record_event (EvWrite c1) w1) in *.
      rewrite (bind_raise _ _ _ _ _ W1). unfold raise. cbv beta iota.
      rewrite (Fin w1a _ Hi eq_refl).
      eexists; exists []. split; [reflexivity|]. split.
      * f_equal. f_equal.
        -- subst w1a w1. cbn [drv record_event].
           rewrite <- (B {| inst_timeout := t; inst_closed := false |}) at 2.
           destruct (drv w); cbn in *. now rewrite Hi.
        -- subst w1a w1. cbn [drv log record_event map app]. rewrite C.
           rewrite <- !app_assoc. reflexivity.
      * intros _. now eexists.
Qed.

Lemma capture_waveform_run (channel num_points : Z) (w : World) (t : Z) :
  _instrument (drv w) = Some {| inst_timeout := t; inst_closed := false |} ->
  exists r b c,
    forallb is_transfer b = true /\ forallb is_text c = true /\
    capture_waveform visa channel num_points w =
      (r, {| drv := drv w;
             log := log w ++ [EvGetTimeout]
                    ++ map EvWrite (setup_sent visa num_points w)
                    ++ (if setup_accepted visa num_points w
                        then EvSetTimeout 60000 :: b else [])
                    ++ [EvSetTimeout t] ++ c |}) /\
    (setup_accepted visa num_points w = false -> raises r).
Proof.
  intros Hi. rewrite (capture_waveform_unfold visa channel num_points w t Hi).
  destruct (waveform_transfer_run channel num_points w t Hi) as (r & b & F & E & R).
  unfold bind. rewrite E. clear E.
  set (off := if _connected (drv w) then [EvWrite "WFSU SP,0,NP,0,FP,0"] else []).
  assert (Foff : forallb is_text off = true) by (subst off; now destruct (_connected (drv w))).
  destruct r as [raw|e].
  - match goal with |- context [waveform_build visa channel raw ?w2] =>
      destruct (always_text_waveform_build channel raw w2) as (D & c & Ec & Fc);
      destruct (waveform_build visa channel raw w2) as [r' [d3 l3]]
    end.
    cbn [snd drv log] in D, Ec. subst d3 l3.
    exists r', b, (off ++ c)%list. split; [exact F|]. split.
    + rewrite forallb_app. now rewrite Foff, Fc.
    + split.
      * f_equal. f_equal. cbn [app]. rewrite <- !app_assoc. cbn [app].
        rewrite <- !app_assoc. reflexivity.
      * intros A. destruct (R A) as [e He]. discriminate He.
  - exists (Raise e), b, off. split; [exact F|]. split; [exact Foff|]. split.
    + reflexivity.
    + intros _. now eexists.
Qed.

End Override.

(** C7. On a driver whose handle holds an open session with the timeout [t],
    whatever the instrument answers and however the call ends, each capture
    replaces the transport's timeout by a fixed value for its transfer and
    sets [t] again afterwards; every attribute of the driver is as it was.
    [capture_screen] sets 10000 right after it has read the timeout; only
    the dump command and the read of the image ([b]) lie between that and
    the restoring [EvSetTimeout t], which ends the call.
    [capture_waveform] first sends its two setup commands; if the driver is
    connected and the transport accepts both, it sets 60000, and only the
    waveform request and the binary read ([b]) lie between that and the
    restoring [EvSetTimeout t]; otherwise nothing is overridden and the call
    raises. What follows the restoration ([c]) is text only: the command
    that turns decimation off and the scale queries. *)
Theorem C7_captures_restore_timeout (visa : Visa) (w : World) (t : Z) :
  _instrument (drv w) = Some {| inst_timeout := t; inst_closed := false |} ->
  (let r := capture_screen visa w in
   drv (snd r) = drv w /\ log_timeout (log (snd r)) = Some t /\
   exists b,
     forallb is_transfer b = true /\
     log (snd r) =
       (log w ++ [EvGetTimeout; EvSetTimeout 10000] ++ b ++ [EvSetTimeout t])%list) /\
  (forall channel num_points,
     let r := capture_waveform visa channel num_points w in
     drv (snd r) = drv w /\ log_timeout (log (snd r)) = Some t /\
     exists b c,
       forallb is_transfer b = true /\ forallb is_text c = true /\
       log (snd r) =
         (log w ++ [EvGetTimeout]
          ++ map EvWrite (setup_sent visa num_points w)
          ++ (if setup_accepted visa num_points w then EvSetTimeout 60000 :: b else [])
          ++ [EvSetTimeout t] ++ c)%list /\
       (setup_accepted visa num_points w = false -> raises (fst r))).
Proof.
  intros Hi. split.
  - now apply capture_screen_override.
  - intros channel num_points.
    destruct (capture_waveform_run visa channel num_points w t Hi)
      as (r & b & c & F & Fc & -> & R).
    cbn [fst snd drv log]. split; [reflexivity|]. split.
    + rewrite !app_assoc.
      rewrite (log_timeout_only is_text _ c); [|now intros []|exact Fc].
      now rewrite log_timeout_snoc.
    + now exists b, c.
Qed.

Lemma C7_captures_restore_timeout_witness :
  (let r := capture_screen Bench.scope Bench.online in
   drv (snd r) = drv Bench.online /\ log_timeout (log (snd r)) = Some 10000 /\
   exists b,
     forallb is_transfer b = true /\
     log (snd r) =
       (log Bench.online ++ [EvGetTimeout; EvSetTimeout 10000] ++ b
        ++ [EvSetTimeout 10000])%list) /\
  (forall channel num_points,
     let r := capture_waveform Bench.scope channel num_points Bench.online in
     drv (snd r) = drv Bench.online /\ log_timeout (log (snd r)) = Some 10000 /\
     exists b c,
       forallb is_transfer b = true /\ forallb is_text c = true /\
       log (snd r) =
         (log Bench.online ++ [EvGetTimeout]
          ++ map EvWrite (setup_sent Bench.scope num_points Bench.online)
          ++ (if setup_accepted Bench.scope num_points Bench.online
              then EvSetTimeout 60000 :: b else [])
          ++ [EvSetTimeout 10000] ++ c)%list /\
       (setup_accepted Bench.scope num_points Bench.online = false -> raises (fst r))).
Proof.
  apply (C7_captures_restore_timeout Bench.scope Bench.online 10000).
  reflexivity.
Defined.

(** C7 (counterexample). The override is a fixed value, not a raise. A
    driver constructed with a timeout of 120000 ms and connected to the bench
    has its transport timeout at 120000; [capture_screen] sets it to 10000
    before the dump, so the image is read under a timeout twelve times
    shorter than the prior one, and 120000 is set again at the end. On the
    bench's own driver, whose timeout is the default 10000, the override
    changes nothing: 10000 is set where 10000 was. *)
Lemma C7_counterexample_timeout_lowered :
  log_timeout (log Lab.patient) = Some 120000 /\
  log (snd (capture_screen Bench.scope Lab.patient)) =
    (log Lab.patient ++
     [EvGetTimeout; EvSetTimeout 10000; EvWrite "SCDP"; EvReadRaw;
      EvSetTimeout 120000])%list /\
  log_timeout (log Lab.patient ++ [EvGetTimeout; EvSetTimeout 10000; EvWrite "SCDP"])
    = Some 10000 /\
  10000 < 120000 /\
  log_timeout (log Bench.online) = Some 10000 /\
  log (snd (capture_screen Bench.scope Bench.online)) =
    (log Bench.online ++
     [EvGetTimeout; EvSetTimeout 10000; EvWrite "SCDP"; EvReadRaw;
      EvSetTimeout 10000])%list.
Proof. repeat split; vm_compute; reflexivity. Qed.


(** On the bench the override is visible in the log: 10000 ms around the
    screen dump, 60000 ms around the waveform transfer, and the driver's own
    10000 ms put back each time. *)
Lemma capture_logs_on_the_bench :
  log (snd (capture_screen Bench.scope Bench.online)) =
    (log Bench.online ++
     [EvGetTimeout; EvSetTimeout 10000; EvWrite "SCDP"; EvReadRaw;
      EvSetTimeout 10000])%list /\
  log (snd (capture_waveform Bench.scope 2 1400 Bench.online)) =
    (log Bench.online ++
     [EvGetTimeout; EvWrite "WFSU SP,2,NP,0,FP,0"; EvWrite "MSIZ 7K";
      EvSetTimeout 60000; EvWrite "C2:WF? DAT2"; EvReadRaw;
      EvSetTimeout 10000; EvWrite "WFSU SP,0,NP,0,FP,0";
      EvQuery "C1:VDIV?"; EvQuery "TDIV ?"; EvQuery "C2:VDIV ?"])%list.
Proof. split; vm_compute; reflexivity. Qed.

(** ** [capture_waveform]: the record it builds *)

Lemma bind_Ok_inv {A B} (m : M A) (k : A -> M B) (w w' : World) (b : B) :
  bind m k w = (Ok b, w') ->
  exists a w1, m w = (Ok a, w1) /\ k a w1 = (Ok b, w').
Proof.
  unfold bind. destruct (m w) as [[a|e] w1]; [eauto | discriminate].
Qed.

Lemma arange_div_length (n : nat) (rate : float) :
  List.length (arange_div n rate) = n.
Proof. unfold arange_div. now rewrite length_map, length_seq. Qed.

Lemma waveform_build_lengths (visa : Visa) (channel : Z) (raw : list byte)
    (w w' : World) (wf : WaveformData) :
  waveform_build visa channel raw w = (Ok wf, w') ->
  List.length (data_points wf) = List.length (time_points wf) /\
  num_points wf = Z.of_nat (List.length (data_points wf)) /\
  wf_channel wf = channel.
Proof.
  unfold waveform_build. intros Hb.
  apply bind_Ok_inv in Hb as (dp & w1 & _ & Hb).
  apply bind_Ok_inv in Hb as (td & w2 & _ & Hb).
  apply bind_Ok_inv in Hb as (vd & w3 & _ & Hb).
  cbv zeta in Hb. unfold ret in Hb. injection Hb as <- _. cbn.
  now rewrite arange_div_length.
Qed.

(** C9. Every [WaveformData] that [capture_waveform] returns has as many
    time stamps as samples, and [num_points] is that number. *)
Theorem C9_waveform_lengths_agree (visa : Visa) (channel num_points0 : Z)
    (w w' : World) (wf : WaveformData) :
  capture_waveform visa channel num_points0 w = (Ok wf, w') ->
  List.length (data_points wf) = List.length (time_points wf) /\
  Z.of_nat (List.length (data_points wf)) = num_points wf /\
  Z.of_nat (List.length (time_points wf)) = num_points wf.
Proof.
  unfold capture_waveform. intros Hc.
  apply bind_Ok_inv in Hc as (old & w1 & _ & Hc).
  apply bind_Ok_inv in Hc as (raw & w2 & _ & Hc).
  apply waveform_build_lengths in Hc as (L & N & _).
  rewrite <- L, N. auto.
Qed.

Lemma C9_waveform_lengths_agree_witness :
  let wf :=
    {| wf_channel := 2; num_points := 4; sample_rate := 1e9%float;
       voltage_scale := 1%float; voltage_offset := 0%float; time_scale := 1%float;
       data_points := [1; -1; 2; 0]%float;
       time_points := [0; 1e-9; 2e-9; 3e-9]%float |} in
  List.length (data_points wf) = List.length (time_points wf) /\
  Z.of_nat (List.length (data_points wf)) = num_points wf /\
  Z.of_nat (List.length (time_points wf)) = num_points wf.
Proof.
  apply (C9_waveform_lengths_agree Bench.scope 2 1400 Bench.online
           (snd (capture_waveform Bench.scope 2 1400 Bench.online))).
  vm_compute. reflexivity.
Defined.

(** ** [measure_channel] *)

#[export] Instance still_order : StepOrder still.
Proof. split; unfold still; intros; congruence. Qed.

Lemma snd_try_except_bind {A B} (m : M A) (k : A -> M B) (h : exn -> M B) (w : World) :
  (forall a, always still (k a)) ->
  (forall e, always still (h e)) ->
  snd (try_except (bind m k) h w) = snd (m w).
Proof.
  intros Hk Hh. unfold try_except, bind.
  destruct (m w) as [[a|e] w1]; cbn [snd].
  - specialize (Hk a w1). destruct (k a w1) as [[b|e] w2]; cbn [snd] in *.
    + exact Hk.
    + rewrite (Hh e w2). exact Hk.
  - apply Hh.
Qed.

Lemma fst_try_except_ret {A} (m : M A) (a0 : A) (w : World) :
  exists a, fst (try_except m (fun _ => ret a0) w) = Ok a.
Proof.
  unfold try_except. destruct (m w) as [[a|e] w1]; cbn; eauto.
Qed.

Lemma after_queries_cons (c : string) (cs : list string) (w : World) :
  after_queries (c :: cs) w = after_queries cs (record_event (EvQuery c) w).
Proof.
  unfold after_queries, record_event. cbn [drv log map].
  now rewrite <- app_assoc.
Qed.

Lemma formats_measurement_funcs (channel : Z) :
  formats_to channel measurement_funcs (pava_commands channel).
Proof. repeat constructor. Qed.

Section MeasureFacts.

Variable visa : Visa.
Variable np : Numpy.

Lemma measure_frequency_total (m : Measurements) (w : World) :
  exists m', fst (measure_frequency visa m w) = Ok m'.
Proof. apply fst_try_except_ret. Qed.

Lemma measure_frequency_world (m : Measurements) (w : World) :
  snd (measure_frequency visa m w) = snd (query visa "CYMOMETER?" w).
Proof.
  unfold measure_frequency. apply snd_try_except_bind.
  - intros result. step_with fail.
  - intros e. step_with fail.
Qed.

Lemma measure_frequency_disconnected (m : Measurements) (w : World) :
  is_disconnected (drv w) = true ->
  measure_frequency visa m w = (Ok m, w).
Proof.
  intros H. unfold measure_frequency, try_except, bind at 1.
  now rewrite (query_disconnected visa _ w H).
Qed.

Lemma measure_pava_one_eq (channel : Z) (attr_name template cmd : string)
    (st : Measurements * bool) (w : World) :
  format_command template [("ch", str_of_int channel)] = Ok cmd ->
  measure_pava_one visa channel attr_name template st w =
    (Ok (pava_update attr_name st (fst (query visa cmd w))), snd (query visa cmd w)).
Proof.
  intros F. unfold measure_pava_one, try_except, bind, lift. rewrite F.
  destruct (query visa cmd w) as [[reply|e] w1]; cbn [fst snd pava_update].
  - destruct (contains "****" reply); cbn [negb]; [reflexivity|].
    destruct (_parse_measurement reply); reflexivity.
  - reflexivity.
Qed.

Lemma measure_pava_total (channel : Z) (funcs : list (string * string))
    (st : Measurements * bool) (w : World) :
  exists st', fst (measure_pava visa channel funcs st w) = Ok st'.
Proof.
  revert st w. induction funcs as [|[attr_name template] rest IH]; intros st w.
  - cbn. eauto.
  - cbn [measure_pava]. unfold bind.
    destruct (fst_try_except_ret
                (cmd <- lift (format_command template [("ch", str_of_int channel)]) ;;
                 result <- query visa cmd ;;
                 (if negb (contains "****" result)
                  then value <- lift (_parse_measurement result) ;;
                       ret (setattr (fst st) attr_name value, true)
                  else ret st)) st w) as [st1 H1].
    fold (measure_pava_one visa channel attr_name template st) in H1.
    destruct (measure_pava_one visa channel attr_name template st w) as [r w1].
    cbn [fst] in H1. subst r. apply IH.
Qed.

Lemma measure_pava_connected (channel : Z) (funcs : list (string * string))
    (cmds : list string) (st : Measurements * bool) (w : World) :
  formats_to channel funcs cmds ->
  is_disconnected (drv w) = false ->
  snd (measure_pava visa channel funcs st w) = after_queries cmds w.
Proof.
  intros F. revert st w.
  induction F as [|[attr_name template] cmd rest cmds Hf F IH]; intros st w H.
  - unfold after_queries. cbn. rewrite app_nil_r. now destruct w.
  - cbn [measure_pava]. unfold bind.
    rewrite (measure_pava_one_eq channel attr_name template cmd st w Hf).
    rewrite (query_connected visa cmd w H). cbn [fst snd].
    rewrite after_queries_cons. apply IH. exact H.
Qed.

Lemma measure_pava_sentinels (channel : Z) (funcs : list (string * string))
    (cmds : list string) (st : Measurements * bool) (w : World) :
  formats_to channel funcs cmds ->
  is_disconnected (drv w) = false ->
  sentinel_replies visa cmds (log w) ->
  measure_pava visa channel funcs st w = (Ok st, after_queries cmds w).
Proof.
  intros F. revert st w.
  induction F as [|[attr_name template] cmd rest cmds Hf F IH]; intros st w H S.
  - unfold after_queries. cbn. rewrite app_nil_r. now destruct w.
  - destruct S as [(r & Q & C) S]. cbn [measure_pava]. unfold bind.
    rewrite (measure_pava_one_eq channel attr_name template cmd st w Hf).
    rewrite (query_connected visa cmd w H), Q. cbn [fst snd pava_update].
    rewrite C. rewrite after_queries_cons. apply IH; [exact H | exact S].
Qed.

Lemma measure_pava_disconnected (channel : Z) (funcs : list (string * string))
    (cmds : list string) (st : Measurements * bool) (w : World) :
  formats_to channel funcs cmds ->
  is_disconnected (drv w) = true ->
  measure_pava visa channel funcs st w = (Ok st, w).
Proof.
  intros F. revert st.
  induction F as [|[attr_name template] cmd rest cmds Hf F IH]; intros st H.
  - reflexivity.
  - cbn [measure_pava]. unfold bind.
    rewrite (measure_pava_one_eq channel attr_name template cmd st w Hf).
    rewrite (query_disconnected visa cmd w H). cbn [fst snd pava_update].
    now apply IH.
Qed.

Lemma measure_fallback_total (channel : Z) (st : Measurements * bool) (w : World) :
  exists m, fst (measure_fallback visa np channel st w) = Ok m.
Proof.
  destruct st as [m [|]]; cbn [measure_fallback negb].
  - cbn. eauto.
  - apply fst_try_except_ret.
Qed.

Lemma measure_fallback_computes (channel : Z) (m : Measurements)
    (w w' : World) (wf : WaveformData) :
  capture_waveform visa channel 1000 w = (Ok wf, w') ->
  data_points wf <> [] ->
  measure_fallback visa np channel (m, false) w =
    (Ok (stats_from_samples np (data_points wf) m), w').
Proof.
  intros Hc Hd. cbn [measure_fallback negb]. unfold try_except, bind.
  rewrite Hc. destruct (data_points wf); [contradiction | reflexivity].
Qed.

End MeasureFacts.

Section MeasureChannel.

Variable visa : Visa.
Variable np : Numpy.

Lemma always_timeout_only_capture_waveform (channel num_points : Z) :
  always timeout_only (capture_waveform visa channel num_points).
Proof.
  unfold capture_waveform, waveform_transfer. cbv zeta. tstep.
Qed.

Lemma always_timeout_only_measure_fallback (channel : Z) (st : Measurements * bool) :
  always timeout_only (measure_fallback visa np channel st).
Proof.
  unfold measure_fallback. destruct st as [m [|]]; cbn [negb].
  - apply always_ret.
  - apply always_try_except.
    + apply always_bind.
      * apply always_timeout_only_capture_waveform.
      * intros wf. destruct (data_points wf); apply always_ret.
    + intros e. apply always_ret.
Qed.

Lemma capture_waveform_disconnected (channel num_points : Z) (w : World) :
  is_disconnected (drv w) = true ->
  exists e w', capture_waveform visa channel num_points w = (Raise e, w').
Proof.
  destruct w as [[rn t b [[ti [|]]|] r c] l]; unfold is_disconnected;
    cbn [drv _connected _instrument].
  - intros _. eexists; eexists. reflexivity.
  - rewrite orb_false_r. intros Hc. apply negb_true_iff in Hc. subst c.
    eexists; eexists. lazy. reflexivity.
  - intros _. eexists; eexists. reflexivity.
Qed.

Lemma measure_fallback_disconnected (channel : Z) (st : Measurements * bool) (w : World) :
  is_disconnected (drv w) = true ->
  fst (measure_fallback visa np channel st w) = Ok (fst st).
Proof.
  intros H. destruct st as [m [|]]; cbn [measure_fallback negb fst]; [reflexivity|].
  unfold try_except, bind.
  destruct (capture_waveform_disconnected channel 1000 w H) as (e & w' & ->).
  reflexivity.
Qed.

Lemma measure_channel_never_raises (channel : Z) (w : World) :
  exists m, fst (measure_channel visa np channel w) = Ok m.
Proof.
  unfold measure_channel, bind.
  destruct (measure_frequency_total visa (Measurements_new channel) w) as [m1 H1].
  destruct (measure_frequency visa (Measurements_new channel) w) as [r1 w1].
  cbn [fst] in H1. subst r1.
  destruct (measure_pava_total visa channel measurement_funcs (m1, false) w1) as [st H2].
  destruct (measure_pava visa channel measurement_funcs (m1, false) w1) as [r2 w2].
  cbn [fst] in H2. subst r2.
  apply measure_fallback_total.
Qed.

Lemma measure_channel_queries (channel : Z) (w : World) :
  is_disconnected (drv w) = false ->
  exists evs,
    log (snd (measure_channel visa np channel w)) =
      (log w ++ EvQuery "CYMOMETER?" :: map EvQuery (pava_commands channel) ++ evs)%list.
Proof.
  intros H. unfold measure_channel, bind.
  destruct (measure_frequency_total visa (Measurements_new channel) w) as [m1 H1].
  pose proof (measure_frequency_world visa (Measurements_new channel) w) as W1.
  rewrite (query_connected visa _ w H) in W1. cbn [snd] in W1.
  destruct (measure_frequency visa (Measurements_new channel) w) as [r1 w1].
  cbn [fst snd] in H1, W1. subst r1 w1.
  set (w1 := record_event (EvQuery "CYMOMETER?") w).
  destruct (measure_pava_total visa channel measurement_funcs (m1, false) w1) as [st H2].
  pose proof (measure_pava_connected visa channel measurement_funcs
                (pava_commands channel) (m1, false) w1
                (formats_measurement_funcs channel) H) as W2.
  destruct (measure_pava visa channel measurement_funcs (m1, false) w1) as [r2 w2].
  cbn [fst snd] in H2, W2. subst r2 w2.
  destruct (always_timeout_only_measure_fallback channel st
              (after_queries (pava_commands channel) w1)) as [_ [evs E]].
  exists evs. rewrite E. unfold after_queries, w1, record_event. cbn [log].
  now rewrite <- !app_assoc.
Qed.

Lemma measure_channel_disconnected (channel : Z) (w : World) :
  is_disconnected (drv w) = true ->
  fst (measure_channel visa np channel w) = Ok (Measurements_new channel).
Proof.
  intros H. unfold measure_channel, bind.
  rewrite (measure_frequency_disconnected visa _ w H).
  rewrite (measure_pava_disconnected visa channel measurement_funcs
             (pava_commands channel) _ w (formats_measurement_funcs channel) H).
  now rewrite (measure_fallback_disconnected channel _ w H).
Qed.

(** C2 (amended). [measure_channel] returns a record from every state and for
    every behaviour of the instrument: it never raises, not even on a
    disconnected driver, where the record comes back with every measurement
    absent. On a connected driver the frequency query and the six parameter
    queries all reach the transport, in that order, whatever the earlier ones
    answered. A turn of the loop whose query fails leaves the record and the
    flag as they were and goes on. *)
Theorem C2_measure_channel_degrades (channel : Z) (w : World) :
  (exists m, fst (measure_channel visa np channel w) = Ok m) /\
  (is_disconnected (drv w) = false ->
   exists evs,
     log (snd (measure_channel visa np channel w)) =
       (log w ++ EvQuery "CYMOMETER?" :: map EvQuery (pava_commands channel) ++ evs)%list) /\
  (forall attr_name template cmd st e,
     format_command template [("ch", str_of_int channel)] = Ok cmd ->
     fst (query visa cmd w) = Raise e ->
     measure_pava_one visa channel attr_name template st w =
       (Ok st, snd (query visa cmd w))) /\
  (is_disconnected (drv w) = true ->
   fst (measure_channel visa np channel w) = Ok (Measurements_new channel)).
Proof.
  split; [apply measure_channel_never_raises|].
  split; [apply measure_channel_queries|].
  split; [|apply measure_channel_disconnected].
  intros attr_name template cmd st e F Q.
  rewrite (measure_pava_one_eq visa channel attr_name template cmd st w F).
  now rewrite Q.
Qed.

(** C4. On a connected driver, when the six parameter queries are answered
    with the sentinel and the capture of 1000 points that follows returns a
    waveform with at least one sample, [measure_channel] returns a record
    whose six voltage statistics are computed from those samples: numpy's
    maximum and minimum, their difference, half of it, numpy's mean, and the
    square root of numpy's mean of the squares. *)
Theorem C4_fallback_statistics (channel : Z) (w w3 : World) (wf : WaveformData) :
  is_disconnected (drv w) = false ->
  let w1 := record_event (EvQuery "CYMOMETER?") w in
  sentinel_replies visa (pava_commands channel) (log w1) ->
  capture_waveform visa channel 1000 (after_queries (pava_commands channel) w1)
    = (Ok wf, w3) ->
  data_points wf <> [] ->
  exists m,
    measure_channel visa np channel w = (Ok m, w3) /\
    let data := data_points wf in
    maximum m = Some (np_max np data) /\
    minimum m = Some (np_min np data) /\
    peak_to_peak m = Some (np_max np data - np_min np data)%float /\
    amplitude m = Some ((np_max np data - np_min np data) / 2)%float /\
    mean m = Some (np_mean np data) /\
    rms m = Some (PrimFloat.sqrt (np_mean np (map (fun x => (x * x)%float) data))).
Proof.
  intros H w1 S Hc Hd. unfold measure_channel, bind.
  destruct (measure_frequency_total visa (Measurements_new channel) w) as [m1 H1].
  pose proof (measure_frequency_world visa (Measurements_new channel) w) as W1.
  rewrite (query_connected visa _ w H) in W1. cbn [snd] in W1.
  destruct (measure_frequency visa (Measurements_new channel) w) as [r1 w1'].
  cbn [fst snd] in H1, W1. subst r1 w1'. fold w1.
  rewrite (measure_pava_sentinels visa channel measurement_funcs
             (pava_commands channel) (m1, false) w1
             (formats_measurement_funcs channel) H S).
  rewrite (measure_fallback_computes visa np channel m1 _ w3 wf Hc Hd).
  eexists. split; [reflexivity|]. cbn. repeat split.
Qed.

End MeasureChannel.

(** C2 (counterexample). A driver that never connected is disconnected, and
    [measure_channel] on it returns a record, all fields absent, instead of
    raising. *)
Lemma C2_counterexample_disconnected_returns :
  is_disconnected (drv Bench.fresh) = true /\
  measure_channel Bench.scope Bench.numpy 1 Bench.fresh
    = (Ok (Measurements_new 1), Bench.fresh) /\
  ~ raises (fst (measure_channel Bench.scope Bench.numpy 1 Bench.fresh)).
Proof.
  split; [reflexivity|]. split; [reflexivity|].
  intros [e He]. vm_compute in He. discriminate He.
Qed.

Lemma C2_measure_channel_degrades_witness :
  (exists m, fst (measure_channel Bench.mute Bench.numpy 1 Bench.online) = Ok m) /\
  (exists evs,
     log (snd (measure_channel Bench.mute Bench.numpy 1 Bench.online)) =
       (log Bench.online ++
        EvQuery "CYMOMETER?" :: map EvQuery (pava_commands 1) ++ evs)%list) /\
  measure_pava_one Bench.mute 1 "maximum" SCPICommands.MEASURE_MAX
      (Measurements_new 1, false) Bench.online
    = (Ok (Measurements_new 1, false), record_event (EvQuery "C1:PAVA? MAX") Bench.online).
Proof.
  destruct (C2_measure_channel_degrades Bench.mute Bench.numpy 1 Bench.online)
    as (T & Q & F & _).
  split; [exact T|]. split; [apply Q; reflexivity|].
  apply (F "maximum" SCPICommands.MEASURE_MAX "C1:PAVA? MAX"
           (Measurements_new 1, false) (OscilloscopeError "Query failed: timeout"));
    reflexivity.
Defined.

Lemma C4_fallback_statistics_witness :
  exists m,
    measure_channel Bench.scope Bench.numpy 2 Bench.online
      = (Ok m, snd (measure_channel Bench.scope Bench.numpy 2 Bench.online)) /\
    maximum m = Some 2%float /\
    minimum m = Some (-1)%float /\
    peak_to_peak m = Some 3%float /\
    amplitude m = Some 1.5%float /\
    mean m = Some 0.5%float /\
    rms m = Some (PrimFloat.sqrt 1.5)%float.
Proof.
  apply (C4_fallback_statistics Bench.scope Bench.numpy 2 Bench.online
           (snd (measure_channel Bench.scope Bench.numpy 2 Bench.online))
           bench_waveform).
  - reflexivity.
  - cbn [pava_commands map sentinel_replies].
    repeat (split; [eexists; split; reflexivity|]). exact I.
  - vm_compute. reflexivity.
  - discriminate.
Defined.

(** ** [_parse_waveform_data] *)

Section ParseWaveform.

Local Open Scope list_scope.

Lemma slice_middle {A} (a b c : list A) :
  PyBytes.slice (a ++ b ++ c) (Z.of_nat (List.length a))
        (Z.of_nat (List.length a) + Z.of_nat (List.length b)) = b.
Proof.
  unfold PyBytes.slice. rewrite !length_app.
  set (la := List.length a). set (lb := List.length b). set (lc := List.length c).
  assert (Ha : (Z.of_nat la <? 0) = false) by (apply Z.ltb_ge; lia).
  assert (Hb : (Z.of_nat la + Z.of_nat lb <? 0) = false) by (apply Z.ltb_ge; lia).
  rewrite Ha, Hb.
  replace (Z.min (Z.of_nat la) (Z.of_nat (la + (lb + lc)))) with (Z.of_nat la) by lia.
  replace (Z.min (Z.of_nat la + Z.of_nat lb) (Z.of_nat (la + (lb + lc))))
    with (Z.of_nat la + Z.of_nat lb) by lia.
  replace (Z.of_nat la + Z.of_nat lb - Z.of_nat la) with (Z.of_nat lb) by lia.
  rewrite !Nat2Z.id. subst la lb.
  rewrite skipn_app, skipn_all, Nat.sub_diag. cbn [skipn app].
  rewrite firstn_app, firstn_all, Nat.sub_diag. cbn [firstn]. now rewrite app_nil_r.
Qed.

Lemma startswith_app (s p rest : list byte) :
  PyBytes.startswith s p = true -> PyBytes.startswith (s ++ rest)%list p = true.
Proof.
  revert s. induction p as [|a p IH]; intros s; [reflexivity|].
  destruct s as [|b s]; cbn; [discriminate|].
  intros H. apply andb_true_iff in H as [H1 H2].
  rewrite H1. now apply IH.
Qed.

Lemma contains_app_marker (header rest : list byte) :
  PyBytes.contains marker (header ++ marker ++ rest) = true.
Proof.
  induction header as [|h t IH].
  - reflexivity.
  - cbn [app PyBytes.contains]. rewrite IH. apply orb_true_r.
Qed.

(** The first marker of a reply is the one after a header that has none. *)
Lemma find_after_header (header rest : list byte) (i : Z) :
  PyBytes.contains marker header = false ->
  PyBytes.find_from marker (header ++ marker ++ rest) i = i + Z.of_nat (List.length header).
Proof.
  revert i. induction header as [|h t IH]; intros i Hc.
  - cbn. lia.
  - cbn [PyBytes.contains] in Hc. apply orb_false_iff in Hc as [Hs Ht].
    cbn [app PyBytes.find_from List.length].
    assert (Hs' : PyBytes.startswith (h :: t ++ marker ++ rest) marker = false).
    { unfold marker in *. destruct t as [|h2 t2]; cbn [PyBytes.startswith app] in *.
      - change (Byte.eqb "9" "#") with false. now rewrite andb_false_r.
      - exact Hs. }
    rewrite Hs'. rewrite (IH (i + 1) Ht). lia.
Qed.

Variable visa : Visa.

(** Without the marker the decoder returns no samples and sends nothing. *)
Lemma parse_waveform_no_marker (raw : list byte) (w : World) :
  PyBytes.contains marker raw = false ->
  _parse_waveform_data visa raw w = (Ok [], w).
Proof.
  intros Hc. unfold _parse_waveform_data, try_except.
  fold marker. rewrite Hc, andb_false_r. reflexivity.
Qed.

(** The decoder returns for every reply and every instrument. *)
Lemma parse_waveform_never_raises (raw : list byte) (w : World) :
  exists samples, fst (_parse_waveform_data visa raw w) = Ok samples.
Proof. unfold _parse_waveform_data. apply fst_try_except_ret. Qed.

(** A well-formed reply: a header that starts with [C] and has no marker,
    the marker, nine bytes that [int] reads as the length of the payload,
    the payload, and anything after it. Each sample is the signed byte
    divided by 25 and multiplied by the volts per division the instrument
    reports for channel 1, whichever channel the reply is for. *)
Lemma parse_waveform_well_formed (header count payload trailer : list byte)
    (reply unit : string) (v : float) (w : World) :
  PyBytes.startswith header ["C"%byte] = true ->
  PyBytes.contains marker header = false ->
  List.length count = 9%nat ->
  PyBytes.int_of_bytes count = Ok (Z.of_nat (List.length payload)) ->
  is_disconnected (drv w) = false ->
  visa_query visa (log w) "C1:VDIV?" = Ok reply ->
  strip reply <> EmptyString ->
  nth_error (split (strip reply)) 1 = Some unit ->
  _parse_measurement unit = Ok (Some v) ->
  _parse_waveform_data visa (header ++ marker ++ count ++ payload ++ trailer) w =
    (Ok (map (fun b => (PyFloat.of_Z (PyBytes.int8_of_byte b) / 25 * v)%float) payload),
     record_event (EvQuery "C1:VDIV?") w).
Proof.
  intros Hs Hc Hn Hi Hd Hq Hne Hu Hp.
  unfold _parse_waveform_data, try_except. fold marker.
  rewrite (startswith_app _ _ _ Hs), contains_app_marker. cbn [andb].
  unfold PyBytes.find. rewrite (find_after_header header _ 0 Hc). cbn [Z.add].
  set (hs := Z.of_nat (List.length header)).
  assert (Hneg : (hs <? 0) = false) by (apply Z.ltb_ge; subst hs; lia).
  rewrite Hneg.
  assert (S1 : PyBytes.slice (header ++ marker ++ count ++ payload ++ trailer) (hs + 2) (hs + 11)
               = count).
  { replace (header ++ marker ++ count ++ payload ++ trailer)%list
      with ((header ++ marker) ++ count ++ (payload ++ trailer))%list
      by now rewrite <- !app_assoc.
    replace (hs + 2) with (Z.of_nat (List.length (header ++ marker)))
      by (rewrite length_app; cbn; subst hs; lia).
    replace (hs + 11)
      with (Z.of_nat (List.length (header ++ marker)) + Z.of_nat (List.length count))
      by (rewrite length_app, Hn; cbn; subst hs; lia).
    apply slice_middle. }
  rewrite S1. unfold bind at 1, lift at 1. rewrite Hi.
  assert (S2 : PyBytes.slice (header ++ marker ++ count ++ payload ++ trailer) (hs + 11)
                 (hs + 11 + Z.of_nat (List.length payload)) = payload).
  { replace (header ++ marker ++ count ++ payload ++ trailer)%list
      with ((header ++ marker ++ count) ++ payload ++ trailer)%list
      by now rewrite <- !app_assoc.
    replace (hs + 11) with (Z.of_nat (List.length (header ++ marker ++ count)))
      by (rewrite !length_app, Hn; cbn; subst hs; lia).
    apply slice_middle. }
  rewrite S2. unfold bind at 1.
  rewrite (query_connected visa _ w Hd), Hq.
  destruct (strip reply) as [|c s] eqn:Er; [contradiction|].
  unfold bind, lift, getitem. rewrite Hu, Hp.
  unfold scale_samples, PyBytes.frombuffer_int8. now rewrite map_map.
Qed.

End ParseWaveform.

(** C5 (code at the failing input). On the bench channel 1 is at 1 V per
    division and channel 2 at 2 V. A capture of channel 2 whose block holds
    the bytes 25, -25, 50, 0 decodes to 1, -1, 2, 0 volts: the decoder asks
    for [C1:VDIV?] and scales by channel 1's setting. With channel 2's own
    setting, as the claim has it, the samples would be 2, -2, 4, 0. *)
Theorem C5_waveform_scaled_by_channel_1 :
  fst (capture_waveform Bench.scope 2 1400 Bench.online) = Ok bench_waveform /\
  data_points bench_waveform =
    map (fun x => (PyFloat.of_Z x / 25 * 1)%float) [25; -25; 50; 0] /\
  data_points bench_waveform <>
    map (fun x => (PyFloat.of_Z x / 25 * 2)%float) [25; -25; 50; 0] /\
  visa_query Bench.scope [] "C2:VDIV?" = Ok "C2:VDIV 2.00E+00V" /\
  _parse_measurement "2.00E+00V" = Ok (Some 2%float) /\
  In (EvQuery "C1:VDIV?") (log (snd (capture_waveform Bench.scope 2 1400 Bench.online))) /\
  ~ In (EvQuery "C2:VDIV?") (log (snd (capture_waveform Bench.scope 2 1400 Bench.online))).
Proof.
  split; [vm_compute; reflexivity|].
  split; [vm_compute; reflexivity|].
  split; [vm_compute; discriminate|].
  split; [reflexivity|].
  split; [vm_compute; reflexivity|].
  split.
  - vm_compute. do 12 right. left. reflexivity.
  - vm_compute. intros H.
    repeat (destruct H as [H|H]; [discriminate H|]). exact H.
Qed.

(** The decoder on the bench's channel-2 reply, through the general lemma. *)
Lemma parse_waveform_on_the_bench :
  _parse_waveform_data Bench.scope Bench.waveform_reply Bench.online =
    (Ok [1; -1; 2; 0]%float, record_event (EvQuery "C1:VDIV?") Bench.online).
Proof.
  apply (parse_waveform_well_formed Bench.scope
           (list_byte_of_string "C2:WF DAT2,") (list_byte_of_string "000000004")
           [x19; xe7; x32; x00] [x0a; x0a] "C1:VDIV 1.00E+00V" "1.00E+00V" 1%float);
    first [reflexivity | discriminate | vm_compute; reflexivity].
Qed.

(** * Further properties *)

(** ** The configuration methods: what is sent, and where it stops *)

Section Sequences.

Variable visa : Visa.

Lemma after_writes_cons (c : string) (cs : list string) (w : World) :
  after_writes (c :: cs) w = after_writes cs (record_event (EvWrite c) w).
Proof.
  unfold after_writes, record_event. cbn [drv log map].
  now rewrite <- app_assoc.
Qed.

Lemma after_writes_nil (w : World) : after_writes [] w = w.
Proof. unfold after_writes. cbn. rewrite app_nil_r. now destruct w. Qed.

Lemma after_queries_nil (w : World) : after_queries [] w = w.
Proof. unfold after_queries. cbn. rewrite app_nil_r. now destruct w. Qed.

(** One write followed by the rest of a method. *)
Lemma write_then {A} (c : string) (k : M A) (w : World) :
  is_disconnected (drv w) = false ->
  (write visa c ;; k) w =
    match visa_write visa (log w) c with
    | Ok _ => k (record_event (EvWrite c) w)
    | Raise e => (Raise (OscilloscopeError ("Write failed: " ++ exn_str e)),
                  record_event (EvWrite c) w)
    end.
Proof.
  intros H. unfold bind. rewrite (write_connected visa c w H).
  now destruct (visa_write visa (log w) c).
Qed.

Lemma write_formatted_then {A} (template : string) (kwargs : list (string * string))
    (cmd : string) (k : M A) (w : World) :
  format_command template kwargs = Ok cmd ->
  is_disconnected (drv w) = false ->
  (write_formatted visa template kwargs ;; k) w =
    match visa_write visa (log w) cmd with
    | Ok _ => k (record_event (EvWrite cmd) w)
    | Raise e => (Raise (OscilloscopeError ("Write failed: " ++ exn_str e)),
                  record_event (EvWrite cmd) w)
    end.
Proof.
  intros F H. unfold write_formatted. unfold bind at 1. unfold bind at 1, lift.
  rewrite F. rewrite (write_connected visa cmd w H).
  now destruct (visa_write visa (log w) cmd).
Qed.

Lemma write_formatted_last (template : string) (kwargs : list (string * string))
    (cmd : string) (w : World) :
  format_command template kwargs = Ok cmd ->
  is_disconnected (drv w) = false ->
  write_formatted visa template kwargs w =
    (writes_outcome visa [cmd] (log w), after_writes (written visa [cmd] (log w)) w).
Proof.
  intros F H. unfold write_formatted, bind, lift. rewrite F.
  rewrite (write_connected visa cmd w H). cbn [writes_outcome written].
  destruct (visa_write visa (log w) cmd) as [[]|e];
    now rewrite after_writes_cons, after_writes_nil.
Qed.

Lemma write_last (cmd : string) (w : World) :
  is_disconnected (drv w) = false ->
  write visa cmd w =
    (writes_outcome visa [cmd] (log w), after_writes (written visa [cmd] (log w)) w).
Proof.
  intros H. rewrite (write_connected visa cmd w H). cbn [writes_outcome written].
  destruct (visa_write visa (log w) cmd) as [[]|e];
    now rewrite after_writes_cons, after_writes_nil.
Qed.

End Sequences.

Lemma append_empty_r (s : string) : s ++ "" = s.
Proof. induction s as [|c s IH]; cbn; [reflexivity | now rewrite IH]. Qed.

(** Computes what a template of [SCPICommands] formats to. *)
Ltac format_ok :=
  cbv [format_command format_aux lookup_kw rbind PyStr.rev PyStr.rev_onto
       String.eqb Ascii.eqb Bool.eqb
       SCPICommands.CHANNEL_TRACE SCPICommands.CHANNEL_VDIV
       SCPICommands.CHANNEL_OFFSET SCPICommands.CHANNEL_COUPLING
       SCPICommands.CHANNEL_PROBE SCPICommands.CHANNEL_BWLIMIT
       SCPICommands.TIME_DIV SCPICommands.TIME_DELAY
       SCPICommands.TRIGGER_SELECT SCPICommands.TRIGGER_MODE
       SCPICommands.TRIGGER_LEVEL SCPICommands.TRIGGER_HOLDOFF
       SCPICommands.WAVEFORM_DATA];
  rewrite ?append_empty_r; reflexivity.

(** Splits on the outcome of the first write the goal mentions. *)
Ltac split_on_write :=
  match goal with
  | |- context [visa_write ?visa ?h ?c] =>
      destruct (visa_write visa h c) as [[]|?]; cbv beta iota
  end.

(** Peels the first command off a run of writes. *)
Ltac first_write H :=
  erewrite write_formatted_then; [ | format_ok | exact H ];
  cbn [written writes_outcome];
  rewrite after_writes_cons;
  cbn [append log drv record_event];
  split_on_write; [ | now rewrite after_writes_nil ].

Ltac last_write H :=
  erewrite write_formatted_last; [ | format_ok | exact H ];
  cbn [written writes_outcome append log drv record_event];
  split_on_write;
  rewrite ?after_writes_cons, ?after_writes_nil; reflexivity.

Section ConfigureSends.

Variable visa : Visa.

(** X1. [configure_channel] writes its six commands in order and stops at the
    first one the transport rejects: the commands before it have reached the
    instrument, the ones after it are not sent, and the error is the driver's
    [Write failed: ...]. *)
Theorem configure_channel_sends (config : ChannelConfig) (w : World) :
  is_disconnected (drv w) = false ->
  configure_channel visa config w =
    (writes_outcome visa (channel_commands config) (log w),
     after_writes (written visa (channel_commands config) (log w)) w).
Proof.
  intros H. unfold configure_channel, channel_commands. cbv zeta.
  do 5 first_write H. last_write H.
Qed.

(** X2. [configure_timebase] writes the time per division and then the delay;
    when the first is rejected the second is not sent. *)
Theorem configure_timebase_sends (config : TimebaseConfig) (w : World) :
  is_disconnected (drv w) = false ->
  configure_timebase visa config w =
    (writes_outcome visa (timebase_commands config) (log w),
     after_writes (written visa (timebase_commands config) (log w)) w).
Proof.
  intros H. unfold configure_timebase, timebase_commands.
  first_write H. last_write H.
Qed.

(** X3. [configure_trigger] writes the trigger selection, the mode and the
    level, and then the holdoff if the configuration has one that is not empty;
    it stops at the first command the transport rejects. *)
Theorem configure_trigger_sends (config : TriggerConfig) (w : World) :
  is_disconnected (drv w) = false ->
  configure_trigger visa config w =
    (writes_outcome visa (trigger_commands config) (log w),
     after_writes (written visa (trigger_commands config) (log w)) w).
Proof.
  intros H. unfold configure_trigger, trigger_commands. cbv zeta.
  unfold bind at 1, lift at 1.
  replace (format_command SCPICommands.TRIGGER_SELECT
             [("type", TriggerType_value (tr_trigger_type config));
              ("ch", str_of_int (tr_source config));
              ("slope", TriggerSlope_value (tr_slope config))])
    with (Ok ("TRSE " ++ TriggerType_value (tr_trigger_type config) ++ ",SR,C"
              ++ str_of_int (tr_source config) ++ ","
              ++ TriggerSlope_value (tr_slope config) ++ ",OFF"))
    by (symmetry; format_ok).
  cbv beta iota.
  rewrite (write_then visa _ _ w H).
  destruct (tr_holdoff config) as [[|c h]|]; cbn [truthy_str app];
    cbn [written writes_outcome]; rewrite after_writes_cons;
    cbn [append log drv record_event];
    (split_on_write; [ | now rewrite after_writes_nil ]).
  - do 2 first_write H. unfold ret. now rewrite after_writes_nil.
  - do 2 first_write H. last_write H.
  - do 2 first_write H. unfold ret. now rewrite after_writes_nil.
Qed.

(** One query followed by the rest of a method. *)
Lemma query_then {A} (c : string) (k : string -> M A) (w : World) :
  is_disconnected (drv w) = false ->
  (r <- query visa c ;; k r) w =
    match visa_query visa (log w) c with
    | Ok r => k (strip r) (record_event (EvQuery c) w)
    | Raise e => (Raise (OscilloscopeError ("Query failed: " ++ exn_str e)),
                  record_event (EvQuery c) w)
    end.
Proof.
  intros H. unfold bind. rewrite (query_connected visa c w H).
  now destruct (visa_query visa (log w) c).
Qed.

End ConfigureSends.

(** ** Strings: reversal, stripping, upper case *)

Section StringFacts.

Lemma append_assoc (a b c : string) : (a ++ b) ++ c = a ++ b ++ c.
Proof. induction a as [|x a IH]; cbn; [reflexivity | now rewrite IH]. Qed.

Lemma rev_onto_spec (s acc : string) : rev_onto s acc = rev s ++ acc.
Proof.
  unfold rev. revert acc. induction s as [|c s IH]; intros acc; cbn.
  - reflexivity.
  - rewrite (IH (String c acc)), (IH (String c "")). now rewrite append_assoc.
Qed.

Lemma rev_cons (c : ascii) (s : string) : rev (String c s) = rev s ++ String c "".
Proof. unfold rev at 1. cbn. apply rev_onto_spec. Qed.

Lemma rev_app (a b : string) : rev (a ++ b) = rev b ++ rev a.
Proof.
  induction a as [|c a IH]; cbn [append].
  - cbn. now rewrite append_empty_r.
  - now rewrite !rev_cons, IH, append_assoc.
Qed.

Lemma rev_involutive (s : string) : rev (rev s) = s.
Proof.
  induction s as [|c s IH]; [reflexivity|].
  now rewrite rev_cons, rev_app, IH.
Qed.

Lemma lstrip_head_ok (s : string) : head_ok (lstrip s) = true.
Proof.
  induction s as [|c s IH]; cbn; [reflexivity|].
  destruct (isspace c) eqn:E; [exact IH | cbn; now rewrite E].
Qed.

Lemma lstrip_fixed (s : string) : head_ok s = true -> lstrip s = s.
Proof.
  destruct s as [|c s]; cbn; [reflexivity|].
  now destruct (isspace c).
Qed.

Lemma lstrip_snoc (s : string) (c : ascii) :
  isspace c = false -> lstrip (s ++ String c "") = lstrip s ++ String c "".
Proof.
  intros E. induction s as [|x s IH]; cbn.
  - now rewrite E.
  - now destruct (isspace x).
Qed.

Lemma rstrip_cons (c : ascii) (s : string) :
  isspace c = false -> rstrip (String c s) = String c (rstrip s).
Proof.
  intros E. unfold rstrip.
  now rewrite rev_cons, (lstrip_snoc _ _ E), rev_app.
Qed.

Lemma rstrip_head_ok (s : string) : head_ok s = true -> head_ok (rstrip s) = true.
Proof.
  destruct s as [|c s]; [reflexivity|]. cbn [head_ok]. intros E.
  apply negb_true_iff in E. rewrite (rstrip_cons c s E). cbn. now rewrite E.
Qed.

Lemma rstrip_idempotent (s : string) : rstrip (rstrip s) = rstrip s.
Proof.
  unfold rstrip. rewrite rev_involutive.
  now rewrite (lstrip_fixed _ (lstrip_head_ok (rev s))).
Qed.

Lemma strip_idempotent (s : string) : strip (strip s) = strip s.
Proof.
  unfold strip.
  rewrite (lstrip_fixed (rstrip (lstrip s)))
    by apply rstrip_head_ok, lstrip_head_ok.
  apply rstrip_idempotent.
Qed.

End StringFacts.

(** ** Queries and the read-back methods *)

Section Readback.

Variable visa : Visa.

(** X4. [query] hands back text without white space around it, so the [.strip()]
    its callers apply again changes nothing. *)
Theorem query_reply_is_stripped (command : string) (w w' : World) (reply : string) :
  query visa command w = (Ok reply, w') ->
  strip reply = reply /\
  exists raw, visa_query visa (log w) command = Ok raw /\ reply = strip raw.
Proof.
  destruct (is_disconnected (drv w)) eqn:H.
  - now rewrite (query_disconnected visa command w H).
  - rewrite (query_connected visa command w H).
    destruct (visa_query visa (log w) command) as [raw|e]; [|discriminate].
    intros [= <- _]. split; [apply strip_idempotent | now exists raw].
Qed.

(** X5. [get_channel_config] asks for the scale, the coupling, the probe ratio
    and the offset of the channel, in this order, and returns the four stripped
    replies; it stops at the first query that fails, with the driver's [Query
    failed: ...]. *)
Theorem get_channel_config_asks (channel : Z) (w : World) :
  is_disconnected (drv w) = false ->
  get_channel_config visa channel w =
    (rbind (answers visa (channel_queries channel) (log w)) (fun rs =>
       Ok {| rb_voltage_div := nth 0 rs ""; rb_coupling := nth 1 rs "";
             rb_probe_ratio := nth 2 rs ""; rb_offset := nth 3 rs "" |}),
     after_queries (asked visa (channel_queries channel) (log w)) w).
Proof.
  intros H. unfold get_channel_config, channel_queries. cbv zeta.
  cbn [answers asked].
  do 4 (rewrite query_then by exact H;
        rewrite after_queries_cons;
        cbn [append log drv record_event];
        match goal with
        | |- context [visa_query visa ?h ?c] =>
            destruct (visa_query visa h c) as [?|?]; cbv beta iota;
            cbn [rbind]; [ | now rewrite after_queries_nil ]
        end).
  unfold ret. cbn [nth]. rewrite after_queries_nil, !strip_idempotent. reflexivity.
Qed.

(** X6. [get_timebase] asks for the time per division and then the delay and
    returns the two stripped replies; it stops at the first query that fails. *)
Theorem get_timebase_asks (w : World) :
  is_disconnected (drv w) = false ->
  get_timebase visa w =
    (rbind (answers visa ["TDIV?"; "TRDL?"] (log w)) (fun rs =>
       Ok (nth 0 rs "", nth 1 rs "")),
     after_queries (asked visa ["TDIV?"; "TRDL?"] (log w)) w).
Proof.
  intros H. unfold get_timebase. cbn [answers asked].
  do 2 (rewrite query_then by exact H;
        rewrite after_queries_cons;
        cbn [append log drv record_event];
        match goal with
        | |- context [visa_query visa ?h ?c] =>
            destruct (visa_query visa h c) as [?|?]; cbv beta iota;
            cbn [rbind]; [ | now rewrite after_queries_nil ]
        end).
  unfold ret. cbn [nth]. rewrite after_queries_nil, !strip_idempotent. reflexivity.
Qed.

End Readback.

(** ** The captures on a connected driver *)

Section Captures.

Variable visa : Visa.

(** X7. On a connected driver [capture_screen] returns the bytes the transport
    reads, unchanged, or the driver's [Screen capture failed: ...]; the read is
    not attempted when the dump command is rejected, and the timeout the handle
    had is set again last in every case. *)
Theorem capture_screen_returns_what_it_reads (w : World) (t : Z) :
  _instrument (drv w) = Some {| inst_timeout := t; inst_closed := false |} ->
  is_disconnected (drv w) = false ->
  capture_screen visa w =
    (screen_outcome visa (log w),
     {| drv := drv w; log := log w ++ screen_events visa (log w) t |}).
Proof.
  destruct w as [[rn tm b i r c] l]. cbn [drv log _instrument].
  intros -> H. unfold is_disconnected in H. cbn in H.
  rewrite orb_false_r in H. apply negb_false_iff in H. subst c.
  unfold screen_outcome, screen_events. cbv zeta.
  unfold capture_screen, try_finally, try_except, bind, instrument_get_timeout,
    instrument_set_timeout, get_self, emit, modify_self, write, read_raw,
    visa_call, raise, ret, record_event, is_disconnected, set_instrument.
  cbn -[append app].
  rewrite <- !app_assoc. cbn [app].
  destruct (visa_write visa _ "SCDP") as [[]|e]; cbn -[append app].
  - rewrite <- !app_assoc. cbn [app].
    destruct (visa_read_raw visa _) as [data|e]; cbn -[append app];
      now rewrite <- !app_assoc.
  - now rewrite <- !app_assoc.
Qed.

Lemma waveform_transfer_is_try_finally (channel num_points t : Z) :
  waveform_transfer visa channel num_points t =
    try_finally (waveform_try visa channel num_points)
      (instrument_set_timeout t ;;
       try_except (write visa "WFSU SP,0,NP,0,FP,0") (fun _ => ret tt)).
Proof. reflexivity. Qed.

Lemma cleanup_runs (w w2 : World) (t : Z) :
  timeout_only w w2 ->
  _instrument (drv w) = Some {| inst_timeout := t; inst_closed := false |} ->
  is_disconnected (drv w) = false ->
  (instrument_set_timeout t ;;
   try_except (write visa "WFSU SP,0,NP,0,FP,0") (fun _ => ret tt)) w2 =
    (Ok tt, {| drv := drv w;
               log := log w2 ++ [EvSetTimeout t; EvWrite "WFSU SP,0,NP,0,FP,0"] |}).
Proof.
  intros T Hi H. unfold bind.
  rewrite (set_timeout_restores w w2 t T Hi). unfold try_except.
  rewrite write_connected by exact H.
  unfold record_event, ret. cbn [drv log].
  destruct (visa_write visa _ "WFSU SP,0,NP,0,FP,0") as [[]|e];
    now rewrite <- app_assoc.
Qed.

(** X8. The cleanup of the transfer: the timeout goes back, the command that
    turns decimation off is sent, and whether the instrument takes it or not the
    transfer ends as its [try] part did. *)
Theorem waveform_transfer_cleans_up (channel num_points : Z) (w : World) (t : Z) :
  _instrument (drv w) = Some {| inst_timeout := t; inst_closed := false |} ->
  is_disconnected (drv w) = false ->
  let r := waveform_transfer visa channel num_points t w in
  fst r = fst (waveform_try visa channel num_points w) /\
  drv (snd r) = drv w /\
  exists evs,
    log (snd (waveform_try visa channel num_points w)) = (log w ++ evs)%list /\
    log (snd r) =
      (log w ++ evs ++ [EvSetTimeout t; EvWrite "WFSU SP,0,NP,0,FP,0"])%list.
Proof.
  intros Hi H. rewrite waveform_transfer_is_try_finally. cbv zeta.
  unfold try_finally.
  assert (T : timeout_only w (snd (waveform_try visa channel num_points w)))
    by apply (always_timeout_only_waveform_try visa channel num_points w).
  destruct (waveform_try visa channel num_points w) as [r0 w2]. cbn [snd fst] in *.
  rewrite (cleanup_runs w w2 t T Hi H). cbn [fst snd drv log].
  destruct T as [_ [evs E]].
  split; [reflexivity|]. split; [reflexivity|].
  exists evs. split; [exact E|]. rewrite E. now rewrite <- app_assoc.
Qed.

End Captures.

(** ** The exceptions that can leave the driver *)

Section RaisesOnly.

Context {A0 : Type} (P : exn -> Prop).

Lemma raises_only_ret {A} (a : A) : raises_only P (ret a).
Proof. intros w e. discriminate. Qed.

Lemma raises_only_get_self : raises_only P get_self.
Proof. intros w e. discriminate. Qed.

Lemma raises_only_lift_ok {A} (r : result A) (a : A) :
  r = Ok a -> raises_only P (lift r).
Proof. intros -> w e. discriminate. Qed.

Lemma raises_only_raise {A} (e : exn) : P e -> raises_only P (@raise A e).
Proof. intros He w e'. cbn. now intros [= <-]. Qed.

Lemma raises_only_bind {A B} (m : M A) (k : A -> M B) :
  raises_only P m -> (forall a, raises_only P (k a)) -> raises_only P (bind m k).
Proof.
  intros Hm Hk w e. unfold bind. specialize (Hm w).
  destruct (m w) as [[a|e'] w1]; cbn [fst] in *.
  - apply Hk.
  - intros [= <-]. now apply Hm.
Qed.

(** A handler decides alone what leaves a [try] statement. *)
Lemma raises_only_try_except {A} (m : M A) (h : exn -> M A) :
  (forall e, raises_only P (h e)) -> raises_only P (try_except m h).
Proof.
  intros Hh w e. unfold try_except.
  destruct (m w) as [[a|e'] w1]; cbn [fst]; [discriminate | apply Hh].
Qed.

End RaisesOnly.

Section DriverErrors.

Variable visa : Visa.
Variable np : Numpy.

Lemma raises_only_write (c : string) : raises_only is_oscilloscope_error (write visa c).
Proof.
  unfold write. apply raises_only_bind; [apply raises_only_get_self|].
  intros d. destruct (is_disconnected d).
  - apply raises_only_raise. unfold not_connected. now eexists.
  - apply raises_only_try_except. intros e. apply raises_only_raise. now eexists.
Qed.

Lemma raises_only_query (c : string) : raises_only is_oscilloscope_error (query visa c).
Proof.
  unfold query. apply raises_only_bind; [apply raises_only_get_self|].
  intros d. destruct (is_disconnected d).
  - apply raises_only_raise. unfold not_connected. now eexists.
  - apply raises_only_try_except. intros e. apply raises_only_raise. now eexists.
Qed.

Lemma raises_only_read_raw : raises_only is_oscilloscope_error (read_raw visa).
Proof.
  unfold read_raw. apply raises_only_bind; [apply raises_only_get_self|].
  intros d. destruct (is_disconnected d).
  - apply raises_only_raise. unfold not_connected. now eexists.
  - apply raises_only_try_except. intros e. apply raises_only_raise. now eexists.
Qed.

Lemma raises_only_write_formatted (template : string)
    (kwargs : list (string * string)) (cmd : string) :
  format_command template kwargs = Ok cmd ->
  raises_only is_oscilloscope_error (write_formatted visa template kwargs).
Proof.
  intros F. unfold write_formatted. apply raises_only_bind.
  - now apply (raises_only_lift_ok is_oscilloscope_error _ cmd).
  - intros c. apply raises_only_write.
Qed.

End DriverErrors.

(** Breaks a goal [raises_only P m] along the structure of [m]. *)
Ltac only_raises :=
  repeat first
    [ progress intros
    | apply raises_only_write
    | apply raises_only_query
    | apply raises_only_read_raw
    | (eapply raises_only_write_formatted; format_ok)
    | apply raises_only_ret
    | apply raises_only_get_self
    | (eapply raises_only_lift_ok; format_ok)
    | apply raises_only_try_except
    | apply raises_only_bind
    | match goal with
      | |- raises_only _ (if ?b then _ else _) => destruct b
      | |- raises_only _ (match ?x with _ => _ end) => destruct x
      end ].

Section WhatEscapes.

Variable visa : Visa.
Variable np : Numpy.

Lemma raises_only_waveform_build (channel : Z) (raw : list byte) :
  raises_only is_oscilloscope_error (waveform_build visa channel raw).
Proof.
  unfold waveform_build. apply raises_only_bind.
  - unfold _parse_waveform_data. apply raises_only_try_except.
    intros e. apply raises_only_ret.
  - cbv zeta. only_raises.
Qed.

(** A [finally] clause that always completes leaves the outcome of the body. *)
Lemma try_finally_outcome {A} (body : M A) (fin : M unit) (w1 : World) :
  always timeout_only body ->
  (forall w2, timeout_only w1 w2 -> fst (fin w2) = Ok tt) ->
  fst (try_finally body fin w1) = fst (body w1).
Proof.
  intros Hb Hf. unfold try_finally. specialize (Hb w1).
  destruct (body w1) as [r w2]. cbn [snd] in Hb. specialize (Hf w2 Hb).
  destruct (fin w2) as [[[]|e] w3]; [reflexivity | discriminate].
Qed.

Lemma swallowed_write (c : string) (w : World) :
  fst (try_except (write visa c) (fun _ => ret tt) w) = Ok tt.
Proof.
  unfold try_except. destruct (write visa c w) as [[[]|e] w']; reflexivity.
Qed.

Lemma capture_screen_raises (w : World) (t : Z) :
  _instrument (drv w) = Some {| inst_timeout := t; inst_closed := false |} ->
  forall e, fst (capture_screen visa w) = Raise e -> is_oscilloscope_error e.
Proof.
  intros Hi e. rewrite (capture_screen_unfold visa w t Hi).
  rewrite try_finally_outcome.
  - apply raises_only_try_except. intros e'. apply raises_only_raise. now eexists.
  - apply always_timeout_only_screen_body.
  - intros w2 T. now rewrite (set_timeout_restores _ w2 t T Hi).
Qed.

Lemma capture_waveform_raises (channel num_points : Z) (w : World) (t : Z) :
  _instrument (drv w) = Some {| inst_timeout := t; inst_closed := false |} ->
  forall e, fst (capture_waveform visa channel num_points w) = Raise e ->
            is_oscilloscope_error e.
Proof.
  intros Hi e. rewrite (capture_waveform_unfold visa channel num_points w t Hi).
  set (w1 := record_event EvGetTimeout w).
  assert (Ht : forall e1, fst (waveform_transfer visa channel num_points t w1) = Raise e1 ->
                          is_oscilloscope_error e1).
  { intros e1. unfold waveform_transfer. rewrite try_finally_outcome.
    - apply raises_only_try_except. intros e'. apply raises_only_raise. now eexists.
    - apply always_timeout_only_waveform_try.
    - intros w2 T. unfold bind.
      rewrite (set_timeout_restores w1 w2 t T Hi). apply swallowed_write. }
  unfold bind.
  destruct (waveform_transfer visa channel num_points t w1) as [[raw|e1] w2];
    cbn [fst] in *.
  - apply raises_only_waveform_build.
  - intros [= <-]. now apply Ht.
Qed.

(** On a handle whose session is closed, as [disconnect] leaves it, the two
    captures stop at their first statement, the read of
    [self._instrument.timeout], with PyVISA's [InvalidSession]. *)
Lemma captures_closed_session (channel num_points : Z) (w : World) (i : Instrument) :
  _instrument (drv w) = Some i ->
  inst_closed i = true ->
  capture_screen visa w = (Raise invalid_session, w) /\
  capture_waveform visa channel num_points w = (Raise invalid_session, w).
Proof.
  intros Hi Hc. destruct (timeout_closed w i 0 Hi Hc) as [G _].
  split; [unfold capture_screen | unfold capture_waveform];
    unfold bind at 1; now rewrite G.
Qed.

(** X9. Whatever a driver operation raises is the driver's own
    [OscilloscopeError], with two exceptions, both of the captures, which
    read the handle's timeout outside any [try]: on a driver that has no
    handle at all they end in the [AttributeError] of [None], and on a handle
    whose session [disconnect] has closed in PyVISA's [InvalidSession]. *)
Theorem only_driver_errors_escape (op : DriverOp) (w : World) (e : exn) :
  fst (run_op visa np op w) = Raise e ->
  is_oscilloscope_error e \/
  (starts_with_guard op = false /\
   ((e = no_timeout_attr /\ _instrument (drv w) = None) \/
    (e = invalid_session /\
     exists i, _instrument (drv w) = Some i /\ inst_closed i = true))).
Proof.
  destruct op as [c|c| | | |cfg|ch b|ch|ch v|ch o|cfg| |t|cfg|m| | |ch| |ch n| | ];
    cbn [run_op]; unfold discard;
    try (intros Hr; left; revert Hr; revert w e;
         match goal with
         | |- forall w e, fst (?m w) = Raise e -> _ =>
             change (raises_only is_oscilloscope_error m)
         end;
         first [ unfold reset | unfold clear_status | unfold configure_channel
               | unfold enable_channel | unfold get_channel_config
               | unfold set_voltage_scale | unfold set_voltage_offset
               | unfold configure_timebase | unfold get_timebase
               | unfold set_time_scale | unfold configure_trigger
               | unfold set_trigger_mode | unfold arm_trigger
               | unfold stop_acquisition | unfold auto_setup | unfold get_status
               | idtac ];
         cbv zeta; only_raises; fail).
  - (* measure_channel *)
    intros Hr. exfalso. unfold bind in Hr.
    destruct (measure_channel_never_raises visa np ch w) as [m Hm].
    destruct (measure_channel visa np ch w) as [r w']. cbn [fst] in Hm. subst r.
    discriminate Hr.
  - (* capture_screen *)
    unfold bind. intros Hr.
    destruct (_instrument (drv w)) as [[t [|]]|] eqn:Hi.
    + right. split; [reflexivity|]. right.
      destruct (captures_closed_session 0 0 w _ Hi eq_refl) as [Hs _].
      rewrite Hs in Hr. injection Hr as <-. split; [reflexivity|]. now eexists.
    + left. apply (capture_screen_raises w t Hi).
      destruct (capture_screen visa w) as [[a|e'] w']; [discriminate Hr|].
      cbn in Hr. now injection Hr as <-.
    + right. split; [reflexivity|]. left.
      destruct (captures_never_connected visa 0 0 w Hi) as [Hs _].
      rewrite Hs in Hr. now injection Hr as <-.
  - (* capture_waveform *)
    unfold bind. intros Hr.
    destruct (_instrument (drv w)) as [[t [|]]|] eqn:Hi.
    + right. split; [reflexivity|]. right.
      destruct (captures_closed_session ch n w _ Hi eq_refl) as [_ Hs].
      rewrite Hs in Hr. injection Hr as <-. split; [reflexivity|]. now eexists.
    + left. apply (capture_waveform_raises ch n w t Hi).
      destruct (capture_waveform visa ch n w) as [[a|e'] w']; [discriminate Hr|].
      cbn in Hr. now injection Hr as <-.
    + right. split; [reflexivity|]. left.
      destruct (captures_never_connected visa ch n w Hi) as [_ Hs].
      rewrite Hs in Hr. now injection Hr as <-.
Qed.

End WhatEscapes.

(** ** [measure_channel]: what the record can and cannot hold *)

Section MeasureInvariants.

Variable visa : Visa.
Variable np : Numpy.

Lemma same_frame_refl (m : Measurements) : same_frame m m.
Proof. repeat split. Qed.

Lemma same_frame_trans (a b c : Measurements) :
  same_frame a b -> same_frame b c -> same_frame a c.
Proof.
  unfold same_frame. intros (A1 & A2 & A3 & A4 & A5 & A6 & A7)
    (B1 & B2 & B3 & B4 & B5 & B6 & B7).
  repeat split; congruence.
Qed.

Lemma same_frame_set_stats (a b c d e f : option float) (m : Measurements) :
  same_frame m (set_stats a b c d e f m).
Proof. repeat split. Qed.

Lemma same_frame_setattr (m : Measurements) (attr_name : string) (v : option float) :
  same_frame m (setattr m attr_name v).
Proof.
  unfold setattr.
  repeat match goal with
         | |- context [if ?b then _ else _] => destruct b
         end; first [apply same_frame_set_stats | apply same_frame_refl].
Qed.

(** The first block fills frequency and period and nothing else. *)
Lemma measure_frequency_fills (ch : Z) (w : World) :
  exists m1,
    fst (measure_frequency visa (Measurements_new ch) w) = Ok m1 /\
    channel m1 = ch /\ period m1 = period_of (frequency m1) /\
    rise_time m1 = None /\ fall_time m1 = None /\
    positive_width m1 = None /\ negative_width m1 = None /\
    no_statistics m1.
Proof.
  unfold measure_frequency, try_except, bind, lift, ret, no_statistics.
  destruct (query visa SCPICommands.MEASURE_FREQ w) as [[reply|e] w1].
  2:{ eexists. split; [reflexivity|]. cbn. repeat split. }
  destruct (contains "CYMT" reply).
  2:{ eexists. split; [reflexivity|]. cbn. repeat split. }
  destruct (getitem (split reply) 1) as [freq_str|e].
  2:{ eexists. split; [reflexivity|]. cbn. repeat split. }
  destruct (_parse_measurement freq_str) as [[x|]|e].
  - cbn [period_of]. destruct (negb (x =? 0)%float && (0 <? x)%float) eqn:C;
      eexists; (split; [reflexivity|]); cbn; rewrite C; repeat split.
  - eexists. split; [reflexivity|]. cbn. repeat split.
  - eexists. split; [reflexivity|]. cbn. repeat split.
Qed.

Lemma pava_update_frame (attr_name : string) (st : Measurements * bool)
    (r : result string) :
  same_frame (fst st) (fst (pava_update attr_name st r)) /\
  (snd st = true -> snd (pava_update attr_name st r) = true).
Proof.
  unfold pava_update. destruct r as [reply|e]; [|split; [apply same_frame_refl | auto]].
  destruct (contains "****" reply); [split; [apply same_frame_refl | auto]|].
  destruct (_parse_measurement reply); cbn [fst snd];
    (split; [first [apply same_frame_setattr | apply same_frame_refl] | auto]).
Qed.

Lemma measure_pava_frame (channel : Z) (funcs : list (string * string))
    (cmds : list string) (st : Measurements * bool) (w : World) :
  formats_to channel funcs cmds ->
  exists st',
    fst (measure_pava visa channel funcs st w) = Ok st' /\
    same_frame (fst st) (fst st') /\ (snd st = true -> snd st' = true).
Proof.
  intros F. revert st w.
  induction F as [|[attr_name template] cmd rest cmds Hf F IH]; intros st w.
  - exists st. split; [reflexivity|]. split; [apply same_frame_refl | auto].
  - cbn [measure_pava]. unfold bind.
    rewrite (measure_pava_one_eq visa channel attr_name template cmd st w Hf).
    destruct (pava_update_frame attr_name st (fst (query visa cmd w))) as [S1 T1].
    destruct (IH (pava_update attr_name st (fst (query visa cmd w)))
                 (snd (query visa cmd w))) as (st' & E & S2 & T2).
    exists st'. split; [exact E|]. split.
    + eapply same_frame_trans; eauto.
    + auto.
Qed.

Lemma measure_fallback_frame (channel : Z) (st : Measurements * bool) (w : World) :
  exists m, fst (measure_fallback visa np channel st w) = Ok m /\ same_frame (fst st) m.
Proof.
  destruct st as [m [|]]; cbn [measure_fallback negb fst].
  - exists m. split; [reflexivity | apply same_frame_refl].
  - unfold try_except, bind, ret.
    destruct (capture_waveform visa channel 1000 w) as [[wf|e] w'].
    + destruct (data_points wf); eexists; (split; [reflexivity|]);
        first [apply same_frame_refl | apply same_frame_set_stats].
    + exists m. split; [reflexivity | apply same_frame_refl].
Qed.

(** X10. Whatever the instrument does, [measure_channel] returns a record for
    the channel it was asked about; its period is the reciprocal of a positive
    frequency or absent; rise time, fall time and the two pulse widths are never
    filled in. *)
Theorem measure_channel_record_shape (ch : Z) (w : World) :
  exists m,
    fst (measure_channel visa np ch w) = Ok m /\
    channel m = ch /\
    period m = period_of (frequency m) /\
    rise_time m = None /\ fall_time m = None /\
    positive_width m = None /\ negative_width m = None.
Proof.
  unfold measure_channel, bind.
  destruct (measure_frequency_fills ch w) as (m1 & E1 & C & P & R & F & PW & NW & _).
  destruct (measure_frequency visa (Measurements_new ch) w) as [r1 w1].
  cbn [fst] in E1. subst r1.
  destruct (measure_pava_frame ch measurement_funcs (pava_commands ch) (m1, false) w1
              (formats_measurement_funcs ch)) as (st & E2 & S2 & _).
  destruct (measure_pava visa ch measurement_funcs (m1, false) w1) as [r2 w2].
  cbn [fst] in E2. subst r2.
  destruct (measure_fallback_frame ch st w2) as (m & E3 & S3).
  exists m. split; [exact E3|].
  destruct (same_frame_trans _ _ _ S2 S3) as (A1 & A2 & A3 & A4 & A5 & A6 & A7).
  cbn [fst] in *. rewrite A1, A2, A3, A4, A5, A6, A7.
  repeat split; assumption.
Qed.

End MeasureInvariants.

Section Fallback.

Variable visa : Visa.
Variable np : Numpy.

Lemma measure_pava_flag_stays (channel : Z) (funcs : list (string * string))
    (cmds : list string) (m : Measurements) (w : World) :
  formats_to channel funcs cmds ->
  is_disconnected (drv w) = false ->
  exists m', measure_pava visa channel funcs (m, true) w
             = (Ok (m', true), after_queries cmds w).
Proof.
  intros F H.
  destruct (measure_pava_frame visa channel funcs cmds (m, true) w F)
    as ([m' b] & E & _ & T).
  pose proof (measure_pava_connected visa channel funcs cmds (m, true) w F H) as W.
  destruct (measure_pava visa channel funcs (m, true) w) as [r w'].
  cbn [fst snd] in *. subst r w'. rewrite (T eq_refl). now exists m'.
Qed.

Lemma measure_pava_flag_set (channel : Z) (funcs : list (string * string))
    (cmds : list string) (st : Measurements * bool) (w : World) :
  formats_to channel funcs cmds ->
  is_disconnected (drv w) = false ->
  usable_reply visa cmds (log w) ->
  exists m', measure_pava visa channel funcs st w
             = (Ok (m', true), after_queries cmds w).
Proof.
  intros F. revert st w.
  induction F as [|[attr_name template] cmd rest cmds Hf F IH]; intros st w H U.
  - destruct U.
  - cbn [measure_pava]. unfold bind.
    rewrite (measure_pava_one_eq visa channel attr_name template cmd st w Hf).
    rewrite (query_connected visa cmd w H). cbn [fst snd].
    rewrite after_queries_cons.
    destruct U as [(r & Q & C)|U].
    + rewrite Q. cbn [pava_update]. rewrite C.
      destruct (parse_measurement_never_raises (strip r)) as [v ->].
      now apply measure_pava_flag_stays.
    + now apply IH.
Qed.

(** X11. One parameter reply without the sentinel, numeric or not, is enough to
    rule the waveform fallback out: the seven queries are all that reaches the
    transport. *)
Theorem measure_channel_skips_fallback (ch : Z) (w : World) :
  is_disconnected (drv w) = false ->
  let w1 := record_event (EvQuery "CYMOMETER?") w in
  usable_reply visa (pava_commands ch) (log w1) ->
  snd (measure_channel visa np ch w) = after_queries (pava_commands ch) w1.
Proof.
  intros H w1 U. unfold measure_channel, bind.
  destruct (measure_frequency_total visa (Measurements_new ch) w) as [m1 H1].
  pose proof (measure_frequency_world visa (Measurements_new ch) w) as W1.
  rewrite (query_connected visa _ w H) in W1. cbn [snd] in W1.
  destruct (measure_frequency visa (Measurements_new ch) w) as [r1 w1'].
  cbn [fst snd] in H1, W1. subst r1 w1'. fold w1.
  destruct (measure_pava_flag_set ch measurement_funcs (pava_commands ch) (m1, false) w1
              (formats_measurement_funcs ch) H U) as [m' ->].
  reflexivity.
Qed.

(** X12. When the six parameter replies carry the sentinel and the capture that
    follows raises, or decodes to no sample at all, the record comes back
    without any voltage statistic, and nothing is raised. *)
Theorem measure_channel_fallback_fails (ch : Z) (w : World) :
  is_disconnected (drv w) = false ->
  let w1 := record_event (EvQuery "CYMOMETER?") w in
  let w2 := after_queries (pava_commands ch) w1 in
  sentinel_replies visa (pava_commands ch) (log w1) ->
  match fst (capture_waveform visa ch 1000 w2) with
  | Ok wf => data_points wf = []
  | Raise _ => True
  end ->
  exists m,
    measure_channel visa np ch w = (Ok m, snd (capture_waveform visa ch 1000 w2)) /\
    no_statistics m.
Proof.
  intros H w1 w2 S Hc. unfold measure_channel, bind.
  destruct (measure_frequency_fills visa ch w) as (m1 & H1 & _ & _ & _ & _ & _ & _ & N).
  pose proof (measure_frequency_world visa (Measurements_new ch) w) as W1.
  rewrite (query_connected visa _ w H) in W1. cbn [snd] in W1.
  destruct (measure_frequency visa (Measurements_new ch) w) as [r1 w1'].
  cbn [fst snd] in H1, W1. subst r1 w1'. fold w1.
  rewrite (measure_pava_sentinels visa ch measurement_funcs
             (pava_commands ch) (m1, false) w1
             (formats_measurement_funcs ch) H S).
  fold w2. cbn [measure_fallback negb]. unfold try_except, bind, ret.
  destruct (capture_waveform visa ch 1000 w2) as [[wf|e] w3]; cbn [fst snd] in *.
  - rewrite Hc. now exists m1.
  - now exists m1.
Qed.

End Fallback.

(** ** The context manager *)

Section WithDriver.

Variable visa : Visa.

Lemma connect_failure_clears_flag (w : World) (e : exn) :
  fst (connect visa w) = Raise e -> _connected (drv (snd (connect visa w))) = false.
Proof.
  unfold connect, try_except.
  match goal with |- context [match ?m w with _ => _ end] => destruct (m w) as [[u|e'] w1] end.
  - discriminate.
  - reflexivity.
Qed.

Lemma disconnect_total (w : World) :
  exists w', disconnect w = (Ok tt, w') /\ _connected (drv w') = false /\
             exists evs, log w' = (log w ++ evs)%list /\ forallb closes evs = true.
Proof.
  destruct w as [[rn t b [i|] [r|] c] l]; eexists; (split; [reflexivity|]);
    (split; [reflexivity|]); cbn.
  - exists [EvClose; EvCloseRM]. now rewrite <- app_assoc.
  - exists [EvClose]. now split.
  - exists [EvCloseRM]. now split.
  - exists []. now rewrite app_nil_r.
Qed.

Lemma with_driver_entered {A} (body : M A) (w w1 : World) :
  __enter__ visa w = (Ok tt, w1) ->
  with_driver visa body w =
    (rbind (fst (body w1)) (fun a => Ok (Some a)), snd (disconnect (snd (body w1)))).
Proof.
  intros E. unfold with_driver, bind at 1. rewrite E.
  destruct (body w1) as [r w2]. cbn [fst snd].
  destruct (disconnect_total w2) as (w3 & D & _).
  destruct r; unfold __exit__, bind, ret, raise; rewrite D; reflexivity.
Qed.

Lemma with_driver_not_entered {A} (body : M A) (w w1 : World) (e : exn) :
  __enter__ visa w = (Raise e, w1) ->
  with_driver visa body w = (Raise e, snd (connect visa w)) /\
  _connected (drv (snd (connect visa w))) = false.
Proof.
  intros E. unfold with_driver, bind at 1. rewrite E.
  unfold __enter__, bind, get_self in E.
  destruct (negb (_connected (drv w))); [|discriminate].
  pose proof (connect_failure_clears_flag w e) as F.
  destruct (connect visa w) as [r w']. cbn [fst snd] in *.
  injection E as -> ->. split; [reflexivity | now apply F].
Qed.

(** X13. Whatever the body does and however it ends, the driver's flag is false
    after a [with] statement, and when [__enter__] returned the statement ends
    as the body did: its value comes back, its exception propagates. *)
Theorem with_driver_disconnects {A} (body : M A) (w : World) :
  _connected (drv (snd (with_driver visa body w))) = false /\
  forall w1, __enter__ visa w = (Ok tt, w1) ->
    fst (with_driver visa body w) = rbind (fst (body w1)) (fun a => Ok (Some a)) /\
    snd (with_driver visa body w) = snd (disconnect (snd (body w1))).
Proof.
  split.
  - destruct (__enter__ visa w) as [[[]|e] w1] eqn:E.
    + rewrite (with_driver_entered body w w1 E). cbn [snd].
      destruct (disconnect_total (snd (body w1))) as (w3 & D & F & _).
      now rewrite D.
    + destruct (with_driver_not_entered body w w1 e E) as [-> F]. exact F.
  - intros w1 E. now rewrite (with_driver_entered body w w1 E).
Qed.

(** X14. When connecting fails at the identification query, the [with] statement
    raises the connection error without running the body, and the session it
    opened stays open: the handle is kept and nothing is closed. *)
Theorem with_driver_failed_entry_leaks {A} (body : M A) (w : World) (e : exn) :
  let d := drv w in
  let h1 := (log w ++ [EvResourceManager (chosen_backend d)])%list in
  let h2 := (h1 ++ [EvOpenResource (resource_name d)])%list in
  let h3 := (h2 ++ [EvSetTimeout (timeout d)])%list in
  _connected d = false ->
  visa_resource_manager visa (log w) (chosen_backend d) = Ok tt ->
  visa_open_resource visa h1 (resource_name d) = Ok tt ->
  visa_query visa h3 "*IDN?" = Raise e ->
  let w' := snd (with_driver visa body w) in
  fst (with_driver visa body w) =
    Raise (OscilloscopeError ("Connection failed: Query failed: " ++ exn_str e)) /\
  log w' = (h3 ++ [EvQuery "*IDN?"])%list /\
  _instrument (drv w') = Some {| inst_timeout := timeout d; inst_closed := false |} /\
  _rm (drv w') = Some (ResourceManager_of (chosen_backend d)).
Proof.
  destruct w as [[rn t b i rm c] l]. unfold chosen_backend. cbn -[append].
  intros -> Hrm Hop Hq.
  unfold with_driver, __enter__, connect, try_except, bind, get_self, visa_call,
    SCPICommands.IDENTIFY.
  cbn -[append].
  destruct (truthy_str b); cbn -[append] in *; rewrite Hrm; cbn -[append];
    rewrite Hop; cbn -[append];
    unfold query, bind, get_self, try_except, visa_call; cbn -[append];
    rewrite <- !app_assoc in *; cbn -[append] in *; rewrite Hq; cbn -[append];
    repeat split; now rewrite <- ?app_assoc.
Qed.

End WithDriver.

(** ** The waveform decoder *)

Section Decoder.

Variable visa : Visa.

Lemma slice_after {A} (pre rest : list A) (n : Z) :
  0 <= n ->
  PyBytes.slice (pre ++ rest) (Z.of_nat (List.length pre))
    (Z.of_nat (List.length pre) + n) = firstn (Z.to_nat n) rest.
Proof.
  intros Hn. unfold PyBytes.slice. rewrite length_app.
  set (la := List.length pre). set (lr := List.length rest).
  assert (Ha : (Z.of_nat la <? 0) = false) by (apply Z.ltb_ge; lia).
  assert (Hb : (Z.of_nat la + n <? 0) = false) by (apply Z.ltb_ge; lia).
  rewrite Ha, Hb.
  replace (Z.min (Z.of_nat la) (Z.of_nat (la + lr))) with (Z.of_nat la) by lia.
  rewrite Nat2Z.id. subst la.
  rewrite skipn_app, skipn_all, Nat.sub_diag. cbn [skipn app].
  destruct (Z_le_gt_dec n (Z.of_nat lr)) as [L|G].
  - f_equal. lia.
  - rewrite !firstn_all2; [reflexivity | fold lr; lia | fold lr; lia].
Qed.

(** The decoder on a reply with a header, the marker and nine count bytes:
    the block is what the reply holds of the declared number of bytes, and
    the scale comes from the reply to [C1:VDIV?]. *)
Lemma parse_waveform_block (header count rest : list byte) (n : Z) (w : World) :
  PyBytes.startswith header ["C"%byte] = true ->
  PyBytes.contains marker header = false ->
  List.length count = 9%nat ->
  PyBytes.int_of_bytes count = Ok n ->
  0 <= n ->
  is_disconnected (drv w) = false ->
  _parse_waveform_data visa (header ++ marker ++ count ++ rest) w =
    (match visa_query visa (log w) "C1:VDIV?" with
     | Ok reply =>
         match rbind (vdiv_of_reply (strip reply))
                 (scale_samples (PyBytes.frombuffer_int8 (firstn (Z.to_nat n) rest))) with
         | Ok samples => Ok samples
         | Raise _ => Ok []
         end
     | Raise _ => Ok []
     end, record_event (EvQuery "C1:VDIV?") w).
Proof.
  intros Hs Hc Hl Hi Hn Hd.
  unfold _parse_waveform_data, try_except. fold marker.
  rewrite (startswith_app _ _ _ Hs), contains_app_marker. cbn [andb].
  unfold PyBytes.find. rewrite (find_after_header header _ 0 Hc). cbn [Z.add].
  set (hs := Z.of_nat (List.length header)).
  assert (Hneg : (hs <? 0) = false) by (apply Z.ltb_ge; subst hs; lia).
  rewrite Hneg.
  assert (S1 : PyBytes.slice (header ++ marker ++ count ++ rest) (hs + 2) (hs + 11) = count).
  { replace (header ++ marker ++ count ++ rest)%list
      with ((header ++ marker) ++ count ++ rest)%list by now rewrite <- !app_assoc.
    replace (hs + 2) with (Z.of_nat (List.length (header ++ marker)))
      by (rewrite length_app; cbn; subst hs; lia).
    replace (hs + 11)
      with (Z.of_nat (List.length (header ++ marker)) + Z.of_nat (List.length count))
      by (rewrite length_app, Hl; cbn; subst hs; lia).
    apply slice_middle. }
  rewrite S1. unfold bind at 1, lift at 1. rewrite Hi.
  assert (S2 : PyBytes.slice (header ++ marker ++ count ++ rest) (hs + 11) (hs + 11 + n)
               = firstn (Z.to_nat n) rest).
  { replace (header ++ marker ++ count ++ rest)%list
      with ((header ++ marker ++ count) ++ rest)%list by now rewrite <- !app_assoc.
    replace (hs + 11) with (Z.of_nat (List.length (header ++ marker ++ count)))
      by (rewrite !length_app, Hl; cbn; subst hs; lia).
    now apply slice_after. }
  rewrite S2. unfold bind at 1.
  rewrite (query_connected visa _ w Hd).
  destruct (visa_query visa (log w) "C1:VDIV?") as [reply|e]; [|reflexivity].
  unfold vdiv_of_reply.
  destruct (strip reply) as [|c s].
  - unfold bind, ret, lift. cbn [rbind].
    now destruct (scale_samples _ _).
  - unfold bind, ret, lift.
    destruct (getitem (split (String c s)) 1) as [u|e]; [|reflexivity].
    cbn [rbind].
    destruct (_parse_measurement u) as [v|e]; [|reflexivity].
    cbn [rbind]. now destruct (scale_samples _ _).
Qed.

(** X15. The byte count of the header is an upper bound, not a requirement: the
    decoder converts the bytes that are there, up to the declared number, and
    drops what follows them. Each sample is the signed byte divided by 25 and
    multiplied by the scale [vdiv_of_reply] reads, which is 1.0 for an empty
    reply. *)
Theorem decoder_reads_available_block (header count rest : list byte) (n : Z)
    (reply : string) (v : float) (w : World) :
  PyBytes.startswith header ["C"%byte] = true ->
  PyBytes.contains marker header = false ->
  List.length count = 9%nat ->
  PyBytes.int_of_bytes count = Ok n ->
  0 <= n ->
  is_disconnected (drv w) = false ->
  visa_query visa (log w) "C1:VDIV?" = Ok reply ->
  vdiv_of_reply (strip reply) = Ok (Some v) ->
  _parse_waveform_data visa (header ++ marker ++ count ++ rest) w =
    (Ok (map (fun b => (PyFloat.of_Z (PyBytes.int8_of_byte b) / 25 * v)%float)
             (firstn (Z.to_nat n) rest)),
     record_event (EvQuery "C1:VDIV?") w).
Proof.
  intros Hs Hc Hl Hi Hn Hd Hq Hv.
  rewrite (parse_waveform_block header count rest n w Hs Hc Hl Hi Hn Hd), Hq, Hv.
  cbn [rbind scale_samples]. unfold PyBytes.frombuffer_int8. now rewrite map_map.
Qed.

(** X16. When the scale cannot be had (the query fails, the reply has a single
    word, or its second word is not a number while the block has samples), the
    decoder returns no samples and raises nothing; the query has gone out. *)
Theorem decoder_without_scale (header count rest : list byte) (n : Z) (w : World) :
  PyBytes.startswith header ["C"%byte] = true ->
  PyBytes.contains marker header = false ->
  List.length count = 9%nat ->
  PyBytes.int_of_bytes count = Ok n ->
  0 <= n ->
  is_disconnected (drv w) = false ->
  match visa_query visa (log w) "C1:VDIV?" with
  | Raise _ => True
  | Ok reply =>
      match vdiv_of_reply (strip reply) with
      | Raise _ => True
      | Ok None => firstn (Z.to_nat n) rest <> []
      | Ok (Some _) => False
      end
  end ->
  _parse_waveform_data visa (header ++ marker ++ count ++ rest) w =
    (Ok [], record_event (EvQuery "C1:VDIV?") w).
Proof.
  intros Hs Hc Hl Hi Hn Hd Hq.
  rewrite (parse_waveform_block header count rest n w Hs Hc Hl Hi Hn Hd).
  destruct (visa_query visa (log w) "C1:VDIV?") as [reply|e]; [|reflexivity].
  destruct (vdiv_of_reply (strip reply)) as [[v|]|e]; [contradiction| |reflexivity].
  cbn [rbind scale_samples PyBytes.frombuffer_int8].
  destruct (firstn (Z.to_nat n) rest); [contradiction|reflexivity].
Qed.

End Decoder.

(** ** Laws of [_parse_measurement] *)

Section ParseLaws.

Lemma isspace_upper_char (c : ascii) : isspace (upper_char c) = isspace c.
Proof. destruct c as [[] [] [] [] [] [] [] []]; reflexivity. Qed.

Lemma upper_char_idempotent (c : ascii) : upper_char (upper_char c) = upper_char c.
Proof. destruct c as [[] [] [] [] [] [] [] []]; reflexivity. Qed.

Lemma comma_upper_char (c : ascii) : Ascii.eqb (upper_char c) "," = Ascii.eqb c ",".
Proof. destruct c as [[] [] [] [] [] [] [] []]; reflexivity. Qed.

Lemma upper_idempotent (s : string) : upper (upper s) = upper s.
Proof.
  induction s as [|c s IH]; cbn [upper]; [reflexivity|].
  now rewrite upper_char_idempotent, IH.
Qed.

Lemma upper_lstrip (s : string) : lstrip (upper s) = upper (lstrip s).
Proof.
  induction s as [|c s IH]; cbn [upper lstrip]; [reflexivity|].
  rewrite isspace_upper_char. now destruct (isspace c).
Qed.

Lemma upper_rev_onto (s acc : string) :
  rev_onto (upper s) (upper acc) = upper (rev_onto s acc).
Proof.
  revert acc. induction s as [|c s IH]; intros acc; cbn [upper rev_onto]; [reflexivity|].
  apply (IH (String c acc)).
Qed.

Lemma upper_rev (s : string) : rev (upper s) = upper (rev s).
Proof. apply (upper_rev_onto s ""). Qed.

Lemma upper_strip (s : string) : strip (upper s) = upper (strip s).
Proof.
  unfold strip, rstrip. now rewrite upper_lstrip, upper_rev, upper_lstrip, upper_rev.
Qed.

Lemma upper_contains_comma (s : string) : contains "," (upper s) = contains "," s.
Proof.
  induction s as [|c s IH]; [reflexivity|].
  cbn [upper contains startswith]. rewrite IH. f_equal. f_equal.
  rewrite !(Ascii.eqb_sym ","). apply comma_upper_char.
Qed.

Lemma upper_split_comma (s : string) :
  split_char "," (upper s) = map upper (split_char "," s).
Proof.
  induction s as [|c s IH]; [reflexivity|].
  cbn [upper split_char]. rewrite comma_upper_char, IH.
  destruct (Ascii.eqb c ","); [reflexivity|].
  now destruct (split_char "," s).
Qed.

Lemma getitem_map {A B} (f : A -> B) (l : list A) (i : nat) :
  getitem (map f l) i = rbind (getitem l i) (fun x => Ok (f x)).
Proof.
  unfold getitem. rewrite nth_error_map. now destruct (nth_error l i).
Qed.

(** X17. The case of the letters in a reply makes no difference: a reply and its
    upper-case form parse to the same number, or both to [None]. *)
Theorem parse_measurement_ignores_case (s : string) :
  _parse_measurement (upper s) = _parse_measurement s.
Proof.
  unfold _parse_measurement. f_equal.
  unfold parse_measurement_try. rewrite upper_contains_comma.
  destruct (contains "," s).
  - rewrite upper_split_comma, getitem_map.
    destruct (getitem (split_char "," s) 1) as [v|e]; [|reflexivity].
    cbn [rbind]. now rewrite upper_strip, upper_idempotent.
  - cbn [rbind]. now rewrite upper_strip, upper_idempotent.
Qed.

End ParseLaws.

(** Evaluates the comparisons of two given characters. *)
Ltac eval_eqb :=
  repeat match goal with
         | |- context [Ascii.eqb ?a ?b] =>
             let v := eval vm_compute in (Ascii.eqb a b) in
             match v with
             | true => change (Ascii.eqb a b) with true
             | false => change (Ascii.eqb a b) with false
             end
         end.

(** Evaluates [drop_last] on a given string. *)
Ltac eval_drop_last :=
  repeat match goal with
         | |- context [drop_last ?n ?u] =>
             lazymatch u with
             | append _ _ => fail
             | drop_last _ _ => fail
             | _ => let v := eval vm_compute in (drop_last n u) in
                    change (drop_last n u) with v
             end
         end.

Section SuffixTable.

Lemma endswith_app (b u p : string) :
  endswith (b ++ u) p = startswith (rev u ++ rev b) (rev p).
Proof. unfold endswith. now rewrite rev_app. Qed.

Lemma substring_all_app (a b : string) :
  substring 0 (String.length a) (a ++ b) = a.
Proof.
  induction a as [|c a IH]; cbn [String.length append substring].
  - now destruct b.
  - now rewrite IH.
Qed.

Lemma length_app_string (a b : string) :
  String.length (a ++ b) = (String.length a + String.length b)%nat.
Proof. induction a as [|c a IH]; cbn; [reflexivity | now rewrite IH]. Qed.

Lemma drop_last_app (b u : string) : drop_last (String.length u) (b ++ u) = b.
Proof.
  unfold drop_last. rewrite length_app_string, Nat.add_sub. apply substring_all_app.
Qed.

Lemma drop_last_app2 (b u1 u2 : string) :
  drop_last (String.length u2) (b ++ u1 ++ u2) = b ++ u1.
Proof. rewrite <- append_assoc. apply drop_last_app. Qed.

Lemma substring_app_l (b u : string) (m : nat) :
  substring 0 (String.length b + m) (b ++ u) = b ++ substring 0 m u.
Proof. induction b as [|c b IH]; cbn; [reflexivity | now rewrite IH]. Qed.

Lemma drop_last_split (b u : string) (n : nat) :
  (n <= String.length u)%nat -> drop_last n (b ++ u) = b ++ drop_last n u.
Proof.
  intros H. unfold drop_last. rewrite length_app_string.
  replace (String.length b + String.length u - n)%nat
    with (String.length b + (String.length u - n))%nat by lia.
  apply substring_app_l.
Qed.

(** A digit is none of the letters the suffixes end or begin with. *)
Lemma digit_is_no_letter (d : ascii) :
  isdigit d = true ->
  Ascii.eqb "G" d = false /\ Ascii.eqb "M" d = false /\ Ascii.eqb "K" d = false /\
  Ascii.eqb "U" d = false /\ Ascii.eqb "N" d = false /\ Ascii.eqb "Z" d = false /\
  Ascii.eqb "V" d = false /\ Ascii.eqb "S" d = false.
Proof.
  destruct d as [[] [] [] [] [] [] [] []]; intros H;
    first [discriminate H | repeat split; reflexivity].
Qed.

(** X18. The letters after a number decide the factor as [suffix_table] lists
    them. The unit is taken off first and a prefix after it, so [M] before [V]
    or [S] is mega, as it is on its own; there is no milli. *)
Theorem parse_measurement_suffix_table (s b u : string) (k x : float) :
  contains "," s = false ->
  upper (strip s) = b ++ u ->
  In (u, k) suffix_table ->
  ends_with_digit b = true ->
  PyFloat.float_of_str b = Ok x ->
  _parse_measurement s = Ok (Some (x * k)%float).
Proof.
  intros Hc Hu Hin Hd Hf.
  unfold ends_with_digit in Hd.
  destruct (rev b) as [|d r] eqn:Hr; [discriminate|].
  destruct (digit_is_no_letter d Hd) as (HG & HM & HK & HU & HN & HZ & HV & HS).
  unfold _parse_measurement, parse_measurement_try.
  rewrite Hc. cbn [rbind]. rewrite Hu. clear Hu Hc s.
  unfold suffix_table in Hin. cbn [In] in Hin.
  repeat (destruct Hin as [Hin|Hin]; [injection Hin as <- <-|]); [..|contradiction].
  all: unfold strip_unit, strip_prefix.
  all: repeat progress (rewrite ?endswith_app, ?Hr;
                        cbn [rev rev_onto append startswith];
                        rewrite ?HG, ?HM, ?HK, ?HU, ?HN, ?HZ, ?HV, ?HS;
                        eval_eqb; cbn [andb];
                        rewrite ?drop_last_split by (cbn; lia); eval_drop_last).
  all: rewrite append_empty_r, Hf; reflexivity.
Qed.

End SuffixTable.

(** ** The resources of the MCP server *)

Section SplitFacts.

Lemma startswith_split (s p : string) :
  startswith s p = true -> exists rest, s = p ++ rest.
Proof.
  revert s. induction p as [|a p IH]; intros s H.
  - now exists s.
  - destruct s as [|b s]; [discriminate|]. cbn [startswith] in H.
    apply andb_true_iff in H as [Hab Hs].
    apply Ascii.eqb_eq in Hab as ->.
    destruct (IH s Hs) as [rest ->]. now exists rest.
Qed.

Lemma split_char_not_nil (sep : ascii) (s : string) : split_char sep s <> [].
Proof.
  induction s as [|c s IH]; cbn [split_char]; [discriminate|].
  destruct (Ascii.eqb c sep); [discriminate|].
  destruct (split_char sep s); [contradiction | discriminate].
Qed.

(** The first field of a split is what stands before the first separator. *)
Lemma split_char_field (sep : ascii) (a rest : string) :
  contains (String sep "") a = false ->
  split_char sep (a ++ String sep rest) = a :: split_char sep rest.
Proof.
  induction a as [|c a IH]; intros H.
  - cbn [append split_char]. now rewrite Ascii.eqb_refl.
  - cbn [contains startswith] in H. rewrite andb_true_r in H.
    apply orb_false_iff in H as [Hc Ha].
    cbn [append split_char]. rewrite Ascii.eqb_sym, Hc. now rewrite (IH Ha).
Qed.

(** The third field of a URI of the scheme [scope] is the word after the
    two slashes, whatever follows it. *)
Lemma third_field (word rest : string) :
  contains "/" word = false ->
  getitem (split_char "/" ("scope://" ++ word ++ String "/" rest)) 2 = Ok word.
Proof.
  intros H.
  change ("scope://" ++ word ++ String "/" rest)
    with ("scope:" ++ String "/" ("" ++ String "/" (word ++ String "/" rest))).
  now rewrite !split_char_field.
Qed.

End SplitFacts.

Section Resources.

Variable visa : Visa.
Variable np : Numpy.
Variable json_dumps : Json -> string.
Variable py_sum : list float -> float.
Variable new_contents : string -> string -> string -> result ResourceContents.

(** What [int] makes of the third field of a channel or waveform URI. *)
Lemma channel_number_of_uri (uri : string) :
  (startswith uri "scope://channels/" = true ->
   rbind (getitem (split_char "/" uri) 2) PyBuiltins.int_of_str =
     Raise (ValueError "invalid literal for int() with base 10: 'channels'") /\
   String.eqb uri "scope://status" = false) /\
  (startswith uri "scope://waveform/" = true ->
   rbind (getitem (split_char "/" uri) 2) PyBuiltins.int_of_str =
     Raise (ValueError "invalid literal for int() with base 10: 'waveform'") /\
   String.eqb uri "scope://status" = false /\
   startswith uri "scope://channels/" = false).
Proof.
  split; intros Hs; destruct (startswith_split _ _ Hs) as [rest ->].
  - change ("scope://channels/" ++ rest)
      with ("scope://" ++ "channels" ++ String "/" rest).
    now rewrite third_field.
  - change ("scope://waveform/" ++ rest)
      with ("scope://" ++ "waveform" ++ String "/" rest).
    now rewrite third_field.
Qed.

(** X19. The URIs of the channel and waveform resources never get past the
    reading of the channel number: the third field of the URI, which [int]
    is given, is the word [channels] or [waveform]. The answer is the text
    of that error, and the driver is not called. *)
Theorem read_resource_channel_uris (uri : string) (w : World) :
  (startswith uri "scope://channels/" = true ->
   endswith uri "/config" || endswith uri "/measurements" = true ->
   read_resource visa np json_dumps py_sum new_contents uri w =
     (reading_failed new_contents uri
        (ValueError "invalid literal for int() with base 10: 'channels'"), w)) /\
  (startswith uri "scope://waveform/" = true ->
   read_resource visa np json_dumps py_sum new_contents uri w =
     (reading_failed new_contents uri
        (ValueError "invalid literal for int() with base 10: 'waveform'"), w)).
Proof.
  destruct (channel_number_of_uri uri) as [Hc Hw]. split.
  - intros Hs He. destruct (Hc Hs) as [C N].
    unfold read_resource, try_except, reading_failed.
    rewrite N, Hs. cbn [andb].
    destruct (endswith uri "/config"); [|cbn [orb] in He; rewrite He];
      unfold bind, lift; rewrite C; reflexivity.
  - intros Hs. destruct (Hw Hs) as (C & N & N').
    unfold read_resource, try_except, reading_failed.
    rewrite N, N', Hs. cbn [andb].
    unfold bind, lift. rewrite C. reflexivity.
Qed.

Lemma get_status_world (w : World) :
  snd (get_status visa w) =
    if is_disconnected (drv w) then w else record_event (EvQuery "*IDN?") w.
Proof.
  unfold get_status, bind, SCPICommands.IDENTIFY.
  destruct (is_disconnected (drv w)) eqn:H.
  - now rewrite (query_disconnected visa _ w H).
  - rewrite (query_connected visa _ w H).
    now destruct (visa_query visa (log w) "*IDN?").
Qed.

Lemma always_still_lift {A} (r : result A) : always still (lift r).
Proof. intros w. reflexivity. Qed.

(** X20. What a read leaves behind: the identification query of [get_status] for
    the three URIs whose readers call it on a connected driver, and nothing for
    any other URI or on a driver that is not connected. No other command is ever
    sent on behalf of a resource. *)
Theorem read_resource_footprint (uri : string) (w : World) :
  snd (read_resource visa np json_dumps py_sum new_contents uri w) =
    if existsb (String.eqb uri) status_uris && negb (is_disconnected (drv w))
    then record_event (EvQuery "*IDN?") w
    else w.
Proof.
  destruct (existsb (String.eqb uri) status_uris) eqn:S.
  - apply existsb_exists in S as (u & Hin & E). apply String.eqb_eq in E. subst u.
    assert (G : snd (get_status visa w) =
                if true && negb (is_disconnected (drv w))
                then record_event (EvQuery "*IDN?") w else w).
    { rewrite get_status_world. now destruct (is_disconnected (drv w)). }
    rewrite <- G. clear G.
    destruct Hin as [<-|[<-|[<-|[]]]]; unfold read_resource;
      cbv [String.eqb Ascii.eqb Bool.eqb startswith endswith rev rev_onto andb];
      [unfold _read_status | unfold _read_trigger_status | unfold _read_timebase_config];
      apply snd_try_except_bind; intros; apply always_still_lift.
  - cbn [andb]. cbn [existsb status_uris] in S.
    apply orb_false_iff in S as [S1 S]. apply orb_false_iff in S as [S2 S].
    apply orb_false_iff in S as [S3 _].
    destruct (channel_number_of_uri uri) as [Hc Hw].
    unfold read_resource, try_except. rewrite S1, S2, S3.
    destruct (startswith uri "scope://channels/") eqn:C; cbn [andb].
    + destruct (Hc eq_refl) as [B _].
      destruct (endswith uri "/config");
        [unfold bind, lift; rewrite B; reflexivity|].
      destruct (endswith uri "/measurements");
        [unfold bind, lift; rewrite B; reflexivity|].
      destruct (startswith uri "scope://waveform/") eqn:W.
      * destruct (Hw eq_refl) as (_ & _ & F). discriminate F.
      * unfold lift.
        now destruct (new_contents uri "text/plain" ("Unknown resource: " ++ uri)).
    + destruct (startswith uri "scope://waveform/") eqn:W.
      * destruct (Hw eq_refl) as (B & _). unfold bind, lift. rewrite B. reflexivity.
      * unfold lift.
        now destruct (new_contents uri "text/plain" ("Unknown resource: " ++ uri)).
Qed.

(** X21. On a driver that is not connected the three status resources answer
    with the text of the driver's error; nothing is raised and nothing is sent. *)
Theorem read_resource_not_connected (uri : string) (w : World) :
  In uri status_uris ->
  is_disconnected (drv w) = true ->
  read_resource visa np json_dumps py_sum new_contents uri w =
    (reading_failed new_contents uri not_connected, w).
Proof.
  intros Hin H.
  assert (G : get_status visa w = (Raise not_connected, w)).
  { unfold get_status, bind. now rewrite (query_disconnected visa _ w H). }
  destruct Hin as [<-|[<-|[<-|[]]]]; unfold read_resource, try_except, reading_failed;
    cbv [String.eqb Ascii.eqb Bool.eqb startswith endswith rev rev_onto andb];
    [unfold _read_status | unfold _read_trigger_status | unfold _read_timebase_config];
    unfold bind; rewrite G; reflexivity.
Qed.

End Resources.

(** ** Status and the second field *)

Section StatusFlag.

Variable visa : Visa.

(** X22. A status that comes back never says [connected = False]: on a driver
    that is not connected [get_status] raises instead of answering. *)
Theorem get_status_reports_connected (w w' : World) (st : ScopeStatus) :
  get_status visa w = (Ok st, w') ->
  connected st = true /\ is_disconnected (drv w) = false.
Proof.
  intros H. destruct (is_disconnected (drv w)) eqn:D.
  - unfold get_status, bind in H. rewrite (query_disconnected visa _ w D) in H.
    discriminate H.
  - split; [|reflexivity].
    unfold get_status, bind in H. rewrite (query_connected visa _ w D) in H.
    destruct (visa_query visa (log w) SCPICommands.IDENTIFY); [|discriminate H].
    cbn in H. injection H as <- <-. cbn.
    unfold is_disconnected in D. apply orb_false_iff in D as [D _].
    now destruct (_connected (drv w)).
Qed.

End StatusFlag.

Section SecondField.

Lemma split_char_fields (sep : ascii) (s f : string) :
  In f (split_char sep s) -> contains (String sep "") f = false.
Proof.
  revert f. induction s as [|c s IH]; intros f Hin.
  - destruct Hin as [<-|[]]. reflexivity.
  - cbn [split_char] in Hin. destruct (Ascii.eqb c sep) eqn:E.
    + destruct Hin as [<-|Hin]; [reflexivity | now apply IH].
    + pose proof (split_char_not_nil sep s) as N.
      destruct (split_char sep s) as [|x xs]; [contradiction|].
      destruct Hin as [<-|Hin].
      * cbn [contains startswith]. rewrite Ascii.eqb_sym, E. cbn [andb orb].
        apply IH. now left.
      * apply IH. now right.
Qed.

(** X23. Of a reply with commas only the second field counts: what stands before
    the first comma and after the second is never looked at. *)
Theorem parse_measurement_second_field (s field : string) :
  contains "," s = true ->
  nth_error (split_char "," s) 1 = Some field ->
  _parse_measurement s = _parse_measurement field.
Proof.
  intros Hc Hn.
  assert (F : contains "," field = false).
  { apply (split_char_fields "," s). eapply nth_error_In, Hn. }
  unfold _parse_measurement, parse_measurement_try, getitem.
  now rewrite Hc, Hn, F.
Qed.

End SecondField.

(** ** Examples *)

(** An instrument that rejects the coupling command: the first four commands
    of [configure_channel] go out, the last two do not. *)
Lemma configure_channel_sends_witness :
  configure_channel Lab.picky (ChannelConfig_new 1 true "1V" "0V")
      (Lab.connected_to Lab.picky) =
    (Raise (OscilloscopeError "Write failed: rejected"),
     after_writes ["C1:TRA ON"; "C1:VDIV 1V"; "C1:OFST 0V"; "C1:CPL D1M"]
       (Lab.connected_to Lab.picky)).
Proof.
  apply (configure_channel_sends Lab.picky (ChannelConfig_new 1 true "1V" "0V")
           (Lab.connected_to Lab.picky)).
  reflexivity.
Defined.

Lemma configure_timebase_sends_witness :
  configure_timebase Bench.scope (TimebaseConfig_new "1MS" "0S") Bench.online =
    (Ok tt, after_writes ["TDIV 1MS"; "TRDL 0S"] Bench.online).
Proof.
  apply (configure_timebase_sends Bench.scope (TimebaseConfig_new "1MS" "0S") Bench.online).
  reflexivity.
Defined.

(** A trigger with a holdoff: four commands. *)
Lemma configure_trigger_sends_witness :
  configure_trigger Bench.scope
      {| tr_source := 1; tr_mode := NORMAL; tr_trigger_type := EDGE;
         tr_slope := FALLING; tr_level := "1.5V"; tr_holdoff := Some "100NS" |}
      Bench.online =
    (Ok tt,
     after_writes ["TRSE EDGE,SR,C1,NEG,OFF"; "TRMD NORM"; "C1:TRLV 1.5V"; "TRHLD 100NS"]
       Bench.online).
Proof.
  apply (configure_trigger_sends Bench.scope
           {| tr_source := 1; tr_mode := NORMAL; tr_trigger_type := EDGE;
              tr_slope := FALLING; tr_level := "1.5V"; tr_holdoff := Some "100NS" |}
           Bench.online).
  reflexivity.
Defined.

Lemma query_reply_is_stripped_witness :
  strip "1.00E+00V" = "1.00E+00V" /\
  exists raw,
    visa_query Lab.picky (log (Lab.connected_to Lab.picky)) "C1:VDIV?" = Ok raw /\
    "1.00E+00V" = strip raw.
Proof.
  apply (query_reply_is_stripped Lab.picky "C1:VDIV?" (Lab.connected_to Lab.picky)
           (record_event (EvQuery "C1:VDIV?") (Lab.connected_to Lab.picky)) "1.00E+00V").
  reflexivity.
Defined.

Lemma get_channel_config_asks_witness :
  get_channel_config Bench.scope 1 Bench.online =
    (Ok {| rb_voltage_div := "C1:VDIV 1.00E+00V"; rb_coupling := "";
           rb_probe_ratio := ""; rb_offset := "" |},
     after_queries ["C1:VDIV?"; "C1:CPL?"; "C1:ATTN?"; "C1:OFST?"] Bench.online).
Proof.
  apply (get_channel_config_asks Bench.scope 1 Bench.online).
  reflexivity.
Defined.

(** An instrument that stops answering: the first query goes out, the second
    does not. *)
Lemma get_timebase_asks_witness :
  get_timebase Bench.mute Bench.online =
    (Raise (OscilloscopeError "Query failed: timeout"),
     after_queries ["TDIV?"] Bench.online).
Proof.
  apply (get_timebase_asks Bench.mute Bench.online).
  reflexivity.
Defined.

Lemma capture_screen_returns_what_it_reads_witness :
  capture_screen Bench.scope Bench.online =
    (Ok Bench.waveform_reply,
     {| drv := drv Bench.online;
        log := log Bench.online ++
               [EvGetTimeout; EvSetTimeout 10000; EvWrite "SCDP"; EvReadRaw;
                EvSetTimeout 10000] |}).
Proof.
  apply (capture_screen_returns_what_it_reads Bench.scope Bench.online 10000);
    reflexivity.
Defined.

(** A transfer that times out: the error comes back and the two cleanup
    steps have run. *)
Lemma waveform_transfer_cleans_up_witness :
  let w := Lab.connected_to Lab.stalled in
  let r := waveform_transfer Lab.stalled 1 1000 10000 w in
  fst r = fst (waveform_try Lab.stalled 1 1000 w) /\
  drv (snd r) = drv w /\
  exists evs,
    log (snd (waveform_try Lab.stalled 1 1000 w)) = (log w ++ evs)%list /\
    log (snd r) =
      (log w ++ evs ++ [EvSetTimeout 10000; EvWrite "WFSU SP,0,NP,0,FP,0"])%list.
Proof.
  apply (waveform_transfer_cleans_up Lab.stalled 1 1000 (Lab.connected_to Lab.stalled) 10000);
    reflexivity.
Defined.

(** A screen capture after [connect] and [disconnect]: the session is
    closed and the read of its timeout raises [InvalidSession]. *)
Lemma only_driver_errors_escape_witness :
  is_oscilloscope_error invalid_session \/
  (starts_with_guard OpCaptureScreen = false /\
   ((invalid_session = no_timeout_attr /\ _instrument (drv Lab.hung_up) = None) \/
    (invalid_session = invalid_session /\
     exists i, _instrument (drv Lab.hung_up) = Some i /\ inst_closed i = true))).
Proof.
  apply (only_driver_errors_escape Bench.scope Bench.numpy OpCaptureScreen Lab.hung_up
           invalid_session).
  reflexivity.
Defined.

Lemma measure_channel_skips_fallback_witness :
  snd (measure_channel Lab.live Bench.numpy 1 (Lab.connected_to Lab.live)) =
    after_queries (pava_commands 1)
      (record_event (EvQuery "CYMOMETER?") (Lab.connected_to Lab.live)).
Proof.
  apply (measure_channel_skips_fallback Lab.live Bench.numpy 1 (Lab.connected_to Lab.live)).
  - reflexivity.
  - left. exists "C1:PAVA PKPK,2.50E+00V". split; reflexivity.
Defined.

Lemma measure_channel_fallback_fails_witness :
  let w := Lab.connected_to Lab.stalled in
  let w2 := after_queries (pava_commands 1) (record_event (EvQuery "CYMOMETER?") w) in
  exists m,
    measure_channel Lab.stalled Bench.numpy 1 w =
      (Ok m, snd (capture_waveform Lab.stalled 1 1000 w2)) /\
    no_statistics m.
Proof.
  apply (measure_channel_fallback_fails Lab.stalled Bench.numpy 1
           (Lab.connected_to Lab.stalled)).
  - reflexivity.
  - repeat split; exists "C1:PAVA PKPK,****"; split; reflexivity.
  - vm_compute. exact I.
Defined.

(** An instrument that opens but does not answer the identification query. *)
Lemma with_driver_failed_entry_leaks_witness :
  let w' := snd (with_driver Bench.mute (ret tt) Bench.fresh) in
  fst (with_driver Bench.mute (ret tt) Bench.fresh) =
    Raise (OscilloscopeError "Connection failed: Query failed: timeout") /\
  log w' = [EvResourceManager None; EvOpenResource "USB0::0xF4ED::0xEE3A::INSTR";
            EvSetTimeout 10000; EvQuery "*IDN?"] /\
  _instrument (drv w') = Some {| inst_timeout := 10000; inst_closed := false |} /\
  _rm (drv w') = Some (ResourceManager_of None).
Proof.
  apply (with_driver_failed_entry_leaks Bench.mute (ret tt) Bench.fresh (VisaError "timeout"));
    reflexivity.
Defined.

(** Ten bytes declared, two sent: two samples. *)
Lemma decoder_reads_available_block_witness :
  _parse_waveform_data Bench.scope Lab.short_reply Bench.online =
    (Ok [1; -1]%float, record_event (EvQuery "C1:VDIV?") Bench.online).
Proof.
  apply (decoder_reads_available_block Bench.scope
           (list_byte_of_string "C1:WF DAT2,") (list_byte_of_string "000000010")
           [x19; xe7] 10 "C1:VDIV 1.00E+00V" 1%float Bench.online);
    first [reflexivity | lia | vm_compute; reflexivity].
Defined.

Lemma decoder_without_scale_witness :
  _parse_waveform_data Bench.mute Lab.short_reply Bench.online =
    (Ok [], record_event (EvQuery "C1:VDIV?") Bench.online).
Proof.
  apply (decoder_without_scale Bench.mute
           (list_byte_of_string "C1:WF DAT2,") (list_byte_of_string "000000010")
           [x19; xe7] 10 Bench.online);
    first [reflexivity | lia | exact I].
Defined.

(** Five hundred millivolts, as the models' documentation writes them, read
    as five hundred megavolts. *)
Lemma parse_measurement_suffix_table_witness :
  _parse_measurement " 500mV " = Ok (Some (500 * 1e6)%float).
Proof.
  apply (parse_measurement_suffix_table " 500mV " "500" "MV" 1e6%float 500%float);
    first [reflexivity | vm_compute; reflexivity | cbn; tauto].
Defined.

Lemma read_resource_channel_uris_witness :
  read_resource Lab.live Bench.numpy Lab.dumps Lab.total Lab.contents
      "scope://channels/1/measurements" (Lab.connected_to Lab.live) =
    (Ok {| uri := "scope://channels/1/measurements"; mimeType := "text/plain";
           text := "Error reading resource scope://channels/1/measurements: invalid literal for int() with base 10: 'channels'" |},
     Lab.connected_to Lab.live).
Proof.
  apply (read_resource_channel_uris Lab.live Bench.numpy Lab.dumps Lab.total Lab.contents
           "scope://channels/1/measurements" (Lab.connected_to Lab.live));
    reflexivity.
Defined.

Lemma read_resource_not_connected_witness :
  read_resource Bench.scope Bench.numpy Lab.dumps Lab.total Lab.contents
      "scope://status" Bench.fresh =
    (Ok {| uri := "scope://status"; mimeType := "text/plain";
           text := "Error reading resource scope://status: Not connected to oscilloscope" |},
     Bench.fresh).
Proof.
  apply (read_resource_not_connected Bench.scope Bench.numpy Lab.dumps Lab.total
           Lab.contents "scope://status" Bench.fresh).
  - left. reflexivity.
  - reflexivity.
Defined.

Lemma get_status_reports_connected_witness :
  connected
    {| connected := true; model := "SDS1202X-E"; serial_number := "SDS1EEFX803161";
       firmware_version := "1.3.27";
       channels := [ChannelConfig_new 1 true "1V" "0V"; ChannelConfig_new 2 true "1V" "0V"];
       timebase := TimebaseConfig_new "1MS" "0S";
       trigger := TriggerConfig_new 1 AUTO;
       acquisition_running := true; memory_depth := None |} = true /\
  is_disconnected (drv Bench.online) = false.
Proof.
  apply (get_status_reports_connected Bench.scope Bench.online
           (record_event (EvQuery "*IDN?") Bench.online)).
  vm_compute. reflexivity.
Defined.

(** A third field after the value changes nothing. *)
Lemma parse_measurement_second_field_witness :
  _parse_measurement "C1:PAVA PKPK,2.5V,extra" = _parse_measurement "2.5V".
Proof.
  apply (parse_measurement_second_field "C1:PAVA PKPK,2.5V,extra" "2.5V"); reflexivity.
Defined.
